(** * Office management system: the search and indexing core

    A shallow embedding of the hybrid semantic/lexical search engine
    ([app/services/search_service.py]), the vector index service
    ([app/services/embedding_service.py]) and the expense creation path
    ([app/services/expense_service.py], [app/routes/expenses.py]), with the
    properties the specification states about them, followed by further
    properties of these services, of the indexing of GST claims
    ([app/services/gst_service.py]) and of the search route
    ([app/routes/search.py]).

    Conventions of the embedding.
    - Text is a [string] of ASCII characters; [\w], [\s], [\b] and
      [str.lower] are the ASCII restrictions of the Python ones.
    - A Python [float] (amounts, similarity scores, vector coordinates) is a
      rational [Q]; every comparison and product the code performs is the
      exact one.
    - The in-memory [id_map] dictionary is a [gmap] from slot numbers.
    - A table is the list of its rows in stored order; a query without
      [ORDER BY] returns them in that order and does not fail.  The JSON
      text of a stored vector is the vector it decodes to.
    - The faiss index is the list of its vectors; a search orders the slots
      by squared distance, equal distances by slot number.
    - Collaborators outside the repository (difflib, the sentence encoder,
      the clock, the iteration order of a Python [set], the printing of a
      float) are the fields of the class [Externals]; the module [Python]
      gives them concrete models for running the services. *)

From Stdlib Require Import Ascii String List ZArith QArith Bool Lia PeanoNat Sorted Permutation.
From stdpp Require Import gmap strings.
Import ListNotations.

(** ** Text primitives (str methods used by the services) *)
Module Text.

Definition code (c : ascii) : nat := nat_of_ascii c.

Definition is_upper (c : ascii) : bool := (65 <=? code c)%nat && (code c <=? 90)%nat.
Definition is_lower (c : ascii) : bool := (97 <=? code c)%nat && (code c <=? 122)%nat.
Definition is_digit (c : ascii) : bool := (48 <=? code c)%nat && (code c <=? 57)%nat.
Definition is_alpha (c : ascii) : bool := is_upper c || is_lower c.

(** [\w]: letters, digits and the underscore. *)
Definition is_word (c : ascii) : bool :=
  is_alpha c || is_digit c || (code c =? 95)%nat.

(** [\s] and [str.isspace]: tab, newline, vertical tab, form feed, carriage
    return, the four separators 28..31 and the space. *)
Definition is_space (c : ascii) : bool :=
  ((9 <=? code c)%nat && (code c <=? 13)%nat)
  || ((28 <=? code c)%nat && (code c <=? 32)%nat).

Definition lower_char (c : ascii) : ascii :=
  if is_upper c then ascii_of_nat (code c + 32) else c.
Definition upper_char (c : ascii) : ascii :=
  if is_lower c then ascii_of_nat (code c - 32) else c.

(** [s.lower()] *)
Fixpoint lower (s : string) : string :=
  match s with
  | EmptyString => EmptyString
  | String c r => String (lower_char c) (lower r)
  end.

(** [s.capitalize()] *)
Definition capitalize (s : string) : string :=
  match s with
  | EmptyString => EmptyString
  | String c r => String (upper_char c) (lower r)
  end.

(** [s.startswith(p)] *)
Fixpoint starts_with (p s : string) : bool :=
  match p, s with
  | EmptyString, _ => true
  | String _ _, EmptyString => false
  | String a p', String b s' => Ascii.eqb a b && starts_with p' s'
  end.

(** [p in s] on strings: [p] occurs as a contiguous substring of [s]. *)
Fixpoint contains (p s : string) : bool :=
  starts_with p s ||
  match s with
  | EmptyString => false
  | String _ r => contains p r
  end.

(** [x in l] on a list of strings. *)
Definition mem (x : string) (l : list string) : bool :=
  existsb (String.eqb x) l.

(** [sep.join(l)] *)
Fixpoint join (sep : string) (l : list string) : string :=
  match l with
  | [] => EmptyString
  | [x] => x
  | x :: r => String.append x (String.append sep (join sep r))
  end.

Definition chars (s : string) : list ascii := list_ascii_of_string s.
Definition of_chars (l : list ascii) : string := string_of_list_ascii l.

(** Maximal runs of characters satisfying [keep]; [acc] is the run being
    read, in reverse. *)
Fixpoint runs (keep : ascii -> bool) (s : string) (acc : list ascii) : list string :=
  let flush := match acc with [] => [] | _ => [of_chars (rev acc)] end in
  match s with
  | EmptyString => flush
  | String c r =>
      if keep c then runs keep r (c :: acc)
      else flush ++ runs keep r []
  end.

(** [s.split()]: the maximal runs of non-blank characters. *)
Definition split (s : string) : list string :=
  runs (fun c => negb (is_space c)) s [].

(** Decimal rendering of a natural number, [str(n)]. *)
Fixpoint digits (fuel n : nat) (acc : string) : string :=
  match fuel with
  | O => acc
  | S f =>
      let acc' := String (ascii_of_nat (48 + n mod 10)) acc in
      if (n <? 10)%nat then acc' else digits f (n / 10) acc'
  end.
Definition of_nat (n : nat) : string := digits (S n) n EmptyString.

(** [str(z)] for a Python [int]. *)
Definition of_Z (z : Z) : string :=
  if (z <? 0)%Z then String "-"%char (of_nat (Z.to_nat (- z)))
  else of_nat (Z.to_nat z).

(** Left padding with zeros up to [w] characters, as [%02d] / [%04d]. *)
Fixpoint zeros (n : nat) : string :=
  match n with O => EmptyString | S k => String "0"%char (zeros k) end.
Definition zfill (w : nat) (s : string) : string :=
  String.append (zeros (w - String.length s)) s.

End Text.

(** ** Regular expressions

    The patterns of [search_service.py] are matched by a backtracking matcher
    with the priorities of Python's [re]: alternatives left to right, greedy
    repetitions longest first, lazy ones shortest first.  Every pattern of
    the service has at most one capturing group. *)
Module Regex.

Inductive re : Type :=
| Eps                                   (* the empty pattern *)
| Chr (f : ascii -> bool)               (* one character of a class *)
| Seq (a b : re)
| Alt (a b : re)
| Rep (greedy : bool) (lo : nat) (hi : option nat) (a : re)
| Bnd                                   (* \b *)
| Grp (a : re).                         (* the capturing group *)

(** A position in the subject: the character before it and what follows. *)
Record pos : Type := { prev : option ascii; rest : list ascii }.

Definition word_opt (o : option ascii) : bool :=
  match o with Some c => Text.is_word c | None => false end.

Definition boundary (p : pos) : bool :=
  xorb (word_opt (prev p)) (word_opt (head (rest p))).

(** The text between two positions of the same subject. *)
Definition between (p q : pos) : string :=
  Text.of_chars (firstn (length (rest p) - length (rest q)) (rest p)).

Definition below (hi : option nat) (n : nat) : bool :=
  match hi with Some h => (n <? h)%nat | None => true end.

Section Matcher.
Context {R : Type}.

Fixpoint run (r : re) (k : pos -> option string -> option R)
         (p : pos) (g : option string) {struct r} : option R :=
  match r with
  | Eps => k p g
  | Chr f =>
      match rest p with
      | c :: cs => if f c then k {| prev := Some c; rest := cs |} g else None
      | [] => None
      end
  | Seq a b => run a (run b k) p g
  | Alt a b =>
      match run a k p g with
      | Some x => Some x
      | None => run b k p g
      end
  | Bnd => if boundary p then k p g else None
  | Grp a => run a (fun q _ => k q (Some (between p q))) p g
  | Rep greedy lo hi a =>
      (fix loop (fuel n : nat) (p : pos) (g : option string) {struct fuel} : option R :=
         match fuel with
         | O => None
         | S fuel' =>
             let again (_ : unit) :=
               if below hi n then
                 run a (fun q g' =>
                          if (length (rest q) <? length (rest p))%nat
                          then loop fuel' (S n) q g' else None) p g
               else None in
             let stop (_ : unit) := if (lo <=? n)%nat then k p g else None in
             if greedy then
               match again tt with Some x => Some x | None => stop tt end
             else
               match stop tt with Some x => Some x | None => again tt end
         end) (S (length (rest p))) O p g
  end.
End Matcher.

(** One match attempt anchored at [p]: the end position and the group. *)
Definition match_at (r : re) (p : pos) : option (pos * option string) :=
  run r (fun q g => Some (q, g)) p None.

(** What [findall] reports for a match: the group when the pattern has one,
    the whole match otherwise. *)
Definition reported (p : pos) (m : pos * option string) : string :=
  match snd m with Some s => s | None => between p (fst m) end.

Definition step (p : pos) : pos :=
  match rest p with
  | c :: cs => {| prev := Some c; rest := cs |}
  | [] => p
  end.

(** [re.findall]: leftmost matches, scanning on after each one. *)
Fixpoint findall_from (fuel : nat) (r : re) (p : pos) : list string :=
  match fuel with
  | O => []
  | S fuel' =>
      match match_at r p with
      | Some m =>
          reported p m ::
          (if (length (rest (fst m)) <? length (rest p))%nat
           then findall_from fuel' r (fst m)
           else match rest p with
                | [] => []
                | _ => findall_from fuel' r (step p)
                end)
      | None =>
          match rest p with
          | [] => []
          | _ => findall_from fuel' r (step p)
          end
      end
  end.

Definition start (s : string) : pos := {| prev := None; rest := Text.chars s |}.

Definition findall (r : re) (s : string) : list string :=
  findall_from (S (String.length s)) r (start s).

(** [re.search(...)] followed by [.group(1)]. *)
Definition search (r : re) (s : string) : option string :=
  head (findall r s).

(** Pattern constructors. *)
Definition lit (c : ascii) : re := Chr (Ascii.eqb c).
(** A literal letter under [re.IGNORECASE]. *)
Definition lit_ci (c : ascii) : re :=
  Chr (fun x => Ascii.eqb (Text.lower_char x) (Text.lower_char c)).
Fixpoint seq (l : list re) : re :=
  match l with
  | [] => Eps
  | [a] => a
  | a :: r => Seq a (seq r)
  end.
Definition str (s : string) : re := seq (map lit (Text.chars s)).
Definition str_ci (s : string) : re := seq (map lit_ci (Text.chars s)).
Definition plus (a : re) : re := Rep true 1 None a.
Definition plus_lazy (a : re) : re := Rep false 1 None a.
Definition opt (a : re) : re := Rep true 0 (Some 1) a.
Definition word : re := Chr Text.is_word.
Definition space : re := Chr Text.is_space.
Definition digit : re := Chr Text.is_digit.
(** [.] matches everything but a newline. *)
Definition dot : re := Chr (fun c => negb (Ascii.eqb c "010"%char)).
Definition range (a b : nat) : re :=
  Chr (fun c => (a <=? Text.code c)%nat && (Text.code c <=? b)%nat).

End Regex.

(** ** difflib

    A model of CPython's [difflib.SequenceMatcher(None, a, b)] and
    [get_close_matches] on strings, used to run the services on concrete
    queries.  No junk predicate is in use; the automatic junk heuristic of
    difflib only concerns a second sequence of 200 elements or more, which is
    outside this model. *)
Module Difflib.

Section Blocks.
Variables a b : list ascii.

(** One pass of the inner loop of [find_longest_match] for [a[i] = x]:
    [j2len] for the new row, from the previous row [old] ([diag] is
    [old[j-1]]). *)
Fixpoint row (x : ascii) (blo bhi j : nat) (bs : list ascii)
         (diag : nat) (old : list nat) : list nat :=
  match bs with
  | [] => []
  | y :: bs' =>
      (if Ascii.eqb x y && (blo <=? j)%nat && (j <? bhi)%nat then S diag else O)
      :: row x blo bhi (S j) bs' (hd O old) (tl old)
  end.

(** [if k > bestsize: besti, bestj, bestsize = i-k+1, j-k+1, k] along a row. *)
Fixpoint scan_row (i j : nat) (r : list nat) (best : nat * nat * nat) : nat * nat * nat :=
  match r with
  | [] => best
  | k :: r' =>
      scan_row i (S j) r'
        (if (snd best <? k)%nat then (i + 1 - k, j + 1 - k, k)%nat else best)
  end.

Fixpoint rows (i : nat) (xs : list ascii) (alo ahi blo bhi : nat)
         (old : list nat) (best : nat * nat * nat) : nat * nat * nat :=
  match xs with
  | [] => best
  | x :: xs' =>
      if (alo <=? i)%nat && (i <? ahi)%nat then
        let new := row x blo bhi O b O old in
        rows (S i) xs' alo ahi blo bhi new (scan_row i O new best)
      else rows (S i) xs' alo ahi blo bhi [] best
  end.

(** [find_longest_match(alo, ahi, blo, bhi)] as [(besti, bestj, bestsize)]. *)
Definition find_longest_match (alo ahi blo bhi : nat) : nat * nat * nat :=
  rows O a alo ahi blo bhi [] (alo, blo, O).

(** The total size of [get_matching_blocks()]. *)
Fixpoint matches (fuel alo ahi blo bhi : nat) : nat :=
  match fuel with
  | O => O
  | S f =>
      let '(i, j, k) := find_longest_match alo ahi blo bhi in
      if (k =? 0)%nat then O
      else
        (k
         + (if (alo <? i)%nat && (blo <? j)%nat then matches f alo i blo j else O)
         + (if (i + k <? ahi)%nat && (j + k <? bhi)%nat
            then matches f (i + k) ahi (j + k) bhi else O))%nat
  end.
End Blocks.

(** [SequenceMatcher(None, a, b).ratio()] *)
Definition ratio (a b : string) : Q :=
  let la := String.length a in
  let lb := String.length b in
  if (la + lb =? 0)%nat then 1%Q
  else
    let m := matches (Text.chars a) (Text.chars b) (S la) O la O lb in
    Qmake (Z.of_nat (2 * m)) (Pos.of_nat (la + lb)).

(** The order of the pairs [(score, x)] that [heapq.nlargest] compares. *)
Definition pair_lt (p q : Q * string) : bool :=
  if Qeq_bool (fst p) (fst q) then String.ltb (snd p) (snd q)
  else negb (Qle_bool (fst q) (fst p)).

(** [max] keeps the first of the largest elements. *)
Fixpoint largest (cur : Q * string) (l : list (Q * string)) : Q * string :=
  match l with
  | [] => cur
  | x :: r => largest (if pair_lt cur x then x else cur) r
  end.

(** [get_close_matches(word, possibilities, n=1, cutoff=cutoff)] *)
Definition get_close_matches (word : string) (possibilities : list string)
           (cutoff : Q) : list string :=
  let scored :=
    flat_map (fun x => let r := ratio x word in
                       if Qle_bool cutoff r then [(r, x)] else [])
             possibilities in
  match scored with
  | [] => []
  | p :: rest => [snd (largest p rest)]
  end.

End Difflib.

(** ** Collaborators outside the repository *)
Class Externals : Type := {
  (** [difflib.SequenceMatcher(None, a, b).ratio()] *)
  sequence_ratio : string -> string -> Q;
  (** [difflib.get_close_matches(word, possibilities, n=1, cutoff=c)] *)
  close_matches : string -> list string -> Q -> list string;
  (** [SentenceTransformer.encode(text)]; [None] when the model raises. *)
  encode : string -> option (list Q);
  (** [datetime.now().year] *)
  current_year : Z;
  (** The element order of [list(set(l))]. *)
  set_order : list string -> list string;
  (** The text of a float inside an f-string. *)
  float_str : Q -> string
}.

(** ** Relational records ([app/models]) *)

Record Date : Type := { year : Z; month : Z; day : Z }.

Module User.
Record t : Type := { id : Z; full_name : option string }.
End User.

Module Expense.
Record t : Type := {
  id : Z;
  user_id : Z;
  date : option Date;
  amount : Q;
  label : string;
  item : string;
  category : string;
  description : option string;
  status : string;
  gst_eligible : bool;
  gst_amount : Q
}.
End Expense.

Module GSTClaim.
Record t : Type := {
  id : Z;
  user_id : Z;
  vendor : string;
  amount : Q;
  category : string;
  gst_rate : Q;
  gst_amount : Q;
  status : string;
  created_at : option Date
}.
End GSTClaim.

Module Embedding.
(** A row of the [embeddings] table; [embedding_vector] is the decoded
    JSON array. *)
Record t : Type := {
  expense_id : option Z;
  item_type : string;
  item_id : Z;
  text : string;
  embedding_vector : list Q
}.
End Embedding.

(** The tables a [Session] reads and writes, rows in stored order. *)
Record DB : Type := {
  users : list User.t;
  expenses : list Expense.t;
  gst_claims : list GSTClaim.t;
  embeddings : list Embedding.t
}.

(** Python truthiness of the values the services test. *)
Definition truthy_str (s : string) : bool := negb (String.eqb s "").
Definition truthy_opt_str (o : option string) : bool :=
  match o with Some s => truthy_str s | None => false end.
Definition truthy_int (o : option Z) : bool :=
  match o with Some z => negb (z =? 0)%Z | None => false end.
Definition truthy_float (o : option Q) : bool :=
  match o with Some q => negb (Qeq_bool q 0) | None => false end.
Definition nonempty {A : Type} (l : list A) : bool :=
  match l with [] => false | _ => true end.

Definition Qlt_bool (x y : Q) : bool := negb (Qle_bool y x).

(** [expense.user] / [gst_claim.user]: the row the foreign key points to. *)
Definition user_of (db : DB) (uid : Z) : option User.t :=
  find (fun u => (User.id u =? uid)%Z) (users db).

(** [obj.user and obj.user.full_name], when truthy. *)
Definition user_full_name (db : DB) (uid : Z) : option string :=
  match user_of db uid with
  | Some u => if truthy_opt_str (User.full_name u) then User.full_name u else None
  | None => None
  end.

(** ** Outcomes and the state of a process *)

Inductive outcome (A : Type) : Type :=
| Returns (a : A)
| Raises (e : string).
Arguments Returns {A} a.
Arguments Raises {A} e.

(** ** The vector index service ([app/services/embedding_service.py]) *)
Module EmbeddingService.

(** The fields of the service object.  [index] is the content of the
    [faiss.IndexFlatL2], one vector per slot. *)
Record t : Type := {
  index : list (list Q);
  id_map : gmap nat (string * option Z);
  _schema_ready : bool
}.

(** [__init__] *)
Definition init : t :=
  {| index := []; id_map := ∅; _schema_ready := false |}.

(** [index.ntotal] *)
Definition ntotal (self : t) : nat := length (index self).

(** The process state the methods act on: the service singleton and the
    database behind the session. *)
Record world : Type := { service : t; db : DB }.

Definition M (A : Type) : Type := world -> world * outcome A.
Definition ret {A : Type} (a : A) : M A := fun w => (w, Returns a).
Definition raise {A : Type} (e : string) : M A := fun w => (w, Raises e).
Definition bind {A B : Type} (c : M A) (k : A -> M B) : M B :=
  fun w => match c w with
           | (w', Returns a) => k a w'
           | (w', Raises e) => (w', Raises e)
           end.
Definition get_db : M DB := fun w => (w, Returns (db w)).
Definition set_db (d : DB) : M unit :=
  fun w => ({| service := service w; db := d |}, Returns tt).
Definition get_self : M t := fun w => (w, Returns (service w)).
Definition set_self (s : t) : M unit :=
  fun w => ({| service := s; db := db w |}, Returns tt).

Module Notations.
Notation "'let!' x := c 'in' k" := (bind c (fun x => k))
  (at level 10, x name, c at level 100, k at level 200).
Notation "'do!' c 'in' k" := (bind c (fun _ => k))
  (at level 10, c at level 100, k at level 200).
End Notations.
Import Notations.

Fixpoint for_each {A : Type} (l : list A) (body : A -> M unit) : M unit :=
  match l with
  | [] => ret tt
  | x :: r => do! body x in for_each r body
  end.

Definition month_name (m : Z) : string :=
  nth (Z.to_nat (m - 1))
      ["January"; "February"; "March"; "April"; "May"; "June"; "July";
       "August"; "September"; "October"; "November"; "December"] "".
Definition month_abbr (m : Z) : string :=
  nth (Z.to_nat (m - 1))
      ["Jan"; "Feb"; "Mar"; "Apr"; "May"; "Jun"; "Jul";
       "Aug"; "Sep"; "Oct"; "Nov"; "Dec"] "".

(** The four [strftime] renderings, joined by spaces. *)
Definition date_str (d : option Date) : string :=
  match d with
  | Some d =>
      let y := Text.of_Z (year d) in
      Text.join " "
        [ month_name (month d) +:+ " " +:+ y;                       (* %B %Y *)
          month_abbr (month d) +:+ " " +:+ y;                       (* %b %Y *)
          Text.zfill 2 (Text.of_Z (month d)) +:+ " " +:+ y;         (* %m %Y *)
          Text.zfill 2 (Text.of_Z (day d)) +:+ " " +:+ month_name (month d) ]  (* %d %B *)
  | None => ""
  end.

Section WithExternals.
Context `{Externals}.

Definition generate_text (expense : Expense.t) : string :=
  let text :=
    Expense.label expense +:+ " " +:+ Expense.item expense +:+ " "
    +:+ Expense.category expense +:+ " " +:+ date_str (Expense.date expense)
    +:+ " " +:+ float_str (Expense.amount expense) +:+ " rupees" in
  if truthy_opt_str (Expense.description expense)
  then text +:+ " " +:+ default "" (Expense.description expense)
  else text.

Definition create_embedding (text : string) : M (list Q) :=
  match encode text with
  | Some v => ret v
  | None => raise "embedding model failure"
  end.

(** The table already has the [item_type]/[item_id] columns in this
    model, so only the once-per-process flag changes. *)
Definition _ensure_schema : M unit :=
  let! self := get_self in
  if _schema_ready self then ret tt
  else set_self {| index := index self; id_map := id_map self;
                   _schema_ready := true |}.

Definition _add_vector_to_index (item_type : string) (item_id : option Z)
           (embedding_vector : list Q) : M unit :=
  let! self := get_self in
  let faiss_index := ntotal self in
  set_self {| index := index self ++ [embedding_vector];
              id_map := <[faiss_index := (item_type, item_id)]> (id_map self);
              _schema_ready := _schema_ready self |}.

Definition same_item (item_type : string) (item_id : Z) (r : Embedding.t) : bool :=
  String.eqb (Embedding.item_type r) item_type && (Embedding.item_id r =? item_id)%Z.

(** Update of the first row of the key, as [existing] is the object
    [first()] returned. *)
Fixpoint update_first (item_type : string) (item_id : Z) (text_value : string)
         (v : list Q) (expense_id : option Z) (rows : list Embedding.t)
  : list Embedding.t :=
  match rows with
  | [] => []
  | r :: rest =>
      if same_item item_type item_id r then
        {| Embedding.expense_id :=
             match expense_id with Some _ => expense_id | None => Embedding.expense_id r end;
           Embedding.item_type := Embedding.item_type r;
           Embedding.item_id := Embedding.item_id r;
           Embedding.text := text_value;
           Embedding.embedding_vector := v |} :: rest
      else r :: update_first item_type item_id text_value v expense_id rest
  end.

Definition _upsert_embedding_record (item_type : string) (item_id : Z)
           (text_value : string) (embedding_vector : list Q)
           (expense_id : option Z) : M unit :=
  let! d := get_db in
  let rows :=
    if existsb (same_item item_type item_id) (embeddings d)
    then update_first item_type item_id text_value embedding_vector expense_id
                      (embeddings d)
    else embeddings d ++
         [{| Embedding.expense_id := expense_id;
             Embedding.item_type := item_type;
             Embedding.item_id := item_id;
             Embedding.text := text_value;
             Embedding.embedding_vector := embedding_vector |}] in
  set_db {| users := users d; expenses := expenses d;
            gst_claims := gst_claims d; embeddings := rows |}.

Definition add_expense (expense : Expense.t) : M unit :=
  do! _ensure_schema in
  let text_value := generate_text expense in
  let! embedding_vector := create_embedding text_value in
  do! _add_vector_to_index "expense" (Some (Expense.id expense)) embedding_vector in
  _upsert_embedding_record "expense" (Expense.id expense) text_value
                           embedding_vector (Some (Expense.id expense)).

(** [gst_claim] comes with its [user] relation, read from [d]. *)
Definition generate_gst_text (d : DB) (gst_claim : GSTClaim.t) : string :=
  let text :=
    GSTClaim.vendor gst_claim +:+ " " +:+ GSTClaim.category gst_claim +:+ " "
    +:+ date_str (GSTClaim.created_at gst_claim) +:+ " "
    +:+ float_str (GSTClaim.amount gst_claim) +:+ " rupees gst tax vat" in
  let text :=
    text +:+ " gst amount " +:+ float_str (GSTClaim.gst_amount gst_claim)
    +:+ " gst rate " +:+ float_str (GSTClaim.gst_rate gst_claim) +:+ "%" in
  match user_full_name d (GSTClaim.user_id gst_claim) with
  | Some n => text +:+ " " +:+ n
  | None => text
  end.

Definition add_gst_claim (gst_claim : GSTClaim.t) : M unit :=
  do! _ensure_schema in
  let! d := get_db in
  let text_value := generate_gst_text d gst_claim in
  let! embedding_vector := create_embedding text_value in
  do! _add_vector_to_index "gst_claim" (Some (GSTClaim.id gst_claim)) embedding_vector in
  _upsert_embedding_record "gst_claim" (GSTClaim.id gst_claim) text_value
                           embedding_vector None.

(** Squared Euclidean distance, the metric of [IndexFlatL2]. *)
Definition l2_distance (x y : list Q) : Q :=
  fold_right Qplus 0%Q (map (fun p => (fst p - snd p) * (fst p - snd p))%Q (combine x y)).

(** Slots in increasing distance; a slot goes after the slots that are
    at most as far and were inserted before it. *)
Fixpoint insert_slot (s : nat * Q) (l : list (nat * Q)) : list (nat * Q) :=
  match l with
  | [] => [s]
  | t :: r => if Qle_bool (snd t) (snd s) then t :: insert_slot s r else s :: t :: r
  end.

(** [index.search(x, k)] for one query vector: the [k] nearest slots in
    increasing distance.  The padding [-1] labels faiss returns when the
    index holds fewer than [k] vectors are in no [id_map] and are left
    out here. *)
Definition faiss_search (vectors : list (list Q)) (x : list Q) (k : nat)
  : list (nat * Q) :=
  firstn k
    (fold_left (fun acc s => insert_slot s acc)
               (combine (seq 0 (length vectors)) (map (l2_distance x) vectors)) []).

Definition search (query : string) (k : positive)
  : M (list (string * option Z * Q)) :=
  let! query_embedding := create_embedding query in
  let! self := get_self in
  ret (flat_map
         (fun r : nat * Q =>
            match id_map self !! fst r with
            | Some (item_type, item_id) =>
                let similarity := (1 / (1 + snd r))%Q in
                [(item_type, item_id, similarity)]
            | None => []
            end)
         (faiss_search (index self) query_embedding (Pos.to_nat k))).

(** [emb.item_type or "expense"], [emb.item_id or emb.expense_id] *)
Definition existing_key (emb : Embedding.t) : string * option Z :=
  (if truthy_str (Embedding.item_type emb) then Embedding.item_type emb else "expense",
   if (Embedding.item_id emb =? 0)%Z then Embedding.expense_id emb
   else Some (Embedding.item_id emb)).

Fixpoint backfill_expenses (l : list Expense.t)
         (existing_map : gset (string * option Z)) : M (gset (string * option Z)) :=
  match l with
  | [] => ret existing_map
  | expense :: rest =>
      let key := ("expense", Some (Expense.id expense)) in
      if decide (key ∈ existing_map) then backfill_expenses rest existing_map
      else
        let text_value := generate_text expense in
        let! embedding_vector := create_embedding text_value in
        do! _upsert_embedding_record "expense" (Expense.id expense) text_value
              embedding_vector (Some (Expense.id expense)) in
        backfill_expenses rest ({[ key ]} ∪ existing_map)
  end.

Fixpoint backfill_claims (l : list GSTClaim.t)
         (existing_map : gset (string * option Z)) : M (gset (string * option Z)) :=
  match l with
  | [] => ret existing_map
  | claim :: rest =>
      let key := ("gst_claim", Some (GSTClaim.id claim)) in
      if decide (key ∈ existing_map) then backfill_claims rest existing_map
      else
        let! d := get_db in
        let text_value := generate_gst_text d claim in
        let! embedding_vector := create_embedding text_value in
        do! _upsert_embedding_record "gst_claim" (GSTClaim.id claim) text_value
              embedding_vector None in
        backfill_claims rest ({[ key ]} ∪ existing_map)
  end.

Definition _backfill_missing_embeddings : M unit :=
  let! d := get_db in
  let existing_map : gset (string * option Z) :=
    list_to_set (map existing_key (embeddings d)) in
  let! existing_map := backfill_expenses (expenses d) existing_map in
  let! d := get_db in
  let! existing_map := backfill_claims (gst_claims d) existing_map in
  ret tt.

(** The slot key of a durable row: the new format when [item_type] is
    set, the legacy [expense_id] otherwise. *)
Definition row_key (emb : Embedding.t) : string * option Z :=
  if truthy_str (Embedding.item_type emb)
  then (Embedding.item_type emb, Some (Embedding.item_id emb))
  else ("expense", Embedding.expense_id emb).

Definition load_from_db : M unit :=
  do! _ensure_schema in
  do! _backfill_missing_embeddings in
  let! d := get_db in
  for_each (embeddings d)
    (fun emb =>
       let embedding_vector := Embedding.embedding_vector emb in
       _add_vector_to_index (fst (row_key emb)) (snd (row_key emb)) embedding_vector).

End WithExternals.
End EmbeddingService.

(** ** The search engine ([app/services/search_service.py]) *)
Module SearchService.
Import Regex.
Import EmbeddingService.Notations.

Definition EXPENSE_VOCABULARY : list string :=
  [ "petrol"; "diesel"; "food"; "lunch"; "dinner"; "breakfast"; "travel";
    "taxi"; "cab"; "uber"; "ola"; "hotel"; "transport"; "fuel"; "gas";
    "restaurant"; "cafe"; "coffee"; "snacks"; "groceries"; "stationery";
    "office"; "supplies"; "equipment"; "maintenance"; "repair"; "service";
    "internet"; "phone"; "mobile"; "utility"; "electricity"; "water";
    "rent"; "salary"; "medical"; "medicine"; "doctor"; "hospital";
    "insurance"; "premium"; "subscription"; "software"; "license";
    "training"; "workshop"; "seminar"; "conference"; "meeting";
    "entertainment"; "movie"; "cinema"; "parking"; "toll"; "ticket";
    "flight"; "train"; "bus"; "metro"; "shopping"; "gift"; "donation";
    "pertol"; "petrole"; "petrol";
    "GST"; "GST eligible"; "GST rate"; "GST amount"; "GST tax"; "GST vat";
    "gst"; "tax"; "vat"; "rate"; "amount"; "cost"; "price"; "bill"; "invoice";
    "receipt"; "total"; "sum"; "expense"; "expenses" ].

Definition TYPO_CORRECTIONS : list (string * string) :=
  [ ("pertol", "petrol"); ("petrole", "petrol"); ("petrol", "petrol") ].

(** [d[k]] guarded by [k in d]. *)
Definition dict_get {V : Type} (k : string) (d : list (string * V)) : option V :=
  match find (fun kv => String.eqb (fst kv) k) d with
  | Some kv => Some (snd kv)
  | None => None
  end.

Definition date_words : list string :=
  [ "jan"; "january"; "feb"; "february"; "mar"; "march"; "apr"; "april";
    "may"; "jun"; "june"; "jul"; "july"; "aug"; "august"; "sep"; "september";
    "oct"; "october"; "nov"; "november"; "dec"; "december" ].

Definition stopwords : list string :=
  [ "what"; "is"; "are"; "was"; "were"; "the"; "a"; "an"; "of";
    "to"; "on"; "at"; "with"; "by"; "from"; "about"; "how"; "much";
    "did"; "i"; "spend"; "show"; "me"; "find"; "search"; "list" ].

Definition excluded_words : list string :=
  [ "expense"; "expenses"; "in"; "nov"; "november"; "dec"; "december";
    "jan"; "january"; "feb"; "february"; "mar"; "march"; "apr"; "april";
    "may"; "jun"; "june"; "jul"; "july"; "aug"; "august"; "sep"; "september";
    "oct"; "october"; "for"; "the"; "a"; "an"; "at"; "of"; "on"; "with"; "from" ].

Definition month_map : list (string * Z) :=
  [ ("jan", 1); ("january", 1); ("feb", 2); ("february", 2);
    ("mar", 3); ("march", 3); ("apr", 4); ("april", 4); ("may", 5);
    ("jun", 6); ("june", 6); ("jul", 7); ("july", 7);
    ("aug", 8); ("august", 8); ("sep", 9); ("september", 9);
    ("oct", 10); ("october", 10); ("nov", 11); ("november", 11);
    ("dec", 12); ("december", 12) ]%Z.

Definition alpha : re := Chr Text.is_alpha.
Definition az : re := range 97 122.
Definition AZ : re := range 65 90.

(** [\b\w+\b] *)
Definition word_pattern : re := seq [Bnd; plus word; Bnd].
(** [\bfor\s+([A-Za-z][a-z]+(?:\s+[A-Za-z][a-z]+)?)\b] under [re.IGNORECASE],
    where [[a-z]] also matches the capitals. *)
Definition person_pattern : re :=
  seq [Bnd; str_ci "for"; plus space;
       Grp (seq [alpha; plus alpha; opt (seq [plus space; alpha; plus alpha])]);
       Bnd].
(** [\b[A-Z][a-z]+\b] *)
Definition capitalized_pattern : re := seq [Bnd; AZ; plus az; Bnd].
(** [\bfor\s+([a-z]{3,})\b] *)
Definition for_lower_pattern : re :=
  seq [Bnd; str "for"; plus space; Grp (Rep true 3 None az); Bnd].
(** [\b(.+?)\s+expense\b] and [\bexpense\s+(.+?)\b] *)
Definition expense_patterns : list re :=
  [ seq [Bnd; Grp (plus_lazy dot); plus space; str "expense"; Bnd];
    seq [Bnd; str "expense"; plus space; Grp (plus_lazy dot); Bnd] ].
(** A quoted span: a double quote, a group of one or more characters other
    than the double quote, a double quote. *)
Definition quoted_pattern : re :=
  let quote := "034"%char in
  seq [lit quote; Grp (plus (Chr (fun c => negb (Ascii.eqb c quote)))); lit quote].
(** [\b(1[0-2]|[1-9])\b] *)
Definition month_number_pattern : re :=
  seq [Bnd; Grp (Alt (Seq (lit "1") (range 48 50)) (range 49 57)); Bnd].
(** [\b(20\d{2})\b] *)
Definition year_pattern : re :=
  seq [Bnd; Grp (seq [str "20"; Rep true 2 (Some 2) digit]); Bnd].

(** [int(s)] on a string of decimal digits. *)
Definition int_of (s : string) : Z :=
  fold_left (fun acc c => (acc * 10 + Z.of_nat (Text.code c - 48))%Z) (Text.chars s) 0%Z.

(** Rows of a [SELECT DISTINCT]: first occurrences, in stored order. *)
Fixpoint distinct (l : list string) (seen : list string) : list string :=
  match l with
  | [] => []
  | x :: r => if Text.mem x seen then distinct r seen else x :: distinct r (x :: seen)
  end.

Record keyword_data : Type := {
  keywords : list string;
  person_names : list string;
  phrases : list string;
  person_names_from_db : list string
}.

(** The result dictionaries; [gst_amount] is present for GST claims only. *)
Record result : Type := {
  id : Z;
  type : string;
  label : string;
  item : string;
  amount : Q;
  gst_amount : option Q;
  category : string;
  status : string;
  similarity_score : Q
}.

(** The four result lists [process_expense_result] and the GST branch
    append to. *)
Record buckets : Type := {
  results : list result;
  keyword_matched_results : list result;
  date_keyword_matched_results : list result;
  gst_results_from_embedding : list result
}.

Definition empty_buckets : buckets :=
  {| results := []; keyword_matched_results := [];
     date_keyword_matched_results := []; gst_results_from_embedding := [] |}.

Definition append_results (r : result) (b : buckets) : buckets :=
  {| results := results b ++ [r];
     keyword_matched_results := keyword_matched_results b;
     date_keyword_matched_results := date_keyword_matched_results b;
     gst_results_from_embedding := gst_results_from_embedding b |}.
Definition append_keyword_matched (r : result) (b : buckets) : buckets :=
  {| results := results b;
     keyword_matched_results := keyword_matched_results b ++ [r];
     date_keyword_matched_results := date_keyword_matched_results b;
     gst_results_from_embedding := gst_results_from_embedding b |}.
Definition append_date_keyword_matched (r : result) (b : buckets) : buckets :=
  {| results := results b;
     keyword_matched_results := keyword_matched_results b;
     date_keyword_matched_results := date_keyword_matched_results b ++ [r];
     gst_results_from_embedding := gst_results_from_embedding b |}.
Definition append_gst_from_embedding (r : result) (b : buckets) : buckets :=
  {| results := results b;
     keyword_matched_results := keyword_matched_results b;
     date_keyword_matched_results := date_keyword_matched_results b;
     gst_results_from_embedding := gst_results_from_embedding b ++ [r] |}.

(** The variables of [semantic_search] its inner function closes over. *)
Record query_context : Type := {
  kw : keyword_data;
  month_hint : option Z;
  year_hint : Z;
  is_gst_query : bool;
  has_specific_item_keyword : bool;
  specific_item_keywords : list string
}.

(** The response dictionary, without the elapsed time. *)
Record response : Type := {
  query_text : string;
  total_results : nat;
  final_results : list result
}.

(** [max(a, b)] *)
Definition pymax (a b : Q) : Q := if Qlt_bool a b then b else a.

Definition result_key (r : result) : string * Z := (type r, id r).

Section WithExternals.
Context `{Externals}.

(** The loop over the cutoffs of [_correct_spelling]. *)
Fixpoint try_cutoffs (word_lower : string) (vocabulary : list string)
         (cutoffs : list Q) : option string :=
  match cutoffs with
  | [] => None
  | cutoff :: rest =>
      match close_matches word_lower vocabulary cutoff with
      | corrected :: _ =>
          let similarity := sequence_ratio word_lower corrected in
          if Qle_bool (7 # 10) similarity then
            if String.eqb word_lower "pertol" && String.eqb corrected "petrol"
            then Some "petrol"
            else Some corrected
          else try_cutoffs word_lower vocabulary rest
      | [] => try_cutoffs word_lower vocabulary rest
      end
  end.

Definition _correct_spelling (word : string) (vocabulary : option (list string))
  : string :=
  let vocabulary := default EXPENSE_VOCABULARY vocabulary in
  if (String.length word <? 2)%nat then word
  else
    let word_lower := Text.lower word in
    match dict_get word_lower TYPO_CORRECTIONS with
    | Some fixed => fixed
    | None =>
        if Text.mem word_lower vocabulary then word_lower
        else
          match try_cutoffs word_lower vocabulary [75 # 100; 70 # 100; 65 # 100] with
          | Some corrected => corrected
          | None =>
              if (4 <? String.length word_lower)%nat then
                match
                  find (fun vocab_word =>
                          (Text.contains word_lower vocab_word
                           || Text.contains vocab_word word_lower)
                          && Qle_bool (7 # 10) (sequence_ratio word_lower vocab_word))
                       vocabulary
                with
                | Some vocab_word => vocab_word
                | None => word_lower
                end
              else word_lower
          end
    end.

Definition _normalize_query (query : string) : string :=
  let query_lower := Text.lower query in
  let words := findall word_pattern query_lower in
  let corrected_words := map (fun word => _correct_spelling word None) words in
  Text.join " " corrected_words.

(** The vocabulary and the user names read from the tables. *)
Definition db_vocabulary (d : DB) : list string * list string :=
  let categories := distinct (map Expense.category (expenses d)) [] in
  let labels := firstn 100 (distinct (map Expense.label (expenses d)) []) in
  let items := firstn 100 (distinct (map Expense.item (expenses d)) []) in
  let lowered l := map Text.lower (filter truthy_str l) in
  let vocabulary :=
    EXPENSE_VOCABULARY ++ lowered categories ++ lowered labels ++ lowered items
    ++ flat_map (fun itm => if truthy_str itm
                            then findall word_pattern (Text.lower itm) else [])
                items in
  let person_names_from_db :=
    flat_map (fun u => match User.full_name u with
                       | Some n => if truthy_str n then [n] else []
                       | None => []
                       end) (users d) in
  (set_order vocabulary, person_names_from_db).

Definition _extract_keywords (query : string) (d : option DB) : keyword_data :=
  let query_lower := Text.lower query in
  let matches := findall person_pattern query in
  let person_names := filter (fun m => (2 <? String.length m)%nat) matches in
  let capitalized_words := findall capitalized_pattern query in
  let person_names :=
    fold_left
      (fun person_names word =>
         let word_lower := Text.lower word in
         if negb (Text.mem word_lower date_words)
            && negb (Text.mem word_lower stopwords)
            && (2 <? String.length word)%nat
         then if negb (Text.mem word person_names)
              then person_names ++ [word] else person_names
         else person_names)
      capitalized_words person_names in
  let for_matches := findall for_lower_pattern query_lower in
  let person_names :=
    fold_left
      (fun person_names m =>
         if negb (Text.mem m date_words) && negb (Text.mem m stopwords)
         then if negb (Text.mem m (map Text.lower person_names))
              then person_names ++ [Text.capitalize m] else person_names
         else person_names)
      for_matches person_names in
  let words := findall word_pattern query_lower in
  let person_names_lower := map Text.lower person_names in
  let keywords :=
    filter (fun w => negb (Text.mem w date_words) && negb (Text.mem w stopwords)
                     && (2 <? String.length w)%nat
                     && negb (Text.mem w person_names_lower)) words in
  let phrases :=
    flat_map
      (fun pattern =>
         flat_map
           (fun m =>
              let match_words :=
                filter (fun w => negb (Text.mem w stopwords)
                                 && negb (Text.mem w date_words))
                       (findall word_pattern m) in
              if (2 <=? length match_words)%nat
              then [Text.join " " match_words] else [])
           (findall pattern query_lower))
      expense_patterns in
  let quoted_phrases := findall quoted_pattern query_lower in
  let phrases := phrases ++ quoted_phrases in
  let '(vocabulary, person_names_from_db) :=
    match d with
    | Some d => db_vocabulary d
    | None => (EXPENSE_VOCABULARY, [])
    end in
  let corrected_keywords :=
    map (fun kw => _correct_spelling kw (Some vocabulary)) keywords in
  {| keywords := corrected_keywords;
     person_names := person_names;
     phrases := phrases;
     person_names_from_db := person_names_from_db |}.

Definition _extract_month_from_query (query : string) : option Z :=
  let query_lower := Text.lower query in
  match find (fun kv => Text.contains (fst kv) query_lower) month_map with
  | Some kv => Some (snd kv)
  | None =>
      match search month_number_pattern query with
      | Some g => Some (int_of g)
      | None => None
      end
  end.

Definition _extract_year_from_query (query : string) : Z :=
  match search year_pattern query with
  | Some g => int_of g
  | None => current_year
  end.

(** [expense.gst_eligible or expense.gst_amount > 0] *)
Definition has_gst (expense : Expense.t) : bool :=
  Expense.gst_eligible expense || Qlt_bool 0 (Expense.gst_amount expense).

(** The text [process_expense_result] matches the lexical signals
    against, its local [expense_text]. *)
Definition expense_search_text (d : DB) (expense : Expense.t) : string :=
  let expense_text_parts :=
    [Text.lower (Expense.label expense); Text.lower (Expense.item expense);
     Text.lower (Expense.category expense)]
    ++ (if truthy_opt_str (Expense.description expense)
        then [Text.lower (default "" (Expense.description expense))] else [])
    ++ (match user_full_name d (Expense.user_id expense) with
        | Some n => [Text.lower n]
        | None => []
        end) in
  let expense_text := Text.join " " expense_text_parts in
  if has_gst expense then expense_text +:+ " gst tax gst-eligible" else expense_text.

(** The loop of [process_expense_result] that sets [person_name_match]. *)
Definition person_name_match (d : DB) (q : query_context) (expense : Expense.t) : bool :=
  let expense_text := expense_search_text d expense in
  let full_name := user_full_name d (Expense.user_id expense) in
  existsb
    (fun person_name =>
       let person_lower := Text.lower person_name in
       Text.contains person_lower expense_text
       || existsb
            (fun db_name =>
               (Text.contains person_lower (Text.lower db_name)
                || Text.contains (Text.lower db_name) person_lower)
               && match full_name with
                  | Some n => Text.contains person_lower (Text.lower n)
                  | None => false
                  end)
            (person_names_from_db (kw q)))
    (person_names (kw q)).

(** The loop that sets [phrase_match]. *)
Definition phrase_match (d : DB) (q : query_context) (expense : Expense.t) : bool :=
  let expense_text := expense_search_text d expense in
  let expense_words := findall word_pattern expense_text in
  existsb
    (fun phrase =>
       let phrase_lower := Text.lower phrase in
       Text.contains phrase_lower expense_text
       && forallb
            (fun word =>
               existsb (fun exp_word => Text.contains word exp_word
                                        || Text.contains exp_word word)
                       expense_words)
            (Text.split phrase_lower))
    (phrases (kw q)).

(** The loop that sets [keyword_match]. *)
Definition keyword_match (d : DB) (q : query_context) (expense : Expense.t) : bool :=
  let expense_text := expense_search_text d expense in
  let expense_words := findall word_pattern expense_text in
  existsb
    (fun keyword =>
       Text.contains keyword expense_text
       || Text.mem keyword expense_words
       || existsb (fun exp_word =>
                     Qle_bool (7 # 10) (sequence_ratio keyword exp_word))
                  expense_words)
    (keywords (kw q)).

(** [keyword_match or phrase_match or person_name_match or gst_match], the
    test that chooses the list a kept expense is appended to. *)
Definition soft_signal (d : DB) (q : query_context) (expense : Expense.t) : bool :=
  keyword_match d q expense || phrase_match d q expense
  || person_name_match d q expense || (is_gst_query q && has_gst expense).

(** [process_expense_result], the inner function of [semantic_search];
    [d] and [q] are the session and the variables it closes over, the
    four lists are threaded through [b].  A [return] leaves [b] as it is. *)
Definition process_expense_result (d : DB) (q : query_context)
           (expense : Expense.t) (similarity_score : Q) (b : buckets) : buckets :=
  let keywords := keywords (kw q) in
  let person_names := person_names (kw q) in
  let phrases := phrases (kw q) in
  let has_gst := has_gst expense in
  (* GST query handling *)
  if is_gst_query q && negb has_gst then b
  else
  let gst_match := is_gst_query q && has_gst in
  (* Person name, phrase and keyword matching *)
  let person_name_match := person_name_match d q expense in
  let phrase_match := phrase_match d q expense in
  let keyword_match := keyword_match d q expense in
  let match_score_boost := 1%Q in
  let match_score_boost :=
    if nonempty person_names then pymax match_score_boost (15 # 10)
    else match_score_boost in
  let match_score_boost :=
    if phrase_match then pymax match_score_boost (14 # 10) else match_score_boost in
  let match_score_boost :=
    if keyword_match then pymax match_score_boost (13 # 10) else match_score_boost in
  let match_score_boost :=
    if is_gst_query q && gst_match then pymax match_score_boost (13 # 10)
    else match_score_boost in
  let expense_label_lower := Text.lower (Expense.label expense) in
  let expense_item_lower :=
    if truthy_str (Expense.item expense) then Text.lower (Expense.item expense)
    else "" in
  (* Strict filter on the specific item keywords *)
  let keyword_found_in_expense :=
    existsb (fun item_keyword =>
               Text.contains item_keyword expense_label_lower
               || Text.contains item_keyword expense_item_lower)
            (specific_item_keywords q) in
  if has_specific_item_keyword q && negb keyword_found_in_expense then b
  else
  let exact_keyword_match := has_specific_item_keyword q && keyword_found_in_expense in
  let match_score_boost :=
    if exact_keyword_match then pymax match_score_boost 2 else match_score_boost in
  (* Date matching: [if month and expense.date: ... else: return], the
     [else] being the one of the outer [if] *)
  let date_match := true in
  if negb (truthy_int (month_hint q)) then b
  else
  match Expense.date expense with
  | None => b
  | Some date =>
      let match_score_boost :=
        if (month date =? default 0%Z (month_hint q))%Z && (year date =? year_hint q)%Z
        then pymax match_score_boost (12 # 10) else match_score_boost in
      (* Filtering based on similarity *)
      let admitted : option Q :=
        if exact_keyword_match then Some match_score_boost
        else if negb (nonempty person_names) && negb (nonempty phrases)
                && negb (nonempty keywords) && negb (is_gst_query q)
        then (if Qlt_bool similarity_score (3 # 10) then None else Some 1%Q)
        else if Qlt_bool similarity_score (4 # 10) then None
        else Some match_score_boost in
      match admitted with
      | None => b
      | Some match_score_boost =>
          let result_data :=
            {| id := Expense.id expense;
               type := "expense";
               label := Expense.label expense;
               item := Expense.item expense;
               amount := Expense.amount expense;
               gst_amount := None;
               category := Expense.category expense;
               status := Expense.status expense;
               similarity_score := (similarity_score * match_score_boost)%Q |} in
          if date_match && (keyword_match || phrase_match || person_name_match || gst_match)
          then append_date_keyword_matched result_data b
          else if keyword_match || phrase_match || person_name_match || gst_match
          then append_keyword_matched result_data b
          else if negb (is_gst_query q) || gst_match
          then append_results result_data b
          else b
      end
  end.

(** The body of the [elif item_type == "gst_claim"] branch of the loop,
    after the ownership and amount filters; [continue] leaves [b] as it is. *)
Definition process_gst_result (d : DB) (q : query_context)
           (gst_claim : GSTClaim.t) (similarity_score : Q) (b : buckets) : buckets :=
  let keywords := keywords (kw q) in
  let phrases := phrases (kw q) in
  let gst_text_parts :=
    [Text.lower (GSTClaim.vendor gst_claim); Text.lower (GSTClaim.category gst_claim)] in
  let gst_text := Text.join " " gst_text_parts +:+ " gst tax vat gst-eligible gst-claim" in
  let gst_text :=
    match user_full_name d (GSTClaim.user_id gst_claim) with
    | Some n => gst_text +:+ " " +:+ Text.lower n
    | None => gst_text
    end in
  let gst_words := findall word_pattern gst_text in
  let phrase_match :=
    existsb (fun phrase => Text.contains (Text.lower phrase) gst_text) phrases in
  let keyword_match :=
    existsb (fun keyword => Text.contains keyword gst_text || Text.mem keyword gst_words)
            keywords in
  let keyword_match := if is_gst_query q then true else keyword_match in
  let '(overall_match, match_score_boost) :=
    if nonempty phrases then
      if phrase_match || keyword_match
      then (true, if phrase_match then (14 # 10)%Q else 1%Q)
      else (false, 1%Q)
    else if nonempty keywords then
      if keyword_match then (true, (13 # 10)%Q) else (false, 1%Q)
    else if is_gst_query q then (true, (15 # 10)%Q)
    else (true, 1%Q) in
  if negb overall_match then b
  else if Qlt_bool similarity_score (3 # 10) then b
  else
    let dated : option (bool * Q) :=
      match (if truthy_int (month_hint q) then GSTClaim.created_at gst_claim else None) with
      | Some created_at =>
          if (month created_at =? default 0%Z (month_hint q))%Z
             && (year created_at =? year_hint q)%Z
          then Some (true, pymax match_score_boost (12 # 10))
          else if Qlt_bool similarity_score (7 # 10) then None
          else Some (false, match_score_boost)
      | None => Some (true, match_score_boost)
      end in
    match dated with
    | None => b
    | Some (date_match, match_score_boost) =>
        let gst_result_data :=
          {| id := GSTClaim.id gst_claim;
             type := "gst_claim";
             label := "GST Claim: " +:+ GSTClaim.vendor gst_claim;
             item := GSTClaim.vendor gst_claim;
             amount := GSTClaim.amount gst_claim;
             gst_amount := Some (GSTClaim.gst_amount gst_claim);
             category := GSTClaim.category gst_claim;
             status := GSTClaim.status gst_claim;
             similarity_score := (similarity_score * match_score_boost)%Q |} in
        if date_match && overall_match
        then append_date_keyword_matched gst_result_data b
        else if overall_match then append_keyword_matched gst_result_data b
        else append_gst_from_embedding gst_result_data b
    end.

(** One turn of the loop over [embedding_search_results]. *)
Definition process_candidate (d : DB) (q : query_context)
           (min_amount max_amount : option Q) (user_id : option Z)
           (b : buckets) (r : string * option Z * Q) : buckets :=
  let '(item_type, item_id, similarity_score) := r in
  if String.eqb item_type "expense" then
    match find (fun e => bool_decide (Some (Expense.id e) = item_id)) (expenses d) with
    | None => b
    | Some expense =>
        if truthy_int user_id
           && negb (bool_decide (Some (Expense.user_id expense) = user_id)) then b
        else if truthy_float min_amount
                && Qlt_bool (Expense.amount expense) (default 0%Q min_amount) then b
        else if truthy_float max_amount
                && Qlt_bool (default 0%Q max_amount) (Expense.amount expense) then b
        else process_expense_result d q expense similarity_score b
    end
  else if String.eqb item_type "gst_claim" then
    match find (fun c => bool_decide (Some (GSTClaim.id c) = item_id)) (gst_claims d) with
    | None => b
    | Some gst_claim =>
        if truthy_int user_id
           && negb (bool_decide (Some (GSTClaim.user_id gst_claim) = user_id)) then b
        else if truthy_float min_amount
                && Qlt_bool (GSTClaim.amount gst_claim) (default 0%Q min_amount) then b
        else if truthy_float max_amount
                && Qlt_bool (default 0%Q max_amount) (GSTClaim.amount gst_claim) then b
        else process_gst_result d q gst_claim similarity_score b
    end
  else b.

(** One deduplication pass: [seen_ids] and [deduplicated_results]. *)
Definition dedup_pass (l : list result) (st : gset (string * Z) * list result)
  : gset (string * Z) * list result :=
  fold_left
    (fun st result =>
       let key := result_key result in
       if decide (key ∈ fst st) then st
       else ({[ key ]} ∪ fst st, snd st ++ [result]))
    l st.

Definition deduplicate (b : buckets) : list result :=
  let st := dedup_pass (date_keyword_matched_results b) (∅, []) in
  let st := dedup_pass (keyword_matched_results b) st in
  let st := dedup_pass (results b ++ gst_results_from_embedding b) st in
  snd st.

(** [list.sort(key=similarity_score, reverse=True)]: the sort is stable,
    so the result is the one of an insertion that puts an element before
    the first element whose score is not larger. *)
Fixpoint insert_by_score (x : result) (l : list result) : list result :=
  match l with
  | [] => [x]
  | y :: r =>
      if Qle_bool (similarity_score y) (similarity_score x) then x :: y :: r
      else y :: insert_by_score x r
  end.
Definition sort_by_score (l : list result) : list result :=
  fold_right insert_by_score [] l.

(** The variables computed before the search is issued. *)
Definition context_of (d : DB) (query : string) : query_context :=
  let keyword_data := _extract_keywords query (Some d) in
  let month := _extract_month_from_query query in
  let year := _extract_year_from_query query in
  let is_gst_query :=
    existsb (fun term => Text.contains term (Text.lower query))
            ["gst"; "tax"; "vat"; "gst eligible"] in
  let specific_item_keywords :=
    filter (fun keyword_lower =>
              negb (Text.mem keyword_lower excluded_words)
              && (2 <? String.length keyword_lower)%nat)
           (map Text.lower (keywords keyword_data)) in
  {| kw := keyword_data;
     month_hint := month;
     year_hint := year;
     is_gst_query := is_gst_query;
     has_specific_item_keyword := nonempty specific_item_keywords;
     specific_item_keywords := specific_item_keywords |}.

(** [limit * 10 if has_specific_item_keyword else limit * 5] *)
Definition search_k (q : query_context) (limit : positive) : positive :=
  if has_specific_item_keyword q then (limit * 10)%positive else (limit * 5)%positive.

(** The four lists after the loop over the search results. *)
Definition fill_buckets (d : DB) (q : query_context)
           (min_amount max_amount : option Q) (user_id : option Z)
           (embedding_search_results : list (string * option Z * Q)) : buckets :=
  fold_left (process_candidate d q min_amount max_amount user_id)
            embedding_search_results empty_buckets.

(** The list returned for a filled set of lists. *)
Definition rank (q : query_context) (limit : positive) (b : buckets) : list result :=
  let deduplicated_results := sort_by_score (deduplicate b) in
  if has_specific_item_keyword q then deduplicated_results
  else
    let max_limit :=
      if nonempty (keywords (kw q)) || nonempty (phrases (kw q))
      then (limit * 3)%positive else limit in
    firstn (Pos.to_nat max_limit) deduplicated_results.

(** [semantic_search(db, query, limit, min_amount, max_amount, user_id)],
    the session being the one of the process state.  [limit] ranges over the
    positive integers: faiss rejects a search for [k <= 0] neighbours, so no
    other limit gets past the search. *)
Definition semantic_search (query : string) (limit : positive)
           (min_amount max_amount : option Q) (user_id : option Z)
  : EmbeddingService.M response :=
  let! d := EmbeddingService.get_db in
  let normalized_query := _normalize_query query in
  let q := context_of d query in
  let! embedding_search_results :=
    EmbeddingService.search normalized_query (search_k q limit) in
  let b := fill_buckets d q min_amount max_amount user_id embedding_search_results in
  let final := rank q limit b in
  EmbeddingService.ret
    {| query_text := query;
       total_results := length final;
       final_results := final |}.

End WithExternals.
End SearchService.

(** ** Expense creation ([app/services/expense_service.py], [app/routes/expenses.py]) *)
Module ExpenseService.
Import EmbeddingService.Notations.

(** The [ExpenseCreate] schema. *)
Record ExpenseCreate : Type := {
  date : Date;
  amount : Q;
  label : string;
  item : string;
  category : string;
  description : option string;
  gst_eligible : bool
}.

(** The primary key the database assigns on insertion. *)
Definition next_id (d : DB) : Z :=
  (1 + fold_right Z.max 0 (map Expense.id (expenses d)))%Z.

(** [ExpenseService.create_expense]; [embedding_service] is the optional
    collaborator, of which only [add_expense] is called. *)
Definition create_expense (expense_data : ExpenseCreate) (user_id : Z)
           (embedding_service : option (Expense.t -> EmbeddingService.M unit))
  : EmbeddingService.M Expense.t :=
  let! d := EmbeddingService.get_db in
  let expense :=
    {| Expense.id := next_id d;
       Expense.user_id := user_id;
       Expense.date := Some (date expense_data);
       Expense.amount := amount expense_data;
       Expense.label := label expense_data;
       Expense.item := item expense_data;
       Expense.category := category expense_data;
       Expense.description := description expense_data;
       Expense.status := "pending";
       Expense.gst_eligible := gst_eligible expense_data;
       Expense.gst_amount :=
         if gst_eligible expense_data then (amount expense_data * (18 # 100))%Q else 0%Q |} in
  (* db.add(expense); db.commit(); db.refresh(expense) *)
  do! EmbeddingService.set_db
        {| users := users d; expenses := expenses d ++ [expense];
           gst_claims := gst_claims d; embeddings := embeddings d |} in
  do! match embedding_service with
      | Some add_expense => add_expense expense
      | None => EmbeddingService.ret tt
      end in
  EmbeddingService.ret expense.

(** What the route answers: the serialized expense, or the [HTTPException]. *)
Inductive http_response : Type :=
| Http_ok (expense : Expense.t) (full_name : option string)
| Http_exception (status_code : Z) (detail : string).

(** The [POST /api/expenses/] handler, the WebSocket broadcast left out. *)
Definition create_expense_route `{Externals} (expense_data : ExpenseCreate)
           (current_user_id : Z)
  : EmbeddingService.world -> EmbeddingService.world * http_response :=
  fun w =>
    match create_expense expense_data current_user_id
                         (Some EmbeddingService.add_expense) w with
    | (w', Returns expense) =>
        (w', Http_ok expense (user_full_name (EmbeddingService.db w') (Expense.user_id expense)))
    | (w', Raises e) =>
        (w', Http_exception 500 ("Error creating expense: " +:+ e))
    end.

Definition with_status (e : Expense.t) (status : string) : Expense.t :=
  {| Expense.id := Expense.id e;
     Expense.user_id := Expense.user_id e;
     Expense.date := Expense.date e;
     Expense.amount := Expense.amount e;
     Expense.label := Expense.label e;
     Expense.item := Expense.item e;
     Expense.category := Expense.category e;
     Expense.description := Expense.description e;
     Expense.status := status;
     Expense.gst_eligible := Expense.gst_eligible e;
     Expense.gst_amount := Expense.gst_amount e |}.

(** The row [first()] returns for [Expense.id == expense_id]. *)
Definition find_expense (d : DB) (expense_id : Z) : option Expense.t :=
  find (fun e => (Expense.id e =? expense_id)%Z) (expenses d).

(** The table after [expense.status = status] on that row. *)
Fixpoint set_status (expense_id : Z) (status : string) (rows : list Expense.t)
  : list Expense.t :=
  match rows with
  | [] => []
  | e :: rest =>
      if (Expense.id e =? expense_id)%Z then with_status e status :: rest
      else e :: set_status expense_id status rest
  end.

(** [ExpenseService.update_status(db, expense_id, status)] *)
Definition update_status (expense_id : Z) (status : string)
  : EmbeddingService.M (option Expense.t) :=
  let! d := EmbeddingService.get_db in
  match find_expense d expense_id with
  | Some expense =>
      do! EmbeddingService.set_db
            {| users := users d;
               expenses := set_status expense_id status (expenses d);
               gst_claims := gst_claims d; embeddings := embeddings d |} in
      EmbeddingService.ret (Some (with_status expense status))
  | None => EmbeddingService.ret None
  end.

(** [ExpenseService.delete_expense(db, expense_id)]: the row of the primary
    key goes, and with it, by the [delete-orphan] cascade of
    [Expense.embedding], the embedding row that points to it. *)
Definition delete_expense (expense_id : Z) : EmbeddingService.M (option Expense.t) :=
  let! d := EmbeddingService.get_db in
  match find_expense d expense_id with
  | Some expense =>
      do! EmbeddingService.set_db
            {| users := users d;
               expenses := filter (fun e => negb (Expense.id e =? expense_id)%Z) (expenses d);
               gst_claims := gst_claims d;
               embeddings :=
                 filter (fun r => negb (bool_decide (Embedding.expense_id r = Some expense_id)))
                        (embeddings d) |} in
      EmbeddingService.ret (Some expense)
  | None => EmbeddingService.ret None
  end.

End ExpenseService.

(** ** Indexing of a GST claim ([app/services/gst_service.py]) *)
Module GSTService.

(** [GSTService._create_embedding_for_claim(db, claim)]: every exception of
    the indexing is caught and printed. *)
Definition _create_embedding_for_claim `{Externals} (claim : GSTClaim.t)
  : EmbeddingService.M unit :=
  fun w =>
    match find (fun c => (GSTClaim.id c =? GSTClaim.id claim)%Z)
               (gst_claims (EmbeddingService.db w)) with
    | Some claim_with_user =>
        match EmbeddingService.add_gst_claim claim_with_user w with
        | (w', Returns _) => (w', Returns tt)
        | (w', Raises _) => (w', Returns tt)
        end
    | None => (w, Returns tt)
    end.

End GSTService.

(** ** The search route ([app/routes/search.py]) *)
Module SearchRoute.

(** The [SearchRequest] schema. *)
Record SearchRequest : Type := {
  query : string;
  limit : positive;
  min_amount : option Q;
  max_amount : option Q
}.

(** [POST /api/search/]: the search is filtered to the records of the
    calling user. *)
Definition semantic_search `{Externals} (request : SearchRequest) (current_user_id : Z)
  : EmbeddingService.M SearchService.response :=
  SearchService.semantic_search (query request) (limit request)
    (min_amount request) (max_amount request) (Some current_user_id).

End SearchRoute.

(** ** The expense routes ([app/routes/expenses.py]) *)
Module ExpenseRoutes.

(** [TokenData], the identity the token of a request carries. *)
Record TokenData : Type := { user_id : Z; username : string; role : string }.

(** The arguments of a call of [AuditService.log_action]. *)
Record audit_call : Type := {
  audit_user_id : Z;
  action : string;
  target_type : string;
  target_id : Z;
  target_name : string;
  audit_status : string
}.

(** What the [DELETE] handler answers. *)
Inductive delete_response : Type :=
| Deleted (message : string)
| Delete_exception (status_code : Z) (detail : string).

(** [_serialize_expense(expense, db)]: the expense with the full name of
    its user. *)
Definition _serialize_expense (d : DB) (expense : Expense.t) : ExpenseService.http_response :=
  ExpenseService.Http_ok expense
    match user_of d (Expense.user_id expense) with
    | Some u => User.full_name u
    | None => None
    end.

(** [PUT /api/expenses/{expense_id}]: the answer and the calls of the audit
    log, the WebSocket broadcast left out. *)
Definition update_expense_status (expense_id : Z) (status : string)
           (current_user : TokenData)
  : EmbeddingService.world
    -> EmbeddingService.world * ExpenseService.http_response * list audit_call :=
  fun w =>
    match ExpenseService.find_expense (EmbeddingService.db w) expense_id with
    | None => (w, ExpenseService.Http_exception 404 "Expense not found", [])
    | Some expense =>
        if negb (Expense.user_id expense =? user_id current_user)%Z
           && String.eqb (role current_user) "Employee"
        then (w, ExpenseService.Http_exception 403 "Unauthorized", [])
        else
          match ExpenseService.update_status expense_id status w with
          | (w', Returns updated) =>
              let audit :=
                if Text.mem status ["approved"; "rejected"]
                   && Text.mem (role current_user) ["Admin"; "Super Admin"]
                then [{| audit_user_id := user_id current_user;
                         action := Text.capitalize status +:+ " Expense";
                         target_type := "Expense";
                         target_id := expense_id;
                         target_name := "Expense #" +:+ Text.of_Z expense_id;
                         audit_status := status |}]
                else [] in
              let expense_with_user :=
                ExpenseService.find_expense (EmbeddingService.db w') expense_id in
              match expense_with_user, updated with
              | Some e, _ | None, Some e =>
                  (w', _serialize_expense (EmbeddingService.db w') e, audit)
              | None, None =>
                  (w', ExpenseService.Http_exception 500 "Internal Server Error", audit)
              end
          | (w', Raises e) =>
              (w', ExpenseService.Http_exception 500 "Internal Server Error", [])
          end
    end.

(** [DELETE /api/expenses/{expense_id}] *)
Definition delete_expense (expense_id : Z) (current_user : TokenData)
  : EmbeddingService.world
    -> EmbeddingService.world * delete_response * list audit_call :=
  fun w =>
    match ExpenseService.find_expense (EmbeddingService.db w) expense_id with
    | None => (w, Delete_exception 404 "Expense not found", [])
    | Some expense =>
        if negb (Expense.user_id expense =? user_id current_user)%Z
           && String.eqb (role current_user) "Employee"
        then (w, Delete_exception 403 "Unauthorized", [])
        else
          match ExpenseService.delete_expense expense_id w with
          | (w', Returns _) =>
              (w', Deleted "Expense deleted",
               [{| audit_user_id := user_id current_user;
                   action := "Deleted Expense";
                   target_type := "Expense";
                   target_id := expense_id;
                   target_name := "Expense #" +:+ Text.of_Z expense_id;
                   audit_status := "success" |}])
          | (w', Raises e) => (w', Delete_exception 500 "Internal Server Error", [])
          end
    end.

End ExpenseRoutes.

(** ** A concrete set of collaborators, to run the services *)
Module Python.

(** The text of a float with a short finite decimal expansion, as [repr]
    prints it between 1e-4 and 1e16: [500.0], [0.18], [216.09]. *)
Fixpoint fraction_digits (fuel : nat) (num : Z) (den : Z) : string :=
  match fuel with
  | O => ""
  | S f =>
      if (num =? 0)%Z then ""
      else Text.of_Z (num * 10 / den) +:+ fraction_digits f ((num * 10) mod den) den
  end.

Definition float_repr (q : Q) : string :=
  let n := Qnum q in
  let d := Z.pos (Qden q) in
  let a := Z.abs n in
  let whole := (a / d)%Z in
  let frac := (a mod d)%Z in
  (if (n <? 0)%Z then "-" else "") +:+ Text.of_Z whole +:+ "." +:+
  (if (frac =? 0)%Z then "0" else fraction_digits 17 frac d).

(** Insertion-ordered removal of duplicates, one possible order of
    [list(set(l))]. *)
Definition unique (l : list string) : list string := SearchService.distinct l [].

Definition externals (encoder : string -> option (list Q)) (this_year : Z) : Externals :=
  {| sequence_ratio := Difflib.ratio;
     close_matches := Difflib.get_close_matches;
     encode := encoder;
     current_year := this_year;
     set_order := unique;
     float_str := float_repr |}.

End Python.


(** ** Rank order in a list *)

(** [x] stands at an earlier position than [y] in [l]. *)
Definition before {A : Type} (x y : A) (l : list A) : Prop :=
  exists l1 l2 l3, l = l1 ++ x :: l2 ++ y :: l3.



(** ** Concrete stores, to run the services on *)
Module Examples.

(** The encoder sends every text to the origin; the stored vectors below
    are chosen by their distance to it. *)
Definition collaborators : Externals := Python.externals (fun _ => Some [0%Q]) 2025.
(** An encoder that raises on every text. *)
Definition failing_collaborators : Externals := Python.externals (fun _ => None) 2025.

Definition on (y m d : Z) : Date := {| year := y; month := m; day := d |}.

Definition expense (i u : Z) (d : Date) (label item category : string) (amount : Q)
           (gst_eligible : bool) (gst_amount : Q) : Expense.t :=
  {| Expense.id := i; Expense.user_id := u; Expense.date := Some d;
     Expense.amount := amount; Expense.label := label; Expense.item := item;
     Expense.category := category; Expense.description := None;
     Expense.status := "approved"; Expense.gst_eligible := gst_eligible;
     Expense.gst_amount := gst_amount |}.

(** The embedding row of expense [i], with a one-dimensional vector. *)
Definition row (i : Z) (v : Q) : Embedding.t :=
  {| Embedding.expense_id := Some i; Embedding.item_type := "expense";
     Embedding.item_id := i; Embedding.text := ""; Embedding.embedding_vector := [v] |}.

Definition people : list User.t :=
  [ {| User.id := 1; User.full_name := Some "Gaurav Kumar" |};
    {| User.id := 2; User.full_name := Some "Priya Shah" |} ].

Definition store (es : list Expense.t) (rows : list Embedding.t) : DB :=
  {| users := people; expenses := es; gst_claims := []; embeddings := rows |}.

(** A process started on [d]: a fresh service after [load_from_db]. *)
Definition started `{Externals} (d : DB) : EmbeddingService.world :=
  fst (EmbeddingService.load_from_db
         {| EmbeddingService.service := EmbeddingService.init;
            EmbeddingService.db := d |}).

(** A November and a December record with the same text; the November one
    is the nearer to the query (similarity 9/10 against 1/2). *)
Definition petrol_store : DB :=
  store [ expense 1 1 (on 2025 11 15) "Petrol" "Fuel" "Travel" 500 false 0;
          expense 2 1 (on 2025 12 15) "Petrol" "Fuel" "Travel" 500 false 0 ]
        [ row 1 (1 # 3); row 2 1 ].

(** The two records of the strict item filtering scenario. *)
Definition cake_store : DB :=
  store [ expense 1 1 (on 2025 11 21) "Chocolate Cake" "Cake" "Food" 500 false 0;
          expense 2 1 (on 2025 11 20) "Team Lunch" "Lunch" "Food" 1200 false 0 ]
        [ row 1 (1 # 3); row 2 1 ].

(** A record of Gaurav (similarity 1/2) and one of Priya (similarity 9/10),
    both of November 2025. *)
Definition person_store : DB :=
  store [ expense 1 1 (on 2025 11 21) "Chocolate Cake" "Cake" "Food" 500 false 0;
          expense 2 2 (on 2025 11 20) "Petrol" "Fuel" "Travel" 1200 false 0 ]
        [ row 1 1; row 2 (1 # 3) ].

(** Two November records whose labels hold the word of the query. *)
Definition limit_store : DB :=
  store [ expense 1 1 (on 2025 11 3) "Travel expense" "Bus" "Travel" 100 false 0;
          expense 2 1 (on 2025 11 4) "Food expense" "Lunch" "Food" 200 false 0 ]
        [ row 1 (1 # 3); row 2 1 ].

(** A taxi ride without tax and a tax-eligible purchase, both of November. *)
Definition taxi_store : DB :=
  store [ expense 1 1 (on 2025 11 3) "Taxi" "Cab" "Travel" 300 false 0;
          expense 2 1 (on 2025 11 4) "Laptop" "Computer" "Office" 50000 true 9000 ]
        [ row 1 0; row 2 (1 # 3) ].

(** A tax-eligible expense. *)
Definition taxed_expense : Expense.t :=
  expense 7 1 (on 2025 11 15) "Petrol" "Fuel" "Travel" 500 true 90.

Definition new_expense : ExpenseService.ExpenseCreate :=
  {| ExpenseService.date := on 2025 11 15; ExpenseService.amount := 500;
     ExpenseService.label := "Petrol"; ExpenseService.item := "Fuel";
     ExpenseService.category := "Travel"; ExpenseService.description := None;
     ExpenseService.gst_eligible := false |}.

(** The same two records, the one of Gaurav now the nearer (9/10 against 1/2). *)
Definition ranked_store : DB :=
  store [ expense 1 1 (on 2025 11 21) "Chocolate Cake" "Cake" "Food" 500 false 0;
          expense 2 2 (on 2025 11 20) "Petrol" "Fuel" "Travel" 1200 false 0 ]
        [ row 1 (1 # 3); row 2 1 ].

Definition no_response : SearchService.response :=
  {| SearchService.query_text := ""; SearchService.total_results := 0;
     SearchService.final_results := [] |}.

(** The response of an unfiltered search, when it returns. *)
Definition answer `{Externals} (query : string) (limit : positive)
           (w : EmbeddingService.world) : SearchService.response :=
  match snd (SearchService.semantic_search query limit None None None w) with
  | Returns resp => resp
  | Raises _ => no_response
  end.

(** The candidates the index hands to that search. *)
Definition candidates `{Externals} (query : string) (limit : positive)
           (w : EmbeddingService.world) : list (string * option Z * Q) :=
  match snd (EmbeddingService.search (SearchService._normalize_query query)
               (SearchService.search_k
                  (SearchService.context_of (EmbeddingService.db w) query) limit) w) with
  | Returns l => l
  | Raises _ => []
  end.

(** The four lists that search fills. *)
Definition filled `{Externals} (query : string) (limit : positive)
           (w : EmbeddingService.world) : SearchService.buckets :=
  SearchService.fill_buckets (EmbeddingService.db w)
    (SearchService.context_of (EmbeddingService.db w) query) None None None
    (candidates query limit w).

Definition no_result : SearchService.result :=
  {| SearchService.id := 0; SearchService.type := ""; SearchService.label := "";
     SearchService.item := ""; SearchService.amount := 0;
     SearchService.gst_amount := None; SearchService.category := "";
     SearchService.status := ""; SearchService.similarity_score := 0 |}.

Definition empty_world : EmbeddingService.world :=
  {| EmbeddingService.service := EmbeddingService.init;
     EmbeddingService.db := store [] [] |}.

(** A GST claim of Priya, of November 2025. *)
Definition office_claim : GSTClaim.t :=
  {| GSTClaim.id := 1; GSTClaim.user_id := 2; GSTClaim.vendor := "Dell";
     GSTClaim.amount := 50000; GSTClaim.category := "Office";
     GSTClaim.gst_rate := 18; GSTClaim.gst_amount := 9000;
     GSTClaim.status := "pending"; GSTClaim.created_at := Some (on 2025 11 5) |}.

(** Two expenses and a GST claim, of which only the first expense has an
    embedding row yet. *)
Definition office_store : DB :=
  {| users := people;
     expenses :=
       [ expense 1 1 (on 2025 11 21) "Chocolate Cake" "Cake" "Food" 500 false 0;
         expense 2 2 (on 2025 12 2) "Petrol" "Fuel" "Travel" 1200 false 0 ];
     gst_claims := [office_claim];
     embeddings := [row 1 1] |}.

(** A fresh process on [office_store], before [load_from_db]. *)
Definition office_world : EmbeddingService.world :=
  {| EmbeddingService.service := EmbeddingService.init;
     EmbeddingService.db := office_store |}.

(** The response of a filtered search, when it returns. *)
Definition answer_with `{Externals} (query : string) (limit : positive)
           (min_amount max_amount : option Q) (user_id : option Z)
           (w : EmbeddingService.world) : SearchService.response :=
  match snd (SearchService.semantic_search query limit min_amount max_amount user_id w) with
  | Returns resp => resp
  | Raises _ => no_response
  end.

(** The first result of a response. *)
Definition first_result (resp : SearchService.response) : SearchService.result :=
  hd no_result (SearchService.final_results resp).

(** The candidates of a search of the index, when it returns. *)
Definition hits `{Externals} (query : string) (k : positive)
           (w : EmbeddingService.world) : list (string * option Z * Q) :=
  match snd (EmbeddingService.search query k w) with
  | Returns l => l
  | Raises _ => []
  end.

(** A search request without amount bounds. *)
Definition request (query : string) (limit : positive) : SearchRoute.SearchRequest :=
  {| SearchRoute.query := query; SearchRoute.limit := limit;
     SearchRoute.min_amount := None; SearchRoute.max_amount := None |}.

(** Gaurav, signed in as an employee. *)
Definition employee : ExpenseRoutes.TokenData :=
  {| ExpenseRoutes.user_id := 1; ExpenseRoutes.username := "gaurav";
     ExpenseRoutes.role := "Employee" |}.

(** A fresh process on [person_store]. *)
Definition person_world : EmbeddingService.world :=
  {| EmbeddingService.service := EmbeddingService.init;
     EmbeddingService.db := person_store |}.

End Examples.

(** ** The statements of the specification that the code departs from *)

(** Bucket precedence as the specification words it: in no answer does a
    result of the similarity-only list stand before a result of the
    date-and-signal list. *)
Definition bucket_precedence : Prop :=
  forall (E : Externals) (w : EmbeddingService.world) (query : string) (limit : positive)
         (results : list (string * option Z * Q)) (resp : SearchService.response),
    snd (EmbeddingService.search (SearchService._normalize_query query)
           (SearchService.search_k
              (SearchService.context_of (EmbeddingService.db w) query) limit) w)
    = Returns results ->
    snd (SearchService.semantic_search query limit None None None w) = Returns resp ->
    let b := SearchService.fill_buckets (EmbeddingService.db w)
               (SearchService.context_of (EmbeddingService.db w) query)
               None None None results in
    forall x y,
      In x (SearchService.date_keyword_matched_results b) ->
      In y (SearchService.results b) ->
      ~ before y x (SearchService.final_results resp).



(** Truncation as the specification words it: without the specific item
    flag an answer has at most [limit] results. *)
Definition truncated_to_limit : Prop :=
  forall (E : Externals) (w : EmbeddingService.world) (query : string) (limit : positive)
         (resp : SearchService.response),
    snd (SearchService.semantic_search query limit None None None w) = Returns resp ->
    SearchService.has_specific_item_keyword
      (SearchService.context_of (EmbeddingService.db w) query) = false ->
    (length (SearchService.final_results resp) <= Pos.to_nat limit)%nat.


(** [expense] with other tax fields. *)
Definition with_tax (expense : Expense.t) (flag : bool) (tax : Q) : Expense.t :=
  {| Expense.id := Expense.id expense;
     Expense.user_id := Expense.user_id expense;
     Expense.date := Expense.date expense;
     Expense.amount := Expense.amount expense;
     Expense.label := Expense.label expense;
     Expense.item := Expense.item expense;
     Expense.category := Expense.category expense;
     Expense.description := Expense.description expense;
     Expense.status := Expense.status expense;
     Expense.gst_eligible := flag;
     Expense.gst_amount := tax |}.

(** The tax marker as the specification words it: the searchable text of
    every tax-eligible expense holds the words "gst tax". *)
Definition expense_text_has_tax_marker : Prop :=
  forall (E : Externals) (expense : Expense.t),
    SearchService.has_gst expense = true ->
    Text.contains "gst tax" (EmbeddingService.generate_text expense) = true.

(** ** Invariants of the four result lists *)

(** Every result of the four lists satisfies [P]. *)
Definition all_buckets (P : SearchService.result -> Prop) (b : SearchService.buckets) : Prop :=
  Forall P (SearchService.results b)
  /\ Forall P (SearchService.keyword_matched_results b)
  /\ Forall P (SearchService.date_keyword_matched_results b)
  /\ Forall P (SearchService.gst_results_from_embedding b).

(** [b'] is [b] with the result [r] appended to one of its lists. *)
Definition appended (r : SearchService.result) (b b' : SearchService.buckets) : Prop :=
  b' = SearchService.append_results r b
  \/ b' = SearchService.append_keyword_matched r b
  \/ b' = SearchService.append_date_keyword_matched r b
  \/ b' = SearchService.append_gst_from_embedding r b.

(** The expense row an id denotes, as the loop of [semantic_search] loads it. *)
Definition expense_by_id (d : DB) (i : Z) : option Expense.t :=
  find (fun e => bool_decide (Some (Expense.id e) = Some i)) (expenses d).

(** A result of an expense on which no signal of the query fired. *)
Definition from_unmatched_expense `{Externals} (d : DB) (q : SearchService.query_context)
           (r : SearchService.result) : Prop :=
  SearchService.type r = "expense"
  /\ exists e, expense_by_id d (SearchService.id r) = Some e
               /\ SearchService.soft_signal d q e = false.

(** A result of a GST claim, or of an expense on which a signal fired. *)
Definition from_matched `{Externals} (d : DB) (q : SearchService.query_context)
           (r : SearchService.result) : Prop :=
  SearchService.type r = "gst_claim"
  \/ (SearchService.type r = "expense"
      /\ exists e, expense_by_id d (SearchService.id r) = Some e
                   /\ SearchService.soft_signal d q e = true).

(** The similarity-only list holds unmatched expenses only, the
    date-and-signal list holds none. *)
Definition buckets_by_signal `{Externals} (d : DB) (q : SearchService.query_context)
           (b : SearchService.buckets) : Prop :=
  Forall (from_unmatched_expense d q) (SearchService.results b)
  /\ Forall (from_matched d q) (SearchService.date_keyword_matched_results b).

(** ** Notions the further properties are stated with *)

(** The claim row an id denotes, as the loop of [semantic_search] loads it. *)
Definition claim_by_id (d : DB) (i : Z) : option GSTClaim.t :=
  find (fun c => bool_decide (Some (GSTClaim.id c) = Some i)) (gst_claims d).

(** The owner passes the caller's [user_id] filter. *)
Definition owner_ok (user_id : option Z) (owner : Z) : Prop :=
  truthy_int user_id = true -> user_id = Some owner.

(** The amount passes the caller's [min_amount] and [max_amount] filters. *)
Definition amount_ok (min_amount max_amount : option Q) (amount : Q) : Prop :=
  (truthy_float min_amount = true -> (default 0%Q min_amount <= amount)%Q)
  /\ (truthy_float max_amount = true -> (amount <= default 0%Q max_amount)%Q).

(** What a result of [semantic_search] is known to come from: an expense
    or a GST claim of the store that passed the caller's filters and the
    filters of the query. *)
Definition provenance (d : DB) (q : SearchService.query_context)
           (mn mx : option Q) (uid : option Z) (r : SearchService.result) : Prop :=
  (SearchService.type r = "expense"
   /\ exists e,
        expense_by_id d (SearchService.id r) = Some e
        /\ SearchService.label r = Expense.label e
        /\ SearchService.item r = Expense.item e
        /\ SearchService.amount r = Expense.amount e
        /\ owner_ok uid (Expense.user_id e)
        /\ amount_ok mn mx (Expense.amount e)
        /\ Expense.date e <> None
        /\ (SearchService.has_specific_item_keyword q = true ->
            existsb (fun k => Text.contains k (Text.lower (Expense.label e))
                              || Text.contains k (Text.lower (Expense.item e)))
                    (SearchService.specific_item_keywords q) = true)
        /\ (SearchService.has_specific_item_keyword q = false ->
            (3 # 10 <= SearchService.similarity_score r)%Q))
  \/ (SearchService.type r = "gst_claim"
      /\ exists c,
           claim_by_id d (SearchService.id r) = Some c
           /\ SearchService.amount r = GSTClaim.amount c
           /\ owner_ok uid (GSTClaim.user_id c)
           /\ amount_ok mn mx (GSTClaim.amount c)
           /\ (3 # 10 <= SearchService.similarity_score r)%Q
           /\ (forall created_at,
                 truthy_int (SearchService.month_hint q) = true ->
                 GSTClaim.created_at c = Some created_at ->
                 (month created_at =? default 0%Z (SearchService.month_hint q))%Z
                 && (year created_at =? SearchService.year_hint q)%Z = false ->
                 (7 # 10 <= SearchService.similarity_score r)%Q)).

(** The number of results in the four lists. *)
Definition bucket_size (b : SearchService.buckets) : nat :=
  length (SearchService.results b)
  + length (SearchService.keyword_matched_results b)
  + length (SearchService.date_keyword_matched_results b)
  + length (SearchService.gst_results_from_embedding b).

(** Every slot of the index has an entry in [id_map], and no other slot. *)
Definition slots_mapped (s : EmbeddingService.t) : Prop :=
  forall j : nat, is_Some (EmbeddingService.id_map s !! j)
                  <-> (j < EmbeddingService.ntotal s)%nat.

(** The rows of the key [(item_type, item_id)] in the embeddings table. *)
Definition rows_of (item_type : string) (item_id : Z) (rows : list Embedding.t)
  : list Embedding.t :=
  filter (EmbeddingService.same_item item_type item_id) rows.

(** The keys the backfill regards as covered by the table. *)
Definition covered (rows : list Embedding.t) : list (string * option Z) :=
  map EmbeddingService.existing_key rows.

(** The set [existing_map] of the backfill holds the keys of the rows, and
    no other. *)
Definition covers (existing_map : gset (string * option Z)) (rows : list Embedding.t)
  : Prop :=
  forall key, key ∈ existing_map <-> In key (covered rows).

(** A row in the new format: its [item_type] and [item_id] are set. *)
Definition new_format (r : Embedding.t) : Prop :=
  truthy_str (Embedding.item_type r) = true /\ Embedding.item_id r <> 0%Z.

(** The order of the hits of the index, and of the candidates of a search. *)
Definition nearer (a b : nat * Q) : Prop := (snd a <= snd b)%Q.
Definition more_similar (a b : string * option Z * Q) : Prop := (snd b <= snd a)%Q.

(** A computation that leaves the service object as it found it. *)
Definition keeps_service {A : Type} (c : EmbeddingService.M A) : Prop :=
  forall w, EmbeddingService.service (fst (c w)) = EmbeddingService.service w.

(** A computation that keeps every slot of the index mapped. *)
Definition keeps_slots {A : Type} (c : EmbeddingService.M A) : Prop :=
  forall w, slots_mapped (EmbeddingService.service w) ->
            slots_mapped (EmbeddingService.service (fst (c w))).

(** * Properties *)

(** ** Facts about the text primitives *)

Lemma append_cons (c : ascii) (s t : string) :
  String c s +:+ t = String c (s +:+ t).
Proof. reflexivity. Qed.

Lemma starts_with_append (p t : string) : Text.starts_with p (p +:+ t) = true.
Proof.
  induction p as [|c p IH]; [reflexivity|].
  rewrite append_cons. cbn [Text.starts_with].
  rewrite Ascii.eqb_refl. exact IH.
Qed.

Lemma starts_with_append_l (p s t : string) :
  Text.starts_with p s = true -> Text.starts_with p (s +:+ t) = true.
Proof.
  revert s. induction p as [|c p IH]; intros s Hs; [reflexivity|].
  destruct s as [|c' s]; [discriminate|].
  rewrite append_cons. cbn [Text.starts_with] in *.
  apply andb_true_iff in Hs as [Hc Hp].
  rewrite Hc. cbn. now apply IH.
Qed.

Lemma contains_unfold (p s : string) :
  Text.contains p s =
  Text.starts_with p s || match s with EmptyString => false | String _ r => Text.contains p r end.
Proof. destruct s; reflexivity. Qed.

Lemma contains_append_l (p s t : string) :
  Text.contains p s = true -> Text.contains p (s +:+ t) = true.
Proof.
  induction s as [|c s IH]; intros Hs.
  - rewrite contains_unfold in Hs. rewrite orb_false_r in Hs.
    destruct p; [|discriminate]. rewrite contains_unfold. reflexivity.
  - rewrite contains_unfold in Hs. rewrite append_cons, contains_unfold.
    apply orb_true_iff in Hs as [Hs|Hs].
    + rewrite <- append_cons, (starts_with_append_l _ _ _ Hs). reflexivity.
    + rewrite (IH Hs). apply orb_true_r.
Qed.

Lemma contains_append_r (p s t : string) :
  Text.contains p t = true -> Text.contains p (s +:+ t) = true.
Proof.
  intros Ht. induction s as [|c s IH]; [exact Ht|].
  rewrite append_cons, contains_unfold, IH. apply orb_true_r.
Qed.

Lemma contains_here (p t : string) : Text.contains p (p +:+ t) = true.
Proof. rewrite contains_unfold, starts_with_append. reflexivity. Qed.

(** ** Spelling correction *)

Section Spelling.
Context `{Externals}.
Import SearchService.

(** C8. Spelling normalization sends the token "pertol" to "petrol" and
    leaves the token "gst" unchanged, so it is never turned into "gas":
    this holds for the static vocabulary and for every vocabulary that
    lists "gst", whatever the fuzzy matcher answers. *)
Theorem correct_spelling_pertol_gst (vocabulary : option (list string)) :
  Text.mem "gst" (default EXPENSE_VOCABULARY vocabulary) = true ->
  _correct_spelling "pertol" vocabulary = "petrol"
  /\ _correct_spelling "gst" vocabulary = "gst"
  /\ _correct_spelling "gst" vocabulary <> "gas"
  /\ _normalize_query "pertol" = "petrol"
  /\ _normalize_query "gst" = "gst".
Proof.
  intros Hmem.
  assert (Hgst : _correct_spelling "gst" vocabulary = "gst").
  { unfold _correct_spelling.
    change (String.length "gst" <? 2)%nat with false.
    change (Text.lower "gst") with "gst".
    change (dict_get "gst" TYPO_CORRECTIONS) with (@None string).
    cbv beta iota zeta. rewrite Hmem. reflexivity. }
  split; [reflexivity|].
  split; [exact Hgst|].
  split; [rewrite Hgst; discriminate|].
  split; reflexivity.
Qed.

End Spelling.

Lemma correct_spelling_pertol_gst_witness :
  Text.mem "gst" (default SearchService.EXPENSE_VOCABULARY None) = true
  /\ @SearchService._correct_spelling (Python.externals (fun _ => None) 2025) "gst" None = "gst".
Proof.
  split; [reflexivity|].
  apply (@correct_spelling_pertol_gst (Python.externals (fun _ => None) 2025) None).
  reflexivity.
Defined.

(** ** The ranking engine *)

Section Ranking.
Context `{Externals}.
Import SearchService.

Lemma all_buckets_empty (P : result -> Prop) : all_buckets P empty_buckets.
Proof. repeat split; constructor. Qed.

Lemma all_buckets_appended (P : result -> Prop) (r : result) (b b' : buckets) :
  appended r b b' -> P r -> all_buckets P b -> all_buckets P b'.
Proof.
  intros Happ Hr (H1 & H2 & H3 & H4).
  unfold all_buckets.
  destruct Happ as [-> | [-> | [-> | ->]]]; cbn;
    rewrite ?Forall_app; repeat split; auto.
Qed.

Ltac by_return b :=
  match goal with
  | |- context [if ?c then b else _] =>
      destruct c eqn:?; cbv beta iota; [left; reflexivity|]
  end.

(** What one call of [process_expense_result] does to the lists: nothing, or
    one result of the expense appended, to the date-and-signal list when a
    signal fired and to the similarity-only list otherwise; and then the
    query has a month hint and, when it is a tax query, the expense carries
    tax. *)
Lemma process_expense_result_cases d q e s b :
  process_expense_result d q e s b = b \/
  exists r,
    type r = "expense" /\ id r = Expense.id e
    /\ truthy_int (month_hint q) = true
    /\ (is_gst_query q = true -> has_gst e = true)
    /\ ((soft_signal d q e = true
         /\ process_expense_result d q e s b = append_date_keyword_matched r b)
        \/ (soft_signal d q e = false
            /\ process_expense_result d q e s b = append_results r b)).
Proof.
  unfold process_expense_result, soft_signal. cbv zeta.
  by_return b. by_return b. by_return b.
  destruct (Expense.date e) as [date|]; [|left; reflexivity].
  match goal with
  | |- context [match ?a with Some _ => _ | None => b end] =>
      destruct a as [boost|]
  end; [|left; reflexivity].
  cbv beta iota.
  assert (Hmonth : truthy_int (month_hint q) = true)
    by (now apply negb_false_iff).
  assert (Hgst : is_gst_query q = true -> has_gst e = true).
  { intros Hq. rewrite Hq in *. now destruct (has_gst e). }
  cbn [andb].
  destruct (keyword_match d q e || phrase_match d q e || person_name_match d q e
            || is_gst_query q && has_gst e) eqn:Hsoft; cbv beta iota.
  - match goal with
    | |- context [append_date_keyword_matched ?r b = b] =>
        right; exists r; repeat (split; [assumption || reflexivity|]);
        left; split; reflexivity
    end.
  - match goal with
    | |- context [if ?c then append_results ?r b else b] =>
        destruct c; [|left; reflexivity];
        right; exists r; repeat (split; [assumption || reflexivity|]);
        right; split; reflexivity
    end.
Qed.

(** The same for the GST branch of the loop. *)
Lemma process_gst_result_cases d q c s b :
  process_gst_result d q c s b = b \/
  exists r,
    type r = "gst_claim" /\ id r = GSTClaim.id c
    /\ (process_gst_result d q c s b = append_keyword_matched r b
        \/ process_gst_result d q c s b = append_date_keyword_matched r b
        \/ process_gst_result d q c s b = append_gst_from_embedding r b).
Proof.
  unfold process_gst_result. cbv zeta.
  match goal with
  | |- context [let '(_, _) := ?x in _] => destruct x as [overall boost]
  end.
  destruct overall; cbn [negb]; cbv beta iota; [|left; reflexivity].
  by_return b.
  match goal with
  | |- context [match ?a with Some _ => _ | None => b end] =>
      destruct a as [[date_match boost']|]
  end; [|left; reflexivity].
  cbv beta iota.
  destruct date_match; cbn [andb]; cbv beta iota;
    match goal with
    | |- context [?f ?r b = b] =>
        right; exists r; repeat (split; [reflexivity|]); tauto
    end.
Qed.

(** One turn of the loop leaves the lists alone or appends one result: of
    a GST claim, outside the similarity-only list, or of the expense the
    candidate denotes. *)
Lemma process_candidate_precise d q mn mx uid b c :
  process_candidate d q mn mx uid b c = b \/
  exists r,
    (type r = "gst_claim"
     /\ (process_candidate d q mn mx uid b c = append_keyword_matched r b
         \/ process_candidate d q mn mx uid b c = append_date_keyword_matched r b
         \/ process_candidate d q mn mx uid b c = append_gst_from_embedding r b))
    \/ (type r = "expense"
        /\ truthy_int (month_hint q) = true
        /\ exists e,
             expense_by_id d (id r) = Some e
             /\ (is_gst_query q = true -> has_gst e = true)
             /\ ((soft_signal d q e = true
                  /\ process_candidate d q mn mx uid b c = append_date_keyword_matched r b)
                 \/ (soft_signal d q e = false
                     /\ process_candidate d q mn mx uid b c = append_results r b))).
Proof.
  destruct c as [[item_type item_id] s]. unfold process_candidate.
  destruct (String.eqb item_type "expense").
  - destruct (find _ (expenses d)) as [e|] eqn:Hfind; [|left; reflexivity].
    repeat by_return b.
    destruct (process_expense_result_cases d q e s b)
      as [->|(r & Ht & Hi & Hm & Hg & Hcase)]; [left; reflexivity|].
    right. exists r. right.
    split; [exact Ht|]. split; [exact Hm|].
    exists e. split; [|split; [exact Hg|exact Hcase]].
    pose proof (find_some _ _ Hfind) as [_ Hid].
    apply bool_decide_eq_true in Hid. subst item_id.
    unfold expense_by_id. rewrite Hi. exact Hfind.
  - destruct (String.eqb item_type "gst_claim"); [|left; reflexivity].
    destruct (find _ (gst_claims d)) as [g|]; [|left; reflexivity].
    repeat by_return b.
    destruct (process_gst_result_cases d q g s b)
      as [->|(r & Ht & Hi & Happ)]; [left; reflexivity|].
    right. exists r. left. split; [exact Ht|exact Happ].
Qed.

Lemma process_candidate_cases d q mn mx uid b c :
  process_candidate d q mn mx uid b c = b \/
  exists r, appended r b (process_candidate d q mn mx uid b c)
    /\ ((type r = "gst_claim")
        \/ (type r = "expense"
            /\ truthy_int (month_hint q) = true
            /\ exists e, expense_by_id d (id r) = Some e
                         /\ (is_gst_query q = true -> has_gst e = true))).
Proof.
  destruct (process_candidate_precise d q mn mx uid b c)
    as [Heq|(r & [(Ht & Happ)|(Ht & Hm & e & He & Hg & Happ)])];
    [left; exact Heq|right; exists r..].
  - split; [unfold appended; tauto|]. left. exact Ht.
  - split; [unfold appended; tauto|]. right. eauto.
Qed.

(** After the loop the similarity-only list holds unmatched expenses only
    and the date-and-signal list holds none. *)
Lemma fill_buckets_by_signal d q mn mx uid cands :
  buckets_by_signal d q (fill_buckets d q mn mx uid cands).
Proof.
  unfold fill_buckets.
  assert (Hempty : buckets_by_signal d q empty_buckets) by (split; constructor).
  revert Hempty. generalize empty_buckets.
  induction cands as [|c cands IH]; intros b Hb; [exact Hb|].
  cbn [fold_left]. apply IH. destruct Hb as [Hres Hdkm].
  destruct (process_candidate_precise d q mn mx uid b c)
    as [ -> | (r & [(Ht & [ -> | [ -> | -> ] ])
                      | (Ht & _ & e & He & _ & [ [Hs -> ] | [Hs -> ] ])]) ];
    (split;
     cbn [results date_keyword_matched_results append_results append_keyword_matched
          append_date_keyword_matched append_gst_from_embedding];
     try assumption);
    (apply Forall_app; split; [assumption|]); apply Forall_singleton.
  - now left.
  - right. eauto.
  - split; eauto.
Qed.

(** No result of the similarity-only list has the key of a result of the
    date-and-signal list. *)
Lemma buckets_by_signal_disjoint d q b y :
  buckets_by_signal d q b ->
  In y (results b) ->
  ~ In (result_key y) (map result_key (date_keyword_matched_results b)).
Proof.
  intros [Hres Hdkm] Hy Hkey.
  apply in_map_iff in Hkey as (z & Hk & Hz).
  rewrite List.Forall_forall in Hres, Hdkm.
  destruct (Hres y Hy) as (Hty & e & He & Hs).
  injection Hk as Hkt Hki.
  destruct (Hdkm z Hz) as [Htz|(Htz & e' & He' & Hs')].
  - congruence.
  - rewrite Hki, He in He'. injection He' as <-. congruence.
Qed.

(** An invariant of every turn of the loop holds after the loop. *)
Lemma fill_buckets_all (P : result -> Prop) d q mn mx uid cands :
  (forall b c, all_buckets P b -> all_buckets P (process_candidate d q mn mx uid b c)) ->
  all_buckets P (fill_buckets d q mn mx uid cands).
Proof.
  intros Hstep. unfold fill_buckets.
  generalize (all_buckets_empty P). generalize empty_buckets.
  induction cands as [|c cands IH]; intros b Hb; [exact Hb|].
  cbn [fold_left]. apply IH, Hstep, Hb.
Qed.

(** *** Positions in a list *)

Lemma before_cons {A : Type} (a x y : A) (l : list A) :
  before x y l -> before x y (a :: l).
Proof. intros (l1 & l2 & l3 & ->). now exists (a :: l1), l2, l3. Qed.

Lemma before_head {A : Type} (x y : A) (l : list A) :
  In y l -> before x y (x :: l).
Proof.
  intros Hy. apply in_split in Hy as (l2 & l3 & ->). now exists [], l2, l3.
Qed.

Lemma before_inv {A : Type} (a x y : A) (l : list A) :
  before x y (a :: l) -> (a = x /\ In y l) \/ before x y l.
Proof.
  intros (l1 & l2 & l3 & Heq). destruct l1 as [|a' l1]; cbn in Heq.
  - injection Heq as -> ->. left. split; [reflexivity|].
    apply in_or_app. right. now left.
  - injection Heq as -> ->. right. now exists l1, l2, l3.
Qed.

Lemma before_app {A : Type} (x y : A) (l k : list A) :
  In x l -> In y k -> before x y (l ++ k).
Proof.
  intros Hx Hy.
  apply in_split in Hx as (l1 & l2 & ->). apply in_split in Hy as (k1 & k2 & ->).
  exists l1, (l2 ++ k1), k2. now rewrite <- !app_assoc.
Qed.

Lemma before_In {A : Type} (x y : A) (l : list A) :
  before x y l -> In x l /\ In y l.
Proof.
  intros (l1 & l2 & l3 & ->). split.
  - apply in_or_app. right. now left.
  - apply in_or_app. right. right. apply in_or_app. right. now left.
Qed.

(** In a list without repetition the order of two elements is one way only. *)
Lemma before_asym {A : Type} (x y : A) (l : list A) :
  NoDup l -> before x y l -> ~ before y x l.
Proof.
  induction l as [|a l IH]; intros Hnd Hxy Hyx.
  - destruct Hxy as (l1 & l2 & l3 & Heq). now destruct l1.
  - inversion Hnd as [|? ? Hnotin Hnd']; subst.
    apply before_inv in Hxy as [[-> Hy]|Hxy];
      apply before_inv in Hyx as [[Heq Hx]|Hyx].
    + subst. apply list_elem_of_In in Hx. contradiction.
    + apply before_In in Hyx as [_ Hx]. apply list_elem_of_In in Hx. contradiction.
    + subst. apply before_In in Hxy as [_ Hy]. apply list_elem_of_In in Hy.
      contradiction.
    + now apply (IH Hnd' Hxy).
Qed.

Lemma firstn_subset {A : Type} (x : A) (n : nat) (l : list A) :
  In x (firstn n l) -> In x l.
Proof.
  intros Hx. rewrite <- (firstn_skipn n l). apply in_or_app. now left.
Qed.

(** A prefix that still holds the later element keeps the order. *)
Lemma before_firstn {A : Type} (x y : A) (l : list A) (n : nat) :
  NoDup l -> before x y l -> In y (firstn n l) -> before x y (firstn n l).
Proof.
  intros Hnd (l1 & l2 & l3 & ->) Hy.
  destruct (Nat.le_gt_cases n (length (l1 ++ x :: l2))) as [Hle|Hgt].
  - exfalso.
    replace (l1 ++ x :: l2 ++ y :: l3) with ((l1 ++ x :: l2) ++ y :: l3) in *
      by (now rewrite <- app_assoc).
    rewrite firstn_app in Hy.
    replace (n - length (l1 ++ x :: l2))%nat with 0%nat in Hy by lia.
    cbn [firstn] in Hy. rewrite app_nil_r in Hy.
    apply firstn_subset, list_elem_of_In in Hy.
    apply NoDup_app in Hnd as (_ & Hdisj & _).
    apply (Hdisj y Hy). left.
  - exists l1, l2, (firstn (n - length (l1 ++ x :: l2) - 1) l3).
    replace (l1 ++ x :: l2 ++ y :: l3) with ((l1 ++ x :: l2) ++ y :: l3)
      by (now rewrite <- app_assoc).
    rewrite firstn_app, firstn_all2 by lia.
    destruct (n - length (l1 ++ x :: l2))%nat as [|m] eqn:Hm; [lia|].
    cbn [firstn]. replace (S m - 1)%nat with m by lia.
    now rewrite <- app_assoc.
Qed.

(** *** The stable sort by score *)

Lemma insert_by_score_perm (x : result) (l : list result) :
  Permutation (insert_by_score x l) (x :: l).
Proof.
  induction l as [|y l IH]; cbn [insert_by_score]; [reflexivity|].
  destruct (Qle_bool _ _); [reflexivity|].
  rewrite IH. apply perm_swap.
Qed.

Lemma sort_by_score_perm (l : list result) : Permutation (sort_by_score l) l.
Proof.
  induction l as [|x l IH]; cbn; [reflexivity|].
  rewrite insert_by_score_perm. now apply perm_skip.
Qed.

Lemma insert_by_score_keeps (a x y : result) (l : list result) :
  before x y l -> before x y (insert_by_score a l).
Proof.
  induction l as [|z l IH]; intros Hxy; cbn [insert_by_score].
  - destruct Hxy as (l1 & l2 & l3 & Heq). now destruct l1.
  - destruct (Qle_bool _ _); [now apply before_cons|].
    apply before_inv in Hxy as [[-> Hy]|Hxy].
    + apply before_head.
      apply (Permutation_in y (Permutation_sym (insert_by_score_perm a l))).
      now right.
    + apply before_cons. now apply IH.
Qed.

(** The inserted element goes before every element whose score is not larger. *)
Lemma insert_by_score_first (a y : result) (l : list result) :
  In y l -> Qle_bool (similarity_score y) (similarity_score a) = true ->
  before a y (insert_by_score a l).
Proof.
  induction l as [|z l IH]; intros Hy Hle; [destruct Hy|].
  cbn [insert_by_score].
  destruct (Qle_bool (similarity_score z) (similarity_score a)) eqn:Hz.
  - now apply before_head.
  - destruct Hy as [->|Hy]; [congruence|].
    apply before_cons. now apply IH.
Qed.

(** Stability: an element that stood first and whose score is not smaller
    still stands first after the sort. *)
Lemma sort_by_score_stable (x y : result) (l : list result) :
  before x y l ->
  Qle_bool (similarity_score y) (similarity_score x) = true ->
  before x y (sort_by_score l).
Proof.
  induction l as [|a l IH]; intros Hxy Hle.
  - destruct Hxy as (l1 & l2 & l3 & Heq). now destruct l1.
  - cbn [sort_by_score fold_right].
    apply before_inv in Hxy as [[-> Hy]|Hxy].
    + apply insert_by_score_first; [|exact Hle].
      apply (Permutation_in y (Permutation_sym (sort_by_score_perm l)) Hy).
    + apply insert_by_score_keeps. now apply IH.
Qed.

(** The answer is in decreasing order of score. *)
Lemma insert_by_score_sorted (x : result) (l : list result) :
  StronglySorted (fun a b => Qle (similarity_score b) (similarity_score a)) l ->
  StronglySorted (fun a b => Qle (similarity_score b) (similarity_score a))
                 (insert_by_score x l).
Proof.
  induction l as [|y l IH]; intros Hs; cbn [insert_by_score].
  - constructor; constructor.
  - inversion Hs as [|? ? Hs' Hall]; subst.
    destruct (Qle_bool (similarity_score y) (similarity_score x)) eqn:Hle.
    + apply Qle_bool_iff in Hle. constructor; [exact Hs|].
      constructor; [exact Hle|].
      eapply Forall_impl; [exact Hall|]. intros z Hz. cbn in Hz.
      now apply (Qle_trans _ (similarity_score y)).
    + constructor; [now apply IH|].
      apply (Permutation_Forall (Permutation_sym (insert_by_score_perm x l))).
      constructor; [|exact Hall].
      apply Qnot_lt_le. intros Hlt.
      assert (Hxy : Qle (similarity_score y) (similarity_score x))
        by (now apply Qlt_le_weak).
      apply Qle_bool_iff in Hxy. congruence.
Qed.

Lemma sort_by_score_sorted (l : list result) :
  StronglySorted (fun a b => Qle (similarity_score b) (similarity_score a))
                 (sort_by_score l).
Proof.
  induction l as [|x l IH]; cbn; [constructor|].
  now apply insert_by_score_sorted.
Qed.

(** *** Deduplication *)

(** One pass appends to the output the first occurrence of every key of
    [l] that was not seen, and marks every key of [l] as seen. *)
Lemma dedup_pass_spec (l : list result) (seen : gset (string * Z)) (out : list result) :
  exists ext,
    snd (dedup_pass l (seen, out)) = out ++ ext
    /\ incl ext l
    /\ (forall x, In x ext -> result_key x ∉ seen)
    /\ NoDup (map result_key ext)
    /\ (forall k, k ∈ fst (dedup_pass l (seen, out))
                  <-> k ∈ seen \/ In k (map result_key l)).
Proof.
  revert seen out. induction l as [|a l IH]; intros seen out.
  - exists []. cbn. rewrite app_nil_r. repeat split; try easy.
    + constructor.
    + now left.
    + now intros [?|[]].
  - unfold dedup_pass. cbn [fold_left fst snd].
    destruct (decide (result_key a ∈ seen)) as [Hin|Hnotin].
    + destruct (IH seen out) as (ext & Hout & Hincl & Hfresh & Hnd & Hseen).
      exists ext. split; [exact Hout|]. split; [now apply incl_tl|].
      split; [exact Hfresh|]. split; [exact Hnd|].
      intros k. unfold dedup_pass in Hseen. rewrite Hseen. cbn [map In].
      split; [tauto|]. intros [?|[<-|?]]; tauto.
    + destruct (IH ({[result_key a]} ∪ seen) (out ++ [a]))
        as (ext & Hout & Hincl & Hfresh & Hnd & Hseen).
      exists (a :: ext). unfold dedup_pass in Hout, Hseen.
      split; [rewrite Hout, <- app_assoc; reflexivity|].
      split; [now apply incl_cons; [left | apply incl_tl]|].
      split.
      { intros x [<-|Hx]; [exact Hnotin|].
        specialize (Hfresh x Hx). set_solver. }
      split.
      { cbn [map]. constructor; [|exact Hnd].
        intros Hin. apply list_elem_of_In, in_map_iff in Hin as (x & Hk & Hx).
        specialize (Hfresh x Hx). rewrite Hk in Hfresh. set_solver. }
      intros k. rewrite Hseen. cbn [map In]. set_solver.
Qed.

(** The deduplicated list: results of the date-and-signal list first, then
    results whose key is in no date-and-signal result, all keys distinct. *)
Lemma deduplicate_spec (b : buckets) :
  exists first rest,
    deduplicate b = first ++ rest
    /\ incl first (date_keyword_matched_results b)
    /\ incl rest (keyword_matched_results b ++ results b ++ gst_results_from_embedding b)
    /\ (forall x, In x rest ->
          ~ In (result_key x) (map result_key (date_keyword_matched_results b)))
    /\ NoDup (map result_key (deduplicate b)).
Proof.
  unfold deduplicate.
  destruct (dedup_pass_spec (date_keyword_matched_results b) ∅ [])
    as (e1 & Ho1 & Hi1 & Hf1 & Hn1 & Hs1).
  destruct (dedup_pass (date_keyword_matched_results b) (∅, [])) as [seen1 out1].
  cbn [fst snd app] in *. subst out1.
  destruct (dedup_pass_spec (keyword_matched_results b) seen1 e1)
    as (e2 & Ho2 & Hi2 & Hf2 & Hn2 & Hs2).
  destruct (dedup_pass (keyword_matched_results b) (seen1, e1)) as [seen2 out2].
  cbn [fst snd] in *. subst out2.
  destruct (dedup_pass_spec (results b ++ gst_results_from_embedding b) seen2 (e1 ++ e2))
    as (e3 & Ho3 & Hi3 & Hf3 & Hn3 & Hs3).
  destruct (dedup_pass (results b ++ gst_results_from_embedding b) (seen2, e1 ++ e2))
    as [seen3 out3].
  cbn [fst snd] in *. subst out3.
  assert (Hkeys1 : forall x, In x e1 -> result_key x ∈ seen1).
  { intros x Hx. apply Hs1. right. apply in_map, Hi1, Hx. }
  assert (Hkeys2 : forall x, In x e2 -> result_key x ∈ seen2).
  { intros x Hx. apply Hs2. right. apply in_map, Hi2, Hx. }
  exists e1, (e2 ++ e3). rewrite <- app_assoc.
  split; [reflexivity|]. split; [exact Hi1|].
  split.
  { intros x Hx. apply in_app_or in Hx as [Hx|Hx].
    - apply in_or_app. left. now apply Hi2.
    - apply in_or_app. right. now apply Hi3. }
  split.
  { intros x Hx Hk.
    assert (Hseen : result_key x ∈ seen1) by (apply Hs1; now right).
    apply in_app_or in Hx as [Hx|Hx].
    - now apply (Hf2 x Hx).
    - apply (Hf3 x Hx). apply Hs2. now left. }
  rewrite !map_app. apply NoDup_app. split; [exact Hn1|]. split.
  - intros k Hk1 Hk23.
    apply list_elem_of_In, in_map_iff in Hk1 as (x & <- & Hx).
    apply list_elem_of_In, in_app_or in Hk23 as [Hk|Hk];
      apply in_map_iff in Hk as (z & Hkz & Hz).
    + apply (Hf2 z Hz). rewrite Hkz. now apply Hkeys1.
    + apply (Hf3 z Hz). rewrite Hkz. apply Hs2. left. now apply Hkeys1.
  - apply NoDup_app. split; [exact Hn2|]. split; [|exact Hn3].
    intros k Hk2 Hk3.
    apply list_elem_of_In, in_map_iff in Hk2 as (x & <- & Hx).
    apply list_elem_of_In, in_map_iff in Hk3 as (z & Hkz & Hz).
    apply (Hf3 z Hz). rewrite Hkz. now apply Hkeys2.
Qed.

Lemma deduplicate_incl (b : buckets) (x : result) :
  In x (deduplicate b) ->
  In x (date_keyword_matched_results b) \/ In x (keyword_matched_results b)
  \/ In x (results b) \/ In x (gst_results_from_embedding b).
Proof.
  destruct (deduplicate_spec b) as (first & rest & -> & Hf & Hr & _).
  intros Hx. apply in_app_or in Hx as [Hx|Hx]; [left; now apply Hf|].
  apply Hr in Hx. rewrite !in_app_iff in Hx. tauto.
Qed.

(** The answer is the sorted deduplicated list or a prefix of it. *)
Lemma rank_prefix (q : query_context) (limit : positive) (b : buckets) :
  exists n, rank q limit b = firstn n (sort_by_score (deduplicate b)).
Proof.
  unfold rank. destruct (has_specific_item_keyword q).
  - exists (length (sort_by_score (deduplicate b))). now rewrite firstn_all.
  - eexists. reflexivity.
Qed.

Lemma rank_incl (q : query_context) (limit : positive) (b : buckets) (x : result) :
  In x (rank q limit b) -> In x (deduplicate b).
Proof.
  destruct (rank_prefix q limit b) as (n & ->). intros Hx.
  apply firstn_subset in Hx.
  apply (Permutation_in x (sort_by_score_perm (deduplicate b)) Hx).
Qed.

Lemma rank_all (P : result -> Prop) (q : query_context) (limit : positive) (b : buckets) :
  all_buckets P b -> Forall P (rank q limit b).
Proof.
  intros (H1 & H2 & H3 & H4). apply List.Forall_forall. intros x Hx.
  apply rank_incl, deduplicate_incl in Hx.
  rewrite List.Forall_forall in H1, H2, H3, H4.
  destruct Hx as [Hx|[Hx|[Hx|Hx]]]; auto.
Qed.

(** What [semantic_search] returns, in terms of the answer of the index. *)
Lemma semantic_search_returns query limit mn mx uid w resp :
  snd (semantic_search query limit mn mx uid w) = Returns resp ->
  exists cands,
    snd (EmbeddingService.search (_normalize_query query)
           (search_k (context_of (EmbeddingService.db w) query) limit) w)
    = Returns cands
    /\ final_results resp =
       rank (context_of (EmbeddingService.db w) query) limit
            (fill_buckets (EmbeddingService.db w)
               (context_of (EmbeddingService.db w) query) mn mx uid cands)
    /\ total_results resp = length (final_results resp).
Proof.
  unfold semantic_search, EmbeddingService.bind, EmbeddingService.get_db,
    EmbeddingService.ret.
  destruct (EmbeddingService.search _ _ w) as [w' [cands|e]]; cbn [snd].
  - intros [= <-]. exists cands. repeat split.
  - discriminate.
Qed.

(** The search returns whenever the encoder answers on the normalized query. *)
Lemma semantic_search_total query limit mn mx uid w v :
  encode (_normalize_query query) = Some v ->
  exists resp, snd (semantic_search query limit mn mx uid w) = Returns resp.
Proof.
  intros Henc.
  unfold semantic_search, EmbeddingService.bind, EmbeddingService.get_db,
    EmbeddingService.ret, EmbeddingService.search,
    EmbeddingService.create_embedding, EmbeddingService.get_self.
  rewrite Henc. cbn. eexists. reflexivity.
Qed.

(** *** Queries without a month hint *)

(** C9. When no month hint is extracted from the query,
    [process_expense_result] leaves the result lists as they are for every
    expense candidate, and every result [semantic_search] returns has the
    type "gst_claim": a query without a month never returns an expense. *)
Theorem monthless_query_returns_no_expense (query : string) :
  _extract_month_from_query query = None ->
  (forall d e s b, process_expense_result d (context_of d query) e s b = b)
  /\ (forall limit mn mx uid w resp,
        snd (semantic_search query limit mn mx uid w) = Returns resp ->
        Forall (fun r => type r = "gst_claim") (final_results resp)).
Proof.
  intros Hmonth.
  assert (Hhint : forall d, truthy_int (month_hint (context_of d query)) = false).
  { intros d. unfold context_of. cbn [month_hint]. now rewrite Hmonth. }
  split.
  - intros d e s b.
    destruct (process_expense_result_cases d (context_of d query) e s b)
      as [Heq|(r & _ & _ & Hm & _)]; [exact Heq|].
    rewrite Hhint in Hm. discriminate.
  - intros limit mn mx uid w resp Hret.
    apply semantic_search_returns in Hret as (cands & _ & -> & _).
    apply rank_all, fill_buckets_all. intros b c Hb.
    destruct (process_candidate_cases (EmbeddingService.db w)
                (context_of (EmbeddingService.db w) query) mn mx uid b c)
      as [->|(r & Happ & [Hr|(_ & Hm & _)])]; [exact Hb| |].
    + now apply (all_buckets_appended _ r b).
    + rewrite Hhint in Hm. discriminate.
Qed.

(** *** Tax queries *)

(** C10. A query whose lowercased text contains "gst", "tax" or "vat"
    anywhere, also inside a longer word, is classified as a tax query, and
    no result of it is an expense whose tax-eligibility flag is false and
    whose tax amount is zero. *)
Theorem tax_query_excludes_untaxed (query : string) :
  Text.contains "gst" (Text.lower query) = true
  \/ Text.contains "tax" (Text.lower query) = true
  \/ Text.contains "vat" (Text.lower query) = true ->
  (forall d, is_gst_query (context_of d query) = true)
  /\ (forall limit mn mx uid w resp e,
        snd (semantic_search query limit mn mx uid w) = Returns resp ->
        expense_by_id (EmbeddingService.db w) (Expense.id e) = Some e ->
        Expense.gst_eligible e = false ->
        (Expense.gst_amount e == 0)%Q ->
        forall r, In r (final_results resp) ->
                  ~ (type r = "expense" /\ id r = Expense.id e)).
Proof.
  intros Hterm.
  assert (Hq : forall d, is_gst_query (context_of d query) = true).
  { intros d. unfold context_of. cbn [is_gst_query existsb].
    destruct Hterm as [ -> | [ -> | -> ] ]; rewrite ?orb_true_r; reflexivity. }
  split; [exact Hq|].
  intros limit mn mx uid w resp e Hret He Hflag Hamount r Hr [Htype Hid].
  apply semantic_search_returns in Hret as (cands & _ & Hfinal & _).
  set (d := EmbeddingService.db w) in *.
  set (P := fun r : result =>
              type r = "expense" ->
              exists e', expense_by_id d (id r) = Some e' /\ has_gst e' = true).
  assert (Hall : Forall P (final_results resp)).
  { rewrite Hfinal. apply rank_all, fill_buckets_all. intros b c Hb.
    destruct (process_candidate_cases d (context_of d query) mn mx uid b c)
      as [->|(r' & Happ & Hcase)]; [exact Hb|].
    apply (all_buckets_appended _ r' b); [exact Happ| |exact Hb].
    intros Ht. destruct Hcase as [Hg|(_ & _ & e' & He' & Hgst)].
    - rewrite Hg in Ht. discriminate.
    - exists e'. split; [exact He'|]. apply Hgst, Hq. }
  rewrite List.Forall_forall in Hall.
  destruct (Hall r Hr Htype) as (e' & He' & Hgst).
  rewrite Hid, He in He'. injection He' as <-.
  unfold has_gst, Qlt_bool in Hgst. rewrite Hflag in Hgst. cbn [orb] in Hgst.
  apply negb_true_iff in Hgst.
  assert (Hle : Qle_bool (Expense.gst_amount e) 0 = true).
  { apply Qle_bool_iff. rewrite Hamount. apply Qle_refl. }
  congruence.
Qed.

(** *** Truncation *)

Lemma firstn_length_bound {A : Type} (n : nat) (l : list A) : (length (firstn n l) <= n)%nat.
Proof. rewrite length_firstn. lia. Qed.

(** C6 (amended). When the encoder answers, [semantic_search] returns the
    deduplicated list sorted by score, whole when the specific item flag is
    set, cut to three times the limit when the flag is unset and keywords
    or phrases were extracted, and cut to the limit otherwise. *)
Theorem truncation_rule query limit mn mx uid w v :
  encode (_normalize_query query) = Some v ->
  let q := context_of (EmbeddingService.db w) query in
  exists resp cands,
    snd (semantic_search query limit mn mx uid w) = Returns resp
    /\ snd (EmbeddingService.search (_normalize_query query) (search_k q limit) w)
       = Returns cands
    /\ let deduplicated_results :=
         sort_by_score
           (deduplicate (fill_buckets (EmbeddingService.db w) q mn mx uid cands)) in
       final_results resp =
         (if has_specific_item_keyword q then deduplicated_results
          else if nonempty (keywords (kw q)) || nonempty (phrases (kw q))
               then firstn (3 * Pos.to_nat limit) deduplicated_results
               else firstn (Pos.to_nat limit) deduplicated_results)
       /\ total_results resp = length (final_results resp)
       /\ (has_specific_item_keyword q = false ->
           (length (final_results resp) <= 3 * Pos.to_nat limit)%nat)
       /\ (has_specific_item_keyword q = false ->
           nonempty (keywords (kw q)) || nonempty (phrases (kw q)) = false ->
           (length (final_results resp) <= Pos.to_nat limit)%nat).
Proof.
  intros Henc q.
  destruct (semantic_search_total query limit mn mx uid w v Henc) as (resp & Hret).
  destruct (semantic_search_returns _ _ _ _ _ _ _ Hret) as (cands & Hc & Hf & Ht).
  exists resp, cands. split; [exact Hret|]. split; [exact Hc|].
  cbv zeta. fold q in Hf.
  assert (Htriple : Pos.to_nat (limit * 3) = (3 * Pos.to_nat limit)%nat) by lia.
  split; [|split; [exact Ht|]]; rewrite Hf; unfold rank; [|split].
  - destruct (has_specific_item_keyword q); [reflexivity|].
    destruct (nonempty (keywords (kw q)) || nonempty (phrases (kw q)));
      rewrite ?Htriple; reflexivity.
  - intros ->.
    destruct (nonempty (keywords (kw q)) || nonempty (phrases (kw q))).
    + rewrite Htriple. apply firstn_length_bound.
    + etransitivity; [apply firstn_length_bound|lia].
  - intros -> ->. apply firstn_length_bound.
Qed.

(** *** Order of the answer *)

Lemma StronglySorted_firstn {A : Type} (R : A -> A -> Prop) (n : nat) (l : list A) :
  StronglySorted R l -> StronglySorted R (firstn n l).
Proof.
  revert n. induction l as [|a l IH]; intros n Hs.
  - rewrite firstn_nil. constructor.
  - destruct n as [|n]; [constructor|].
    inversion Hs as [|? ? Hs' Hall]; subst. cbn [firstn].
    constructor; [now apply IH|].
    apply List.Forall_forall. intros z Hz. apply firstn_subset in Hz.
    rewrite List.Forall_forall in Hall. now apply Hall.
Qed.

Lemma before_or_after {A : Type} (x y : A) (l : list A) :
  In x l -> In y l -> x <> y -> before x y l \/ before y x l.
Proof.
  induction l as [|a l IH]; [intros []|].
  intros [->|Hx] [->|Hy] Hne.
  - now destruct Hne.
  - left. apply in_split in Hy as (l2 & l3 & ->). now exists [], l2, l3.
  - right. apply in_split in Hx as (l2 & l3 & ->). now exists [], l2, l3.
  - destruct (IH Hx Hy Hne) as [(l1 & l2 & l3 & ->)|(l1 & l2 & l3 & ->)];
      [left|right]; now exists (a :: l1), l2, l3.
Qed.

Lemma sorted_before {A : Type} (R : A -> A -> Prop) (x y : A) (l : list A) :
  StronglySorted R l -> before x y l -> R x y.
Proof.
  intros Hs (l1 & l2 & l3 & ->). induction l1 as [|a l1 IH]; cbn in Hs.
  - apply StronglySorted_inv in Hs as [_ Hall].
    rewrite List.Forall_forall in Hall. apply Hall, in_or_app. right. now left.
  - apply StronglySorted_inv in Hs as [Hs _]. now apply IH.
Qed.

(** C3 (amended). The answer is in decreasing order of composite score.  The
    sort is stable over the deduplicated concatenation of the lists: of two
    results the one that stands first there stands first in the answer,
    unless its score is strictly smaller.  So the bucket order only decides
    between equal scores: a result of the date-and-signal list stands before
    a result of the similarity-only list whenever its composite score is not
    smaller, and after it when its score is strictly smaller. *)
Theorem score_order_then_bucket_order query limit mn mx uid w resp cands :
  snd (EmbeddingService.search (_normalize_query query)
         (search_k (context_of (EmbeddingService.db w) query) limit) w)
  = Returns cands ->
  snd (semantic_search query limit mn mx uid w) = Returns resp ->
  let b := fill_buckets (EmbeddingService.db w)
             (context_of (EmbeddingService.db w) query) mn mx uid cands in
  StronglySorted (fun a c => (similarity_score c <= similarity_score a)%Q)
                 (final_results resp)
  /\ (forall x y,
        before x y (deduplicate b) ->
        In y (final_results resp) ->
        (similarity_score y <= similarity_score x)%Q ->
        before x y (final_results resp))
  /\ (forall x y,
        In x (date_keyword_matched_results b) ->
        In y (results b) ->
        In x (final_results resp) ->
        In y (final_results resp) ->
        ((similarity_score y <= similarity_score x)%Q ->
         before x y (final_results resp))
        /\ ((similarity_score x < similarity_score y)%Q ->
            before y x (final_results resp))).
Proof.
  intros Hcands Hret b.
  apply semantic_search_returns in Hret as (cands' & Hc' & Hf & _).
  rewrite Hcands in Hc'. injection Hc' as <-. fold b in Hf.
  destruct (rank_prefix (context_of (EmbeddingService.db w) query) limit b)
    as (n & Hrank).
  rewrite Hf, Hrank. clear Hf Hrank.
  destruct (deduplicate_spec b) as (first & rest & Hd & Hfirst & Hrest & Hfresh & Hnd).
  assert (Hperm := sort_by_score_perm (deduplicate b)).
  assert (Hsorted : StronglySorted
                      (fun a c => (similarity_score c <= similarity_score a)%Q)
                      (firstn n (sort_by_score (deduplicate b))))
    by apply StronglySorted_firstn, sort_by_score_sorted.
  assert (Hstable : forall x y,
             before x y (deduplicate b) ->
             In y (firstn n (sort_by_score (deduplicate b))) ->
             (similarity_score y <= similarity_score x)%Q ->
             before x y (firstn n (sort_by_score (deduplicate b)))).
  { intros x y Hxy Hyf Hle. apply before_firstn; [| |exact Hyf].
    - apply (NoDup_fmap_1 result_key) in Hnd. now rewrite Hperm.
    - apply sort_by_score_stable; [exact Hxy|now apply Qle_bool_iff]. }
  split; [exact Hsorted|]. split; [exact Hstable|].
  intros x y Hx Hy Hxf Hyf.
  assert (Hkey : ~ In (result_key y) (map result_key (date_keyword_matched_results b))).
  { apply (buckets_by_signal_disjoint (EmbeddingService.db w)
             (context_of (EmbeddingService.db w) query)); [|exact Hy].
    apply fill_buckets_by_signal. }
  split.
  - intros Hle. apply Hstable; [|exact Hyf|exact Hle].
    assert (Hxd : In x (deduplicate b))
      by (apply (Permutation_in x Hperm), (firstn_subset x n), Hxf).
    assert (Hyd : In y (deduplicate b))
      by (apply (Permutation_in y Hperm), (firstn_subset y n), Hyf).
    rewrite Hd in *. apply before_app.
    + apply in_app_or in Hxd as [Hx1|Hx2]; [exact Hx1|].
      exfalso. apply (Hfresh x Hx2). now apply in_map.
    + apply in_app_or in Hyd as [Hy1|Hy2]; [|exact Hy2].
      exfalso. apply Hkey. apply in_map. now apply Hfirst.
  - intros Hlt.
    assert (Hne : x <> y).
    { intros ->. exact (Qlt_irrefl _ Hlt). }
    destruct (before_or_after x y _ Hxf Hyf Hne) as [Hxy|Hyx]; [|exact Hyx].
    exfalso. apply (sorted_before _ x y _ Hsorted) in Hxy.
    exact (Qlt_not_le _ _ Hlt Hxy).
Qed.

End Ranking.

(** ** The text projector *)

Section Projector.
Context `{Externals}.
Import EmbeddingService SearchService.

(** C7 (amended). The searchable text of every GST claim holds the marker
    words "gst tax".  The searchable text of an expense holds no marker of
    its own: [generate_text] does not read the tax fields.  For an expense
    that is tax-eligible or has a positive tax amount the marker is in the
    text the ranking engine builds at query time. *)
Theorem tax_marker_texts :
  (forall d claim, Text.contains "gst tax" (generate_gst_text d claim) = true)
  /\ (forall expense flag tax,
        generate_text (with_tax expense flag tax) = generate_text expense)
  /\ (forall d expense,
        has_gst expense = true ->
        Text.contains "gst tax" (expense_search_text d expense) = true).
Proof.
  split; [|split].
  - intros d claim. unfold generate_gst_text. cbv zeta.
    destruct (user_full_name d (GSTClaim.user_id claim));
      [apply contains_append_l|];
      apply contains_append_l; do 7 apply contains_append_r; reflexivity.
  - intros expense flag tax. reflexivity.
  - intros d expense Hgst. unfold expense_search_text. cbv zeta.
    rewrite Hgst. apply contains_append_r. reflexivity.
Qed.

End Projector.

Lemma tax_marker_texts_witness :
  SearchService.has_gst Examples.taxed_expense = true
  /\ Text.contains "gst tax"
       (SearchService.expense_search_text (Examples.store [] []) Examples.taxed_expense)
     = true.
Proof.
  assert (Hgst : SearchService.has_gst Examples.taxed_expense = true) by reflexivity.
  split; [exact Hgst|].
  apply (proj2 (proj2 (@tax_marker_texts Examples.collaborators))
               (Examples.store [] []) Examples.taxed_expense Hgst).
Defined.

(** C7 (as stated) fails: the searchable text of the tax-eligible expense
    "Petrol Fuel Travel ... 500.0 rupees" has no "gst tax" in it. *)
Lemma expense_text_has_tax_marker_fails : ~ expense_text_has_tax_marker.
Proof.
  intros Hclaim.
  specialize (Hclaim Examples.collaborators Examples.taxed_expense eq_refl).
  vm_compute in Hclaim. discriminate.
Qed.

(** ** Expense creation *)

Section Creation.
Context `{Externals}.
Import EmbeddingService ExpenseService.

(** C5. When the encoder raises, [add_expense] raises, and the exception
    leaves [ExpenseService.create_expense] uncaught although the expense is
    already committed; the route turns it into an HTTP 500 answer. *)
Theorem indexing_failure_reaches_caller expense_data user_id w :
  (forall text, encode text = None) ->
  exists w' expense,
    create_expense expense_data user_id (Some add_expense) w
    = (w', Raises "embedding model failure")
    /\ expenses (db w') = expenses (db w) ++ [expense]
    /\ Expense.label expense = label expense_data
    /\ Expense.user_id expense = user_id
    /\ create_expense_route expense_data user_id w
       = (w', Http_exception 500 "Error creating expense: embedding model failure").
Proof.
  intros Hdown.
  unfold create_expense_route, create_expense, add_expense, create_embedding,
    _ensure_schema, bind, get_db, set_db, get_self, set_self, raise, ret.
  cbn [db service]. rewrite Hdown.
  destruct (_schema_ready (service w)); cbn [db service];
    do 2 eexists; repeat (split; [reflexivity|]); reflexivity.
Qed.

End Creation.

Lemma indexing_failure_reaches_caller_witness :
  (forall text, @encode Examples.failing_collaborators text = None)
  /\ snd (@ExpenseService.create_expense_route Examples.failing_collaborators
            Examples.new_expense 1 Examples.empty_world)
     = ExpenseService.Http_exception 500 "Error creating expense: embedding model failure".
Proof.
  assert (Hdown : forall text, @encode Examples.failing_collaborators text = None)
    by reflexivity.
  split; [exact Hdown|].
  destruct (@indexing_failure_reaches_caller Examples.failing_collaborators
              Examples.new_expense 1%Z Examples.empty_world Hdown)
    as (w' & expense & _ & _ & _ & _ & ->).
  reflexivity.
Defined.

(** ** The rebuild of the index *)

Section Rebuild.
Context `{Externals}.
Import EmbeddingService.

Hypothesis encoder_answers : forall text, is_Some (encode text).





Lemma add_vector_step item_type item_id v w :
  _add_vector_to_index item_type item_id v w
  = ({| service := {| index := index (service w) ++ [v];
                      id_map := <[ntotal (service w) := (item_type, item_id)]>
                                  (id_map (service w));
                      _schema_ready := _schema_ready (service w) |};
        db := db w |}, Returns tt).
Proof. reflexivity. Qed.

(** The replay loop appends the rows in order, at the slots that follow
    the ones in use, and leaves the slots in use alone. *)
Lemma replay_appends rows w :
  exists s',
    for_each rows
      (fun emb => _add_vector_to_index (fst (row_key emb)) (snd (row_key emb))
                                       (Embedding.embedding_vector emb)) w
    = ({| service := s'; db := db w |}, Returns tt)
    /\ index s' = index (service w) ++ map Embedding.embedding_vector rows
    /\ _schema_ready s' = _schema_ready (service w)
    /\ (forall i row, rows !! i = Some row ->
          id_map s' !! (ntotal (service w) + i)%nat
          = Some (fst (row_key row), snd (row_key row)))
    /\ (forall j, (j < ntotal (service w))%nat -> id_map s' !! j = id_map (service w) !! j).
Proof.
  revert w. induction rows as [|r rows IH]; intros w.
  - exists (service w). cbn. rewrite app_nil_r. destruct w. repeat split; easy.
  - cbn [for_each]. unfold bind at 1. rewrite add_vector_step.
    match goal with
    | |- context [for_each rows ?f ?w'] =>
        destruct (IH w') as (s' & -> & Hindex & Hready & Hnew & Hold)
    end.
    cbn [db service index id_map _schema_ready] in *.
    assert (Hn : ntotal {| index := index (service w) ++ [Embedding.embedding_vector r];
                           id_map := <[ntotal (service w) := (fst (row_key r), snd (row_key r))]>
                                       (id_map (service w));
                           _schema_ready := _schema_ready (service w) |}
                 = S (ntotal (service w))).
    { unfold ntotal. cbn [index]. rewrite length_app. cbn. lia. }
    rewrite Hn in *.
    exists s'. split; [reflexivity|]. split; [|split; [exact Hready|split]].
    + rewrite Hindex, <- app_assoc. reflexivity.
    + intros i row Hrow. destruct i as [|i]; cbn in Hrow.
      * injection Hrow as <-. rewrite Nat.add_0_r, Hold by lia.
        apply lookup_insert_eq.
      * replace (ntotal (service w) + S i)%nat with (S (ntotal (service w)) + i)%nat by lia.
        now apply Hnew.
    + intros j Hj. rewrite Hold by lia. apply lookup_insert_ne. lia.
Qed.

End Rebuild.


(** ** The engine on the concrete stores *)

Section Runs.
Import SearchService Examples.
#[local] Existing Instance collaborators.

Ltac run := vm_compute; reflexivity.

Lemma monthless_query_returns_no_expense_witness :
  _extract_month_from_query "cake expense" = None
  /\ Forall (fun r => type r = "gst_claim")
            (final_results (answer "cake expense" 10 (started cake_store))).
Proof.
  assert (Hmonth : _extract_month_from_query "cake expense" = None) by run.
  split; [exact Hmonth|].
  apply (proj2 (monthless_query_returns_no_expense "cake expense" Hmonth)
               10%positive None None None (started cake_store)).
  run.
Defined.

Lemma tax_query_excludes_untaxed_witness :
  Text.contains "tax" (Text.lower "taxi in nov") = true
  /\ is_gst_query (context_of taxi_store "taxi in nov") = true.
Proof.
  assert (Htax : Text.contains "tax" (Text.lower "taxi in nov") = true) by run.
  split; [exact Htax|].
  apply (proj1 (tax_query_excludes_untaxed "taxi in nov" (or_intror (or_introl Htax)))).
Defined.

Lemma truncation_rule_witness :
  encode (_normalize_query "expense in nov") = Some [0%Q]
  /\ exists resp,
       snd (semantic_search "expense in nov" 1 None None None (started limit_store))
       = Returns resp
       /\ (length (final_results resp) <= 3 * Pos.to_nat 1)%nat.
Proof.
  assert (Henc : encode (_normalize_query "expense in nov") = Some [0%Q]) by reflexivity.
  split; [exact Henc|].
  destruct (truncation_rule "expense in nov" 1 None None None (started limit_store)
                            [0%Q] Henc)
    as (resp & cands & Hret & _ & _ & _ & Hbound & _).
  exists resp. split; [exact Hret|]. apply Hbound. run.
Defined.

(** C6 (as stated) fails: with the limit 1 and no specific item keyword, the
    query "expense in nov" returns both matching records. *)
Lemma truncated_to_limit_fails : ~ truncated_to_limit.
Proof.
  intros Hclaim.
  assert (Hlen : (length (final_results (answer "expense in nov" 1 (started limit_store)))
                  <= Pos.to_nat 1)%nat).
  { apply (Hclaim collaborators (started limit_store) "expense in nov" 1%positive);
      run. }
  vm_compute in Hlen. lia.
Qed.

(** C3 (as stated) fails: for "Gaurav nov" the record of Priya, admitted on
    similarity alone, stands before the record of Gaurav, which matches the
    month and the person name. *)
Lemma bucket_precedence_fails : ~ bucket_precedence.
Proof.
  intros Hclaim.
  pose (w := started person_store).
  pose (x := nth 0 (date_keyword_matched_results (filled "Gaurav nov" 10 w)) no_result).
  pose (y := nth 0 (results (filled "Gaurav nov" 10 w)) no_result).
  refine (Hclaim collaborators w "Gaurav nov" 10%positive
                 (candidates "Gaurav nov" 10 w) (answer "Gaurav nov" 10 w)
                 _ _ x y _ _ _).
  - run.
  - run.
  - vm_compute. left. reflexivity.
  - vm_compute. left. reflexivity.
  - vm_compute. exists [], [], []. reflexivity.
Qed.

Lemma score_order_then_bucket_order_witness :
  let w := started ranked_store in
  let x := nth 0 (date_keyword_matched_results (filled "Gaurav nov" 10 w)) no_result in
  let y := nth 0 (results (filled "Gaurav nov" 10 w)) no_result in
  (similarity_score y <= similarity_score x)%Q
  /\ before x y (final_results (answer "Gaurav nov" 10 w)).
Proof.
  intros w x y.
  assert (Hle : (similarity_score y <= similarity_score x)%Q)
    by (vm_compute; discriminate).
  split; [exact Hle|].
  refine (proj1 (proj2 (proj2
            (score_order_then_bucket_order "Gaurav nov" 10%positive None None None w
               (answer "Gaurav nov" 10 w) (candidates "Gaurav nov" 10 w) _ _))
            x y _ _ _ _) Hle).
  - run.
  - run.
  - vm_compute. left. reflexivity.
  - vm_compute. left. reflexivity.
  - vm_compute. left. reflexivity.
  - vm_compute. right. left. reflexivity.
Defined.

(** C1. A query with a month hint keeps an expense of another month: for
    "petrol in december" the November record is returned, and ranked first,
    although its date is outside December. *)
Theorem wrong_month_expense_is_returned :
  _extract_month_from_query "petrol in december" = Some 12%Z
  /\ option_map month (Expense.date (expense 1 1 (on 2025 11 15) "Petrol" "Fuel" "Travel" 500 false 0))
     = Some 11%Z
  /\ expense_by_id petrol_store 1
     = Some (expense 1 1 (on 2025 11 15) "Petrol" "Fuel" "Travel" 500 false 0)
  /\ snd (semantic_search "petrol in december" 10 None None None (started petrol_store))
     = Returns (answer "petrol in december" 10 (started petrol_store))
  /\ map result_key (final_results (answer "petrol in december" 10 (started petrol_store)))
     = [("expense", 1%Z); ("expense", 2%Z)].
Proof. repeat split; run. Qed.

(** C2. With the records "Chocolate Cake" and "Team Lunch" in the store, the
    query "cake expense" returns no result at all: it carries no month
    hint, so the Chocolate Cake record is dropped with every other expense. *)
Theorem cake_query_returns_nothing :
  map Expense.label (expenses cake_store) = ["Chocolate Cake"; "Team Lunch"]
  /\ specific_item_keywords (context_of cake_store "cake expense") = ["cake"]
  /\ snd (semantic_search "cake expense" 10 None None None (started cake_store))
     = Returns {| query_text := "cake expense"; total_results := 0; final_results := [] |}.
Proof. repeat split; run. Qed.

End Runs.

(** * Further properties of the services *)

(** ** Where a result of the search comes from *)

Section Provenance.
Context `{Externals}.
Import SearchService.

Lemma pymax_ge_l (a b : Q) : (a <= pymax a b)%Q.
Proof.
  unfold pymax, Qlt_bool. destruct (Qle_bool b a) eqn:Hle; cbn.
  - apply Qle_refl.
  - destruct (Qlt_le_dec a b) as [Hlt|Hge]; [now apply Qlt_le_weak|].
    apply Qle_bool_iff in Hge. congruence.
Qed.

Lemma boost_step (c : bool) (a b : Q) :
  (1 <= a)%Q -> (1 <= (if c then pymax a b else a))%Q.
Proof.
  intros Ha. destruct c; [|exact Ha].
  eapply Qle_trans; [exact Ha|apply pymax_ge_l].
Qed.

Lemma scaled_floor (floor s boost : Q) :
  (0 <= floor)%Q -> (floor <= s)%Q -> (1 <= boost)%Q -> (floor <= s * boost)%Q.
Proof.
  intros Hf Hs Hb.
  apply Qle_trans with (s * 1)%Q; [now rewrite Qmult_1_r|].
  rewrite (Qmult_comm s 1), (Qmult_comm s boost).
  apply Qmult_le_compat_r; [exact Hb|].
  eapply Qle_trans; [exact Hf|exact Hs].
Qed.

Lemma floor_times_boost (s boost : Q) :
  (3 # 10 <= s)%Q -> (1 <= boost)%Q -> (3 # 10 <= s * boost)%Q.
Proof. apply scaled_floor. discriminate. Qed.

Lemma Qlt_bool_false (x y : Q) : Qlt_bool x y = false -> (y <= x)%Q.
Proof. unfold Qlt_bool. intros Hf. apply negb_false_iff in Hf. now apply Qle_bool_iff. Qed.

Lemma item_lower_eq (s : string) :
  (if truthy_str s then Text.lower s else "") = Text.lower s.
Proof. destruct s; reflexivity. Qed.

Ltac by_return b :=
  match goal with
  | |- context [if ?c then b else _] =>
      destruct c eqn:?; cbv beta iota; [left; reflexivity|]
  end.

Lemma process_expense_result_provenance d q e s b :
  process_expense_result d q e s b = b \/
  exists r,
    appended r b (process_expense_result d q e s b)
    /\ type r = "expense" /\ id r = Expense.id e
    /\ label r = Expense.label e /\ item r = Expense.item e
    /\ amount r = Expense.amount e
    /\ Expense.date e <> None
    /\ (has_specific_item_keyword q = true ->
        existsb (fun k => Text.contains k (Text.lower (Expense.label e))
                          || Text.contains k (Text.lower (Expense.item e)))
                (specific_item_keywords q) = true)
    /\ (has_specific_item_keyword q = false -> (3 # 10 <= similarity_score r)%Q).
Proof.
  unfold process_expense_result. cbv zeta. rewrite item_lower_eq.
  by_return b. by_return b. by_return b.
  destruct (Expense.date e) as [date|] eqn:Hdate; [|left; reflexivity].
  match goal with
  | |- context [match ?a with Some _ => _ | None => b end] =>
      destruct a as [boost|] eqn:Hadm
  end; [|left; reflexivity].
  cbv beta iota.
  assert (Hfound : has_specific_item_keyword q = true ->
            existsb (fun k => Text.contains k (Text.lower (Expense.label e))
                              || Text.contains k (Text.lower (Expense.item e)))
                    (specific_item_keywords q) = true).
  { intros Hq. rewrite Hq in *. cbn [andb] in *.
    match goal with Hx : negb _ = false |- _ => now apply negb_false_iff in Hx end. }
  assert (Hfloor : has_specific_item_keyword q = false -> (3 # 10 <= s * boost)%Q).
  { intros Hq. rewrite Hq in Hadm. cbn [andb] in Hadm. cbv beta iota in Hadm.
    match type of Hadm with
    | (if ?c then _ else _) = _ => destruct c
    end.
    - destruct (Qlt_bool s (3 # 10)) eqn:Hs; [discriminate|].
      injection Hadm as <-. rewrite Qmult_1_r. now apply Qlt_bool_false.
    - destruct (Qlt_bool s (4 # 10)) eqn:Hs; [discriminate|].
      injection Hadm as <-. apply floor_times_boost.
      + apply Qlt_bool_false in Hs. eapply Qle_trans; [|exact Hs]. discriminate.
      + repeat apply boost_step. apply Qle_refl. }
  clear Hadm.
  cbn [andb].
  match goal with
  | |- context [if ?c then append_date_keyword_matched ?r b else _] =>
      destruct c eqn:Hsoft; cbv beta iota;
      [right; exists r; split; [unfold appended; tauto|];
       repeat (split; [reflexivity || assumption || discriminate|]); assumption|]
  end.
  match goal with
  | |- context [if ?c then append_results ?r b else b] =>
      destruct c; [|left; reflexivity];
      right; exists r; split; [unfold appended; tauto|];
      repeat (split; [reflexivity || assumption || discriminate|]); assumption
  end.
Qed.

Lemma process_gst_result_provenance d q c s b :
  process_gst_result d q c s b = b \/
  exists r,
    appended r b (process_gst_result d q c s b)
    /\ type r = "gst_claim" /\ id r = GSTClaim.id c
    /\ amount r = GSTClaim.amount c
    /\ (3 # 10 <= similarity_score r)%Q
    /\ (forall created_at,
          truthy_int (month_hint q) = true ->
          GSTClaim.created_at c = Some created_at ->
          (month created_at =? default 0%Z (month_hint q))%Z
          && (year created_at =? year_hint q)%Z = false ->
          (7 # 10 <= similarity_score r)%Q).
Proof.
  unfold process_gst_result. cbv zeta.
  match goal with
  | |- context [let '(_, _) := ?x in _] => destruct x as [overall boost] eqn:Hpair
  end.
  assert (Hboost : (1 <= boost)%Q).
  { repeat match type of Hpair with
           | (if ?c then _ else _) = _ => destruct c
           end;
      injection Hpair as <- <-;
      repeat match goal with |- context [if ?c then _ else _] => destruct c end;
      unfold Qle; cbn; lia. }
  clear Hpair.
  destruct overall; cbn [negb]; cbv beta iota; [|left; reflexivity].
  destruct (Qlt_bool s (3 # 10)) eqn:Hs; cbv beta iota; [left; reflexivity|].
  apply Qlt_bool_false in Hs.
  match goal with
  | |- context [match ?a with Some _ => _ | None => b end] =>
      destruct a as [[date_match boost']|] eqn:Hdated
  end; [|left; reflexivity].
  assert (Hboost' : (1 <= boost')%Q).
  { repeat match type of Hdated with
           | match ?c with _ => _ end = _ => destruct c
           end;
      try discriminate; injection Hdated as <- <-; try assumption.
    eapply Qle_trans; [exact Hboost|apply pymax_ge_l]. }
  assert (Hwrong : forall created_at,
             truthy_int (month_hint q) = true ->
             GSTClaim.created_at c = Some created_at ->
             (month created_at =? default 0%Z (month_hint q))%Z
             && (year created_at =? year_hint q)%Z = false ->
             (7 # 10 <= s * boost')%Q).
  { intros created_at Hhint Hcreated Hother.
    rewrite Hhint, Hcreated, Hother in Hdated.
    destruct (Qlt_bool s (7 # 10)) eqn:Hs7; [discriminate|].
    apply Qlt_bool_false in Hs7. apply scaled_floor; [discriminate|exact Hs7|exact Hboost']. }
  clear Hdated. cbv beta iota.
  destruct date_match; cbn [andb]; cbv beta iota;
    match goal with
    | |- context [?f ?r b = b] =>
        right; exists r; split; [unfold appended; tauto|];
        repeat (split; [reflexivity|]); split;
        [now apply floor_times_boost|exact Hwrong]
    end.
Qed.

Lemma filter_passed_owner (uid : option Z) (owner : Z) :
  truthy_int uid && negb (bool_decide (Some owner = uid)) = false -> owner_ok uid owner.
Proof.
  intros Hf Ht. rewrite Ht in Hf. cbn [andb] in Hf.
  apply negb_false_iff, bool_decide_eq_true in Hf. now symmetry.
Qed.

Lemma filter_passed_amount (mn mx : option Q) (a : Q) :
  truthy_float mn && Qlt_bool a (default 0%Q mn) = false ->
  truthy_float mx && Qlt_bool (default 0%Q mx) a = false ->
  amount_ok mn mx a.
Proof.
  intros Hmin Hmax. split; intros Ht; rewrite Ht in *; cbn [andb] in *;
    now apply Qlt_bool_false.
Qed.

(** One turn of the loop leaves the lists alone or appends one result of
    a stored record that passed every filter. *)
Lemma process_candidate_provenance d q mn mx uid b c :
  process_candidate d q mn mx uid b c = b \/
  exists r, appended r b (process_candidate d q mn mx uid b c)
            /\ provenance d q mn mx uid r.
Proof.
  destruct c as [[item_type item_id] s]. unfold process_candidate.
  destruct (String.eqb item_type "expense").
  - destruct (find _ (expenses d)) as [e|] eqn:Hfind; [|left; reflexivity].
    destruct (truthy_int uid && _) eqn:Howner; [left; reflexivity|].
    destruct (truthy_float mn && _) eqn:Hmin; [left; reflexivity|].
    destruct (truthy_float mx && _) eqn:Hmax; [left; reflexivity|].
    destruct (process_expense_result_provenance d q e s b)
      as [->|(r & Happ & Ht & Hi & Hl & Hit & Ha & Hd & Hk & Hf)]; [left; reflexivity|].
    right. exists r. split; [exact Happ|]. left. split; [exact Ht|].
    exists e. repeat split; try assumption.
    + pose proof (find_some _ _ Hfind) as [_ Hid].
      apply bool_decide_eq_true in Hid. subst item_id.
      unfold expense_by_id. rewrite Hi. exact Hfind.
    + now apply filter_passed_owner.
    + now apply (filter_passed_amount mn mx).
    + now apply (filter_passed_amount mn mx).
  - destruct (String.eqb item_type "gst_claim"); [|left; reflexivity].
    destruct (find _ (gst_claims d)) as [g|] eqn:Hfind; [|left; reflexivity].
    destruct (truthy_int uid && _) eqn:Howner; [left; reflexivity|].
    destruct (truthy_float mn && _) eqn:Hmin; [left; reflexivity|].
    destruct (truthy_float mx && _) eqn:Hmax; [left; reflexivity|].
    destruct (process_gst_result_provenance d q g s b)
      as [->|(r & Happ & Ht & Hi & Ha & Hf & Hw)]; [left; reflexivity|].
    right. exists r. split; [exact Happ|]. right. split; [exact Ht|].
    exists g. repeat split; try assumption.
    + pose proof (find_some _ _ Hfind) as [_ Hid].
      apply bool_decide_eq_true in Hid. subst item_id.
      unfold claim_by_id. rewrite Hi. exact Hfind.
    + now apply filter_passed_owner.
    + now apply (filter_passed_amount mn mx).
    + now apply (filter_passed_amount mn mx).
Qed.

(** Every result of an answer comes from a stored record that passed the
    filters. *)
Lemma semantic_search_provenance query limit mn mx uid w resp :
  snd (semantic_search query limit mn mx uid w) = Returns resp ->
  Forall (provenance (EmbeddingService.db w)
            (context_of (EmbeddingService.db w) query) mn mx uid)
         (final_results resp).
Proof.
  intros Hret.
  apply semantic_search_returns in Hret as (cands & _ & -> & _).
  apply rank_all, fill_buckets_all. intros b c Hb.
  destruct (process_candidate_provenance (EmbeddingService.db w)
              (context_of (EmbeddingService.db w) query) mn mx uid b c)
    as [->|(r & Happ & Hr)]; [exact Hb|].
  now apply (all_buckets_appended _ r b).
Qed.

End Provenance.

(** ** The answers of [semantic_search] *)

Section Answers.
Context `{Externals}.
Import SearchService.

Lemma NoDup_prefix {A : Type} (n : nat) (l : list A) : NoDup l -> NoDup (firstn n l).
Proof.
  intros Hl. rewrite <- (firstn_skipn n l) in Hl.
  now apply NoDup_app in Hl as [Hl _].
Qed.

(** X1: no two results of an answer denote the same record: the pairs of
    type and id of the returned results are pairwise distinct. *)
Theorem answer_keys_are_distinct query limit mn mx uid w resp :
  snd (semantic_search query limit mn mx uid w) = Returns resp ->
  NoDup (map result_key (final_results resp)).
Proof.
  intros Hret.
  apply semantic_search_returns in Hret as (cands & _ & -> & _).
  destruct (rank_prefix (context_of (EmbeddingService.db w) query) limit
              (fill_buckets (EmbeddingService.db w)
                 (context_of (EmbeddingService.db w) query) mn mx uid cands))
    as (n & ->).
  rewrite <- firstn_map. apply NoDup_prefix.
  destruct (deduplicate_spec
              (fill_buckets (EmbeddingService.db w)
                 (context_of (EmbeddingService.db w) query) mn mx uid cands))
    as (first & rest & _ & _ & _ & _ & Hnodup).
  now rewrite (Permutation_map result_key (sort_by_score_perm _)).
Qed.

(** X2: every result of an answer denotes a record that is in the tables
    at the time of the search: an expense result carries the label, the item
    and the amount of a stored expense of its id, a claim result the amount
    of a stored claim of its id.  A slot of the index whose record is gone
    gives no result. *)
Theorem results_denote_stored_records query limit mn mx uid w resp r :
  snd (semantic_search query limit mn mx uid w) = Returns resp ->
  In r (final_results resp) ->
  (type r = "expense"
   /\ exists e, In e (expenses (EmbeddingService.db w))
                /\ Expense.id e = id r
                /\ label r = Expense.label e /\ item r = Expense.item e
                /\ amount r = Expense.amount e)
  \/ (type r = "gst_claim"
      /\ exists c, In c (gst_claims (EmbeddingService.db w))
                   /\ GSTClaim.id c = id r /\ amount r = GSTClaim.amount c).
Proof.
  intros Hret Hr.
  pose proof (semantic_search_provenance _ _ _ _ _ _ _ Hret) as Hall.
  rewrite List.Forall_forall in Hall. specialize (Hall r Hr).
  destruct Hall as [(Ht & e & Hfind & Hl & Hi & Ha & _)|(Ht & c & Hfind & Ha & _)].
  - left. split; [exact Ht|]. exists e.
    apply find_some in Hfind as [Hin Hid]. apply bool_decide_eq_true in Hid.
    repeat split; try assumption. congruence.
  - right. split; [exact Ht|]. exists c.
    apply find_some in Hfind as [Hin Hid]. apply bool_decide_eq_true in Hid.
    repeat split; try assumption. congruence.
Qed.


(** X3: the search route answers with records of the calling user only,
    whenever the caller's id is not zero. *)
Theorem route_answers_with_own_records
        (request : SearchRoute.SearchRequest) (current_user_id : Z) w resp r :
  current_user_id <> 0%Z ->
  snd (SearchRoute.semantic_search request current_user_id w) = Returns resp ->
  In r (final_results resp) ->
  (type r = "expense"
   /\ exists e, expense_by_id (EmbeddingService.db w) (id r) = Some e
                /\ Expense.user_id e = current_user_id)
  \/ (type r = "gst_claim"
      /\ exists c, claim_by_id (EmbeddingService.db w) (id r) = Some c
                   /\ GSTClaim.user_id c = current_user_id).
Proof.
  intros Huser Hret Hr. unfold SearchRoute.semantic_search in Hret.
  pose proof (semantic_search_provenance _ _ _ _ _ _ _ Hret) as Hall.
  rewrite List.Forall_forall in Hall. specialize (Hall r Hr).
  assert (Htruthy : truthy_int (Some current_user_id) = true).
  { cbn. now apply negb_true_iff, Z.eqb_neq. }
  destruct Hall as [(Ht & e & Hfind & _ & _ & _ & Ho & _)|(Ht & c & Hfind & _ & Ho & _)];
    specialize (Ho Htruthy); injection Ho as Ho.
  - left. split; [exact Ht|]. now exists e.
  - right. split; [exact Ht|]. now exists c.
Qed.


Lemma process_candidate_falsy_filters d q mn mx uid b c :
  process_candidate d q mn mx uid b c
  = process_candidate d q (if truthy_float mn then mn else None)
      (if truthy_float mx then mx else None)
      (if truthy_int uid then uid else None) b c.
Proof.
  destruct c as [[item_type item_id] s]. unfold process_candidate.
  destruct (truthy_float mn) eqn:Hmn, (truthy_float mx) eqn:Hmx,
    (truthy_int uid) eqn:Huid;
    rewrite ?Hmn, ?Hmx, ?Huid; cbn [truthy_float truthy_int andb]; reflexivity.
Qed.

(** X5: a filter value that counts as false, a zero user id or a zero
    amount bound, has the effect of no filter at all. *)
Theorem falsy_filters_are_ignored query limit mn mx uid w :
  semantic_search query limit mn mx uid w
  = semantic_search query limit
      (if truthy_float mn then mn else None)
      (if truthy_float mx then mx else None)
      (if truthy_int uid then uid else None) w.
Proof.
  unfold semantic_search, EmbeddingService.bind, EmbeddingService.get_db.
  destruct (EmbeddingService.search _ _ w) as [w' [cands|e]]; [|reflexivity].
  assert (Hfill : forall d q,
             fill_buckets d q mn mx uid cands
             = fill_buckets d q (if truthy_float mn then mn else None)
                 (if truthy_float mx then mx else None)
                 (if truthy_int uid then uid else None) cands).
  { intros d q. unfold fill_buckets. generalize empty_buckets.
    induction cands as [|c cands IH]; intros b; [reflexivity|].
    cbn [fold_left]. rewrite <- process_candidate_falsy_filters. apply IH. }
  now rewrite <- Hfill.
Qed.

(** X6: when the query names a specific item, every expense of the answer
    has one of the item keywords of the query in its label or its item, in
    lower case. *)
Theorem strict_item_filter query limit mn mx uid w resp r :
  has_specific_item_keyword (context_of (EmbeddingService.db w) query) = true ->
  snd (semantic_search query limit mn mx uid w) = Returns resp ->
  In r (final_results resp) ->
  type r = "expense" ->
  exists k,
    In k (specific_item_keywords (context_of (EmbeddingService.db w) query))
    /\ (Text.contains k (Text.lower (label r)) = true
        \/ Text.contains k (Text.lower (item r)) = true).
Proof.
  intros Hflag Hret Hr Htype.
  pose proof (semantic_search_provenance _ _ _ _ _ _ _ Hret) as Hall.
  rewrite List.Forall_forall in Hall. specialize (Hall r Hr).
  destruct Hall as [(_ & e & _ & Hl & Hi & _ & _ & _ & _ & Hk & _)|(Ht & _)];
    [|rewrite Htype in Ht; discriminate].
  apply Hk in Hflag. apply existsb_exists in Hflag as (k & Hin & Hk').
  exists k. split; [exact Hin|]. rewrite Hl, Hi.
  now apply orb_true_iff in Hk'.
Qed.

(** X7: the score of a GST claim of the answer is never below 3/10, and
    neither is the score of any result when the query names no specific
    item. *)
Theorem scores_not_below_floor query limit mn mx uid w resp r :
  snd (semantic_search query limit mn mx uid w) = Returns resp ->
  In r (final_results resp) ->
  has_specific_item_keyword (context_of (EmbeddingService.db w) query) = false
  \/ type r = "gst_claim" ->
  (3 # 10 <= similarity_score r)%Q.
Proof.
  intros Hret Hr Hcase.
  pose proof (semantic_search_provenance _ _ _ _ _ _ _ Hret) as Hall.
  rewrite List.Forall_forall in Hall. specialize (Hall r Hr).
  destruct Hall as [(Ht & e & _ & _ & _ & _ & _ & _ & _ & _ & Hf)|(_ & c & _ & _ & _ & _ & Hf & _)];
    [|exact Hf].
  destruct Hcase as [Hflag|Hgst]; [now apply Hf|].
  rewrite Ht in Hgst. discriminate.
Qed.

End Answers.

(** ** The search of the index *)

Section Index.
Context `{Externals}.
Import EmbeddingService.

Lemma insert_slot_perm (s : nat * Q) (l : list (nat * Q)) :
  Permutation (insert_slot s l) (s :: l).
Proof.
  induction l as [|t r IH]; cbn [insert_slot]; [reflexivity|].
  destruct (Qle_bool (snd t) (snd s)); [|reflexivity].
  rewrite IH. apply perm_swap.
Qed.

Lemma sorted_slots_perm (l acc : list (nat * Q)) :
  Permutation (fold_left (fun acc s => insert_slot s acc) l acc) (l ++ acc).
Proof.
  revert acc. induction l as [|s l IH]; intros acc; cbn [fold_left]; [reflexivity|].
  rewrite IH, insert_slot_perm. cbn. symmetry. apply Permutation_middle.
Qed.

Lemma insert_slot_sorted (s : nat * Q) (l : list (nat * Q)) :
  StronglySorted nearer l -> StronglySorted nearer (insert_slot s l).
Proof.
  induction l as [|t r IH]; intros Hl; cbn [insert_slot].
  - constructor; constructor.
  - apply StronglySorted_inv in Hl as [Hr Ht].
    destruct (Qle_bool (snd t) (snd s)) eqn:Hle.
    + apply Qle_bool_iff in Hle. constructor; [now apply IH|].
      rewrite (insert_slot_perm s r). now constructor.
    + assert (Hlt : (snd s <= snd t)%Q).
      { destruct (Qlt_le_dec (snd s) (snd t)) as [Hlt|Hge]; [now apply Qlt_le_weak|].
        apply Qle_bool_iff in Hge. congruence. }
      constructor; [now constructor|]. constructor; [exact Hlt|].
      eapply List.Forall_impl; [|exact Ht].
      intros u Hu. unfold nearer in *. eapply Qle_trans; eassumption.
Qed.

Lemma sorted_slots_sorted (l acc : list (nat * Q)) :
  StronglySorted nearer acc ->
  StronglySorted nearer (fold_left (fun acc s => insert_slot s acc) l acc).
Proof.
  revert acc. induction l as [|s l IH]; intros acc Hacc; cbn [fold_left]; [exact Hacc|].
  now apply IH, insert_slot_sorted.
Qed.

Lemma Qsquare_nonneg (a : Q) : (0 <= a * a)%Q.
Proof.
  unfold Qle. destruct a as [n d]. cbn. rewrite Z.mul_1_r. apply Z.square_nonneg.
Qed.

Lemma l2_distance_nonneg (x y : list Q) : (0 <= l2_distance x y)%Q.
Proof.
  unfold l2_distance. induction (combine x y) as [|p l IH]; cbn; [apply Qle_refl|].
  replace 0%Q with (0 + 0)%Q by reflexivity.
  apply Qplus_le_compat; [|exact IH].
  apply Qsquare_nonneg.
Qed.

Lemma faiss_search_length (vectors : list (list Q)) (x : list Q) (k : nat) :
  length (faiss_search vectors x k) = Nat.min k (length vectors).
Proof.
  unfold faiss_search. rewrite length_firstn.
  rewrite (Permutation_length (sorted_slots_perm _ [])), app_nil_r.
  now rewrite length_combine, length_seq, length_map, Nat.min_id.
Qed.

Lemma faiss_search_hits (vectors : list (list Q)) (x : list Q) (k : nat) (hit : nat * Q) :
  In hit (faiss_search vectors x k) ->
  (fst hit < length vectors)%nat /\ (0 <= snd hit)%Q.
Proof.
  unfold faiss_search. intros Hin. apply firstn_subset in Hin.
  apply (Permutation_in _ (sorted_slots_perm _ [])) in Hin.
  rewrite app_nil_r in Hin. destruct hit as [j d]. split.
  - apply in_combine_l, in_seq in Hin. cbn. lia.
  - apply in_combine_r, in_map_iff in Hin as (v & <- & _). apply l2_distance_nonneg.
Qed.

Lemma faiss_search_sorted (vectors : list (list Q)) (x : list Q) (k : nat) :
  StronglySorted nearer (faiss_search vectors x k).
Proof.
  unfold faiss_search. apply StronglySorted_firstn, sorted_slots_sorted. constructor.
Qed.

Lemma slot_in_combine {A B : Type} (f : A -> B) (d : A) (vectors : list A) (s j : nat) :
  (j < length vectors)%nat ->
  In ((s + j)%nat, f (nth j vectors d))
     (combine (seq s (length vectors)) (map f vectors)).
Proof.
  revert s j. induction vectors as [|v vectors IH]; intros s j Hj; cbn in Hj; [lia|].
  destruct j as [|j]; cbn.
  - left. now rewrite Nat.add_0_r.
  - right. replace (s + S j)%nat with (S s + j)%nat by lia. apply IH. lia.
Qed.

(** A search for at least as many neighbours as the index holds reaches
    every slot. *)
Lemma faiss_search_reaches (vectors : list (list Q)) (x : list Q) (k j : nat) :
  (length vectors <= k)%nat -> (j < length vectors)%nat ->
  In (j, l2_distance x (nth j vectors [])) (faiss_search vectors x k).
Proof.
  intros Hk Hj. unfold faiss_search.
  rewrite firstn_all2.
  2:{ rewrite (Permutation_length (sorted_slots_perm _ [])), app_nil_r.
      rewrite length_combine, length_seq, length_map. lia. }
  apply (Permutation_in _ (Permutation_sym (sorted_slots_perm _ []))).
  rewrite app_nil_r. now apply (slot_in_combine (l2_distance x) [] vectors 0 j).
Qed.

Lemma search_returns query k w v :
  encode query = Some v ->
  search query k w
  = (w, Returns (flat_map
                   (fun r : nat * Q =>
                      match id_map (service w) !! fst r with
                      | Some (item_type, item_id) => [(item_type, item_id, (1 / (1 + snd r))%Q)]
                      | None => []
                      end)
                   (faiss_search (index (service w)) v (Pos.to_nat k)))).
Proof.
  intros Henc. unfold search, create_embedding, bind, get_self, ret.
  now rewrite Henc.
Qed.

Lemma search_returned query k w l :
  snd (search query k w) = Returns l ->
  exists v, encode query = Some v.
Proof.
  unfold search, create_embedding, bind, raise.
  destruct (encode query) as [v|]; [now exists v|discriminate].
Qed.


Lemma similarity_range (d : Q) : (0 <= d)%Q -> (0 < 1 / (1 + d) <= 1)%Q.
Proof.
  intros Hd.
  assert (Hpos : (0 < 1 + d)%Q).
  { apply Qlt_le_trans with 1%Q; [reflexivity|].
    rewrite <- (Qplus_0_r 1) at 1. now apply Qplus_le_compat; [apply Qle_refl|]. }
  split.
  - unfold Qdiv. rewrite Qmult_1_l. now apply Qinv_lt_0_compat.
  - apply Qle_shift_div_r; [exact Hpos|]. rewrite Qmult_1_l.
    rewrite <- (Qplus_0_r 1) at 1. now apply Qplus_le_compat; [apply Qle_refl|].
Qed.

Lemma similarity_antitone (d1 d2 : Q) :
  (0 <= d1)%Q -> (d1 <= d2)%Q -> (1 / (1 + d2) <= 1 / (1 + d1))%Q.
Proof.
  intros H1 H12.
  assert (Hpos1 : (0 < 1 + d1)%Q).
  { apply Qlt_le_trans with 1%Q; [reflexivity|].
    rewrite <- (Qplus_0_r 1) at 1. now apply Qplus_le_compat; [apply Qle_refl|]. }
  assert (Hpos2 : (0 < 1 + d2)%Q).
  { apply Qlt_le_trans with (1 + d1)%Q; [exact Hpos1|].
    now apply Qplus_le_compat; [apply Qle_refl|]. }
  apply Qle_shift_div_r; [exact Hpos2|].
  assert (Heq : (1 / (1 + d1) * (1 + d2) == (1 + d2) / (1 + d1))%Q)
    by (unfold Qdiv; ring).
  rewrite Heq. apply Qle_shift_div_l; [exact Hpos1|].
  rewrite Qmult_1_l. now apply Qplus_le_compat; [apply Qle_refl|].
Qed.

(** X8: on a service every slot of which is mapped, a search that returns
    gives as many candidates as were asked for, or as the index holds when
    it holds fewer. *)
Theorem search_answer_size query k w l :
  slots_mapped (service w) ->
  snd (search query k w) = Returns l ->
  length l = Nat.min (Pos.to_nat k) (ntotal (service w)).
Proof.
  intros Hslots Hret.
  destruct (search_returned _ _ _ _ Hret) as [v Henc].
  rewrite (search_returns _ _ _ _ Henc) in Hret. injection Hret as <-.
  unfold ntotal. rewrite <- (faiss_search_length (index (service w)) v (Pos.to_nat k)).
  pose proof (faiss_search_hits (index (service w)) v (Pos.to_nat k)) as Hhits.
  induction (faiss_search (index (service w)) v (Pos.to_nat k)) as [|hit hits IH];
    [reflexivity|].
  cbn [flat_map]. rewrite length_app, IH by (intros h Hh; apply Hhits; now right).
  destruct (Hhits hit (or_introl eq_refl)) as [Hslot _].
  apply Hslots in Hslot as [[item_type item_id] ->]. reflexivity.
Qed.

(** X9: the candidates of a search come in the order of their similarity,
    the most similar first, and every similarity is above 0 and at most 1. *)
Theorem search_answer_order query k w l :
  snd (search query k w) = Returns l ->
  StronglySorted more_similar l
  /\ Forall (fun c => (0 < snd c <= 1)%Q) l.
Proof.
  intros Hret.
  destruct (search_returned _ _ _ _ Hret) as [v Henc].
  rewrite (search_returns _ _ _ _ Henc) in Hret. injection Hret as <-.
  pose proof (faiss_search_hits (index (service w)) v (Pos.to_nat k)) as Hhits.
  pose proof (faiss_search_sorted (index (service w)) v (Pos.to_nat k)) as Hsorted.
  induction (faiss_search (index (service w)) v (Pos.to_nat k)) as [|hit hits IH].
  - split; constructor.
  - apply StronglySorted_inv in Hsorted as [Hsorted Hhead].
    destruct IH as [IHs IHr]; [intros h Hh; apply Hhits; now right|exact Hsorted|].
    destruct (Hhits hit (or_introl eq_refl)) as [_ Hd].
    cbn [flat_map].
    destruct (id_map (service w) !! fst hit) as [[item_type item_id]|]; [|now split].
    cbn [app]. split.
    + constructor; [exact IHs|].
      apply List.Forall_forall. intros c Hc.
      apply in_flat_map in Hc as (h & Hh & Hc).
      rewrite List.Forall_forall in Hhead. specialize (Hhead h Hh).
      destruct (id_map (service w) !! fst h) as [[t i]|]; [|destruct Hc].
      destruct Hc as [<-|[]]. unfold more_similar. cbn [snd].
      now apply similarity_antitone.
    + constructor; [|exact IHr]. cbn [snd]. now apply similarity_range.
Qed.

Lemma ensure_schema_step w :
  exists s1, _ensure_schema w = ({| service := s1; db := db w |}, Returns tt)
             /\ index s1 = index (service w) /\ id_map s1 = id_map (service w).
Proof.
  unfold _ensure_schema, bind, get_self, set_self, ret.
  destruct (_schema_ready (service w)).
  - exists (service w). destruct w. repeat split.
  - eexists. repeat split.
Qed.

Lemma upsert_step item_type item_id text_value v expense_id w :
  exists d', _upsert_embedding_record item_type item_id text_value v expense_id w
             = ({| service := service w; db := d' |}, Returns tt)
             /\ users d' = users (db w) /\ expenses d' = expenses (db w)
             /\ gst_claims d' = gst_claims (db w).
Proof.
  unfold _upsert_embedding_record, bind, get_db, set_db.
  eexists. split; [reflexivity|]. cbn [users expenses gst_claims]. repeat split.
Qed.

(** What [add_expense] does when the encoder answers. *)
Lemma add_expense_run expense w v :
  encode (generate_text expense) = Some v ->
  exists s' d',
    add_expense expense w = ({| service := s'; db := d' |}, Returns tt)
    /\ index s' = index (service w) ++ [v]
    /\ id_map s' = <[ntotal (service w) := ("expense", Some (Expense.id expense))]>
                     (id_map (service w))
    /\ users d' = users (db w) /\ expenses d' = expenses (db w)
    /\ gst_claims d' = gst_claims (db w).
Proof.
  intros Henc. unfold add_expense. unfold bind at 1.
  destruct (ensure_schema_step w) as (s1 & -> & Hi & Hm).
  unfold bind at 1, create_embedding. rewrite Henc. unfold ret at 1.
  unfold bind at 1. rewrite add_vector_step. cbn [service db].
  match goal with
  | |- context [_upsert_embedding_record ?a ?b ?c ?d ?e ?w'] =>
      destruct (upsert_step a b c d e w') as (d' & -> & Hu & He & Hg)
  end.
  cbn [service db] in *. eexists _, d'. split; [reflexivity|].
  cbn [index id_map]. unfold ntotal. rewrite Hi, Hm. repeat split; assumption.
Qed.

Lemma add_expense_service expense w v :
  encode (generate_text expense) = Some v ->
  snd (add_expense expense w) = Returns tt
  /\ index (service (fst (add_expense expense w))) = index (service w) ++ [v]
  /\ id_map (service (fst (add_expense expense w)))
     = <[ntotal (service w) := ("expense", Some (Expense.id expense))]>
         (id_map (service w)).
Proof.
  intros Henc.
  destruct (add_expense_run expense w v Henc) as (s' & d' & -> & Hi & Hm & _).
  now repeat split.
Qed.

(** X10: an expense that has been added to the index is a candidate of
    every later search that asks for more neighbours than the index held
    before, with the similarity of its vector to the one of the query. *)
Theorem added_expense_is_found expense w query k v x :
  encode (generate_text expense) = Some v ->
  encode query = Some x ->
  (ntotal (service w) < Pos.to_nat k)%nat ->
  exists l,
    snd (search query k (fst (add_expense expense w))) = Returns l
    /\ In ("expense", Some (Expense.id expense), (1 / (1 + l2_distance x v))%Q) l.
Proof.
  intros Hv Hx Hk.
  destruct (add_expense_service expense w v Hv) as (_ & Hindex & Hmap).
  rewrite (search_returns _ _ _ _ Hx). cbn [snd]. eexists. split; [reflexivity|].
  apply in_flat_map. exists (ntotal (service w), l2_distance x v). split.
  - rewrite Hindex.
    pose proof (faiss_search_reaches (index (service w) ++ [v]) x (Pos.to_nat k)
                  (length (index (service w)))) as Hreach.
    rewrite nth_middle in Hreach.
    apply Hreach; unfold ntotal in *; rewrite length_app; cbn; lia.
  - cbn [fst snd]. rewrite Hmap, lookup_insert_eq. now left.
Qed.

End Index.

(** ** The size of an answer *)

Section Pool.
Context `{Externals}.
Import SearchService.

Lemma bucket_size_appended r b b' : appended r b b' -> bucket_size b' = S (bucket_size b).
Proof.
  unfold bucket_size.
  intros [ -> | [ -> | [ -> | -> ] ] ]; cbn; rewrite length_app; cbn; lia.
Qed.

Lemma fill_buckets_size d q mn mx uid cands :
  (bucket_size (fill_buckets d q mn mx uid cands) <= length cands)%nat.
Proof.
  unfold fill_buckets.
  assert (Hgen : forall b,
             (bucket_size (fold_left (process_candidate d q mn mx uid) cands b)
              <= bucket_size b + length cands)%nat).
  { induction cands as [|c cands IH]; intros b; cbn [fold_left length]; [lia|].
    specialize (IH (process_candidate d q mn mx uid b c)).
    destruct (process_candidate_provenance d q mn mx uid b c) as [Heq|(r & Happ & _)].
    - rewrite Heq in *. lia.
    - apply bucket_size_appended in Happ. lia. }
  apply (Hgen empty_buckets).
Qed.

Lemma deduplicate_size b : (length (deduplicate b) <= bucket_size b)%nat.
Proof.
  destruct (deduplicate_spec b) as (_ & _ & _ & _ & _ & _ & Hnodup).
  apply NoDup_fmap_1, NoDup_ListNoDup in Hnodup.
  transitivity (length (date_keyword_matched_results b ++ keyword_matched_results b
                        ++ results b ++ gst_results_from_embedding b)).
  - apply NoDup_incl_length; [exact Hnodup|].
    intros x Hx. apply deduplicate_incl in Hx. rewrite !in_app_iff. tauto.
  - unfold bucket_size. rewrite !length_app. lia.
Qed.

Lemma rank_size q limit b : (length (rank q limit b) <= bucket_size b)%nat.
Proof.
  destruct (rank_prefix q limit b) as (n & ->).
  rewrite length_firstn, (Permutation_length (sort_by_score_perm _)).
  pose proof (deduplicate_size b). lia.
Qed.

Lemma search_size query k w l :
  snd (EmbeddingService.search query k w) = Returns l ->
  (length l <= Nat.min (Pos.to_nat k) (EmbeddingService.ntotal (EmbeddingService.service w)))%nat.
Proof.
  intros Hret.
  destruct (search_returned _ _ _ _ Hret) as [v Henc].
  rewrite (search_returns _ _ _ _ Henc) in Hret. injection Hret as <-.
  unfold EmbeddingService.ntotal.
  rewrite <- (faiss_search_length (EmbeddingService.index (EmbeddingService.service w))
                v (Pos.to_nat k)).
  induction (EmbeddingService.faiss_search _ v (Pos.to_nat k)) as [|hit hits IH];
    [reflexivity|].
  cbn [flat_map length]. rewrite length_app.
  destruct (EmbeddingService.id_map _ !! fst hit) as [[t i]|]; cbn [length]; lia.
Qed.

(** X11: an answer is never longer than the pool it is drawn from: it has
    at most as many results as the search asked the index for, ten times
    the limit for a query that names a specific item and five times
    otherwise, and at most as many as the index holds vectors. *)
Theorem answer_size_bounded_by_pool query limit mn mx uid w resp :
  snd (semantic_search query limit mn mx uid w) = Returns resp ->
  (length (final_results resp)
   <= Nat.min (Pos.to_nat (search_k (context_of (EmbeddingService.db w) query) limit))
              (EmbeddingService.ntotal (EmbeddingService.service w)))%nat.
Proof.
  intros Hret.
  apply semantic_search_returns in Hret as (cands & Hsearch & -> & _).
  apply search_size in Hsearch.
  pose proof (rank_size (context_of (EmbeddingService.db w) query) limit
                (fill_buckets (EmbeddingService.db w)
                   (context_of (EmbeddingService.db w) query) mn mx uid cands)).
  pose proof (fill_buckets_size (EmbeddingService.db w)
                (context_of (EmbeddingService.db w) query) mn mx uid cands).
  lia.
Qed.

End Pool.

(** ** The month and the year of a query *)

Section Parsing.
Context `{Externals}.
Import Regex SearchService.

Lemma findall_from_all (P : string -> Prop) (r : re) :
  (forall p m, match_at r p = Some m -> P (reported p m)) ->
  forall fuel p, Forall P (findall_from fuel r p).
Proof.
  intros Hmatch fuel. induction fuel as [|fuel IH]; intros p; cbn [findall_from];
    [constructor|].
  destruct (match_at r p) as [m|] eqn:Hm.
  - constructor; [now apply Hmatch|].
    destruct (length (rest (fst m)) <? length (rest p))%nat; [apply IH|].
    destruct (rest p); [constructor|apply IH].
  - destruct (rest p); [constructor|apply IH].
Qed.

Lemma search_all (P : string -> Prop) (r : re) (s g : string) :
  (forall p m, match_at r p = Some m -> P (reported p m)) ->
  search r s = Some g -> P g.
Proof.
  intros Hmatch. unfold search, findall.
  pose proof (findall_from_all P r Hmatch (S (String.length s)) (start s)) as Hall.
  destruct (findall_from _ r (start s)) as [|x l]; [discriminate|].
  intros [= <-]. now apply Forall_inv in Hall.
Qed.

Lemma firstn_prefix {A : Type} (l1 l2 : list A) :
  firstn (length (l1 ++ l2) - length l2) (l1 ++ l2) = l1.
Proof.
  rewrite length_app. replace (length l1 + length l2 - length l2)%nat with (length l1) by lia.
  now rewrite firstn_app, Nat.sub_diag, firstn_all, app_nil_r.
Qed.

(** The text of a match that begins at [p] and ends after [l1]. *)
Lemma between_prefix (p : pos) (l1 l2 : list ascii) (c : option ascii) :
  rest p = l1 ++ l2 ->
  between p {| prev := c; rest := l2 |} = Text.of_chars l1.
Proof.
  intros Hp. unfold between. cbn [rest]. rewrite Hp. now rewrite firstn_prefix.
Qed.

Lemma in_range (a b : nat) (c : ascii) :
  (a <=? Text.code c)%nat && (Text.code c <=? b)%nat = true ->
  (a <= Text.code c <= b)%nat.
Proof.
  intros Hc. apply andb_true_iff in Hc as [Ha Hb].
  apply Nat.leb_le in Ha. apply Nat.leb_le in Hb. lia.
Qed.

Lemma month_number_match p m :
  match_at month_number_pattern p = Some m ->
  (1 <= int_of (reported p m) <= 12)%Z.
Proof.
  unfold match_at, month_number_pattern. cbn [seq run].
  destruct (boundary p); [|discriminate].
  unfold lit, range. cbn [run].
  destruct (rest p) as [|c cs] eqn:Hp; [discriminate|].
  assert (Hone : forall c',
             (if (49 <=? Text.code c)%nat && (Text.code c <=? 57)%nat
              then if boundary {| prev := Some c; rest := cs |}
                   then Some ({| prev := Some c; rest := cs |},
                              Some (between p {| prev := Some c; rest := cs |}))
                   else None
              else None) = Some c' ->
             (1 <= int_of (reported p c') <= 12)%Z).
  { intros c'. destruct (_ && _) eqn:Hc; [|discriminate].
    destruct (boundary _); [|discriminate]. intros [= <-].
    unfold reported. cbn [snd].
    rewrite (between_prefix p [c] cs (Some c) Hp).
    apply in_range in Hc. unfold int_of. cbn. lia. }
  destruct (Ascii.eqb "1" c) eqn:H1; [|apply Hone].
  cbn [rest]. destruct cs as [|c2 cs2]; [apply Hone|].
  destruct ((48 <=? Text.code c2)%nat && (Text.code c2 <=? 50)%nat) eqn:Hc2;
    [|apply Hone].
  destruct (boundary {| prev := Some c2; rest := cs2 |}); [|apply Hone].
  intros [= <-]. unfold reported. cbn [snd].
  rewrite (between_prefix p [c; c2] cs2 (Some c2) Hp).
  apply Ascii.eqb_eq in H1. subst c. apply in_range in Hc2.
  unfold int_of. cbn. change (Text.code "1") with 49%nat. lia.
Qed.

Lemma month_name_range (kv : string * Z) :
  In kv month_map -> (1 <= snd kv <= 12)%Z.
Proof.
  unfold month_map. cbn [In]. intros Hin.
  repeat (destruct Hin as [<-|Hin]; [cbn; lia|]). destruct Hin.
Qed.

Lemma month_number_range (query g : string) :
  search month_number_pattern query = Some g -> (1 <= int_of g <= 12)%Z.
Proof.
  apply (search_all (fun g => (1 <= int_of g <= 12)%Z) month_number_pattern query g).
  apply month_number_match.
Qed.

(** X12: the month read from a query is a month: when
    [_extract_month_from_query] gives a number, it lies between 1 and 12,
    whether it was read from a month name or from a number. *)
Theorem extracted_month_is_a_month (query : string) (month : Z) :
  _extract_month_from_query query = Some month -> (1 <= month <= 12)%Z.
Proof.
  unfold _extract_month_from_query. cbv zeta.
  destruct (find _ month_map) as [kv|] eqn:Hfind.
  - intros [= <-]. apply find_some in Hfind as [Hin _].
    now apply month_name_range.
  - destruct (search month_number_pattern query) as [g|] eqn:Hsearch; [|discriminate].
    intros [= <-]. now apply (month_number_range query).
Qed.

(** A month read from a query counts as true. *)
Lemma month_hint_truthy (query : string) (month : Z) :
  _extract_month_from_query query = Some month -> truthy_int (Some month) = true.
Proof.
  unfold _extract_month_from_query. cbv zeta. intros Hmonth.
  assert (Hrange : (1 <= month <= 12)%Z).
  { destruct (find _ month_map) as [kv|] eqn:Hfind.
    - injection Hmonth as <-. apply find_some in Hfind as [Hin _].
      now apply month_name_range.
    - destruct (search month_number_pattern query) as [g|] eqn:Hsearch; [|discriminate].
      injection Hmonth as <-. now apply (month_number_range query). }
  cbn. apply negb_true_iff, Z.eqb_neq. lia.
Qed.

Lemma year_match p m :
  match_at year_pattern p = Some m ->
  (2000 <= int_of (reported p m) <= 2099)%Z.
Proof.
  unfold match_at, year_pattern. cbn [seq run].
  destruct (boundary p); [|discriminate].
  unfold str. cbn [Text.chars list_ascii_of_string map seq run]. unfold lit, digit.
  cbn [run].
  destruct (rest p) as [|c1 cs] eqn:Hp; [discriminate|].
  destruct (Ascii.eqb "2" c1) eqn:H1; [|discriminate].
  cbn [rest]. destruct cs as [|c2 cs]; [discriminate|].
  destruct (Ascii.eqb "0" c2) eqn:H2; [|discriminate].
  cbn [rest length below Nat.ltb Nat.leb].
  destruct cs as [|c3 cs]; [discriminate|].
  destruct (Text.is_digit c3) eqn:H3; [|discriminate].
  cbn [length Nat.ltb Nat.leb]. rewrite Nat.leb_refl. cbn [below Nat.ltb Nat.leb rest].
  destruct cs as [|c4 cs]; [discriminate|].
  destruct (Text.is_digit c4) eqn:H4; [|discriminate].
  cbn [length Nat.ltb Nat.leb]. rewrite Nat.leb_refl. cbn [below Nat.ltb Nat.leb rest].
  destruct (boundary {| prev := Some c4; rest := cs |}); [|discriminate].
  intros [= <-]. unfold reported. cbn [snd].
  rewrite (between_prefix p [c1; c2; c3; c4] cs (Some c4) Hp).
  apply Ascii.eqb_eq in H1. apply Ascii.eqb_eq in H2. subst c1 c2.
  apply in_range in H3. apply in_range in H4.
  unfold int_of. cbn.
  change (Text.code "2") with 50%nat. change (Text.code "0") with 48%nat. lia.
Qed.

(** X13: the year read from a query is a year of this century written in
    the query, or else the current year: [_extract_year_from_query] gives
    the current year or a number from 2000 to 2099. *)
Theorem extracted_year_is_plausible (query : string) :
  _extract_year_from_query query = current_year
  \/ (2000 <= _extract_year_from_query query <= 2099)%Z.
Proof.
  unfold _extract_year_from_query.
  destruct (search year_pattern query) as [g|] eqn:Hsearch; [right|now left].
  apply (search_all (fun g => (2000 <= int_of g <= 2099)%Z) year_pattern query g);
    [apply year_match|exact Hsearch].
Qed.

End Parsing.

(** ** The month of a GST claim *)

Section ClaimMonth.
Context `{Externals}.
Import SearchService.

(** X14: a month in the query filters the GST claims.  A claim created in
    another month or year than the one the query names is in the answer only
    with a score of 7/10 or more. *)
Theorem wrong_month_claim_needs_high_score
        query limit mn mx uid w resp r claim created_at month_ :
  snd (semantic_search query limit mn mx uid w) = Returns resp ->
  In r (final_results resp) ->
  type r = "gst_claim" ->
  claim_by_id (EmbeddingService.db w) (id r) = Some claim ->
  GSTClaim.created_at claim = Some created_at ->
  _extract_month_from_query query = Some month_ ->
  month created_at <> month_ \/ year created_at <> _extract_year_from_query query ->
  (7 # 10 <= similarity_score r)%Q.
Proof.
  intros Hret Hr Htype Hclaim Hcreated Hmonth Hother.
  pose proof (semantic_search_provenance _ _ _ _ _ _ _ Hret) as Hall.
  rewrite List.Forall_forall in Hall. specialize (Hall r Hr).
  destruct Hall as [(Ht & _)|(_ & c & Hfind & _ & _ & _ & _ & Hwrong)];
    [rewrite Htype in Ht; discriminate|].
  rewrite Hclaim in Hfind. injection Hfind as <-.
  apply (Hwrong created_at); [|exact Hcreated|];
    unfold context_of; cbn [month_hint year_hint]; rewrite Hmonth.
  - now apply (month_hint_truthy query).
  - cbn [default from_option id]. apply andb_false_iff.
    destruct Hother as [Hm|Hy]; [left|right]; now apply Z.eqb_neq.
Qed.

End ClaimMonth.

(** ** The spelling correction *)

Section Correction.
Context `{Externals}.
Import SearchService.

Lemma try_cutoffs_known word_lower vocabulary cutoffs corrected :
  (forall w possibilities cutoff x,
     In x (close_matches w possibilities cutoff) -> In x possibilities) ->
  try_cutoffs word_lower vocabulary cutoffs = Some corrected ->
  corrected = "petrol" \/ In corrected vocabulary.
Proof.
  intros Hclose. induction cutoffs as [|cutoff rest IH]; cbn [try_cutoffs]; [discriminate|].
  destruct (close_matches word_lower vocabulary cutoff) as [|c l] eqn:Hc; [exact IH|].
  destruct (Qle_bool (7 # 10) (sequence_ratio word_lower c)); [|exact IH].
  destruct (String.eqb word_lower "pertol" && String.eqb c "petrol").
  - intros [= <-]. now left.
  - intros [= <-]. right. apply (Hclose word_lower vocabulary cutoff). rewrite Hc. now left.
Qed.

(** X15: the spelling correction invents no word.  When the close matches
    of difflib are taken from the possibilities it is given, the correction
    of a word is the word itself, the word in lower case, the entry
    [petrol] of the typo table, or a word of the vocabulary. *)
Theorem corrected_word_is_known (word : string) (vocabulary : option (list string)) :
  (forall w possibilities cutoff x,
     In x (close_matches w possibilities cutoff) -> In x possibilities) ->
  _correct_spelling word vocabulary = word
  \/ _correct_spelling word vocabulary = Text.lower word
  \/ _correct_spelling word vocabulary = "petrol"
  \/ In (_correct_spelling word vocabulary) (default EXPENSE_VOCABULARY vocabulary).
Proof.
  intros Hclose. unfold _correct_spelling. cbv zeta.
  destruct (String.length word <? 2)%nat; [now left|].
  destruct (dict_get (Text.lower word) TYPO_CORRECTIONS) as [fixed|] eqn:Hfix.
  - right. right. left. unfold dict_get in Hfix.
    destruct (find _ TYPO_CORRECTIONS) as [kv|] eqn:Hfind; [|discriminate].
    injection Hfix as <-. apply find_some in Hfind as [Hin _].
    unfold TYPO_CORRECTIONS in Hin. cbn [In] in Hin.
    repeat (destruct Hin as [<-|Hin]; [reflexivity|]). destruct Hin.
  - destruct (Text.mem (Text.lower word) _); [right; now left|].
    destruct (try_cutoffs _ _ _) as [corrected|] eqn:Htry.
    + apply (try_cutoffs_known _ _ _ _ Hclose) in Htry as [ -> | Hin ]; tauto.
    + destruct (4 <? String.length (Text.lower word))%nat; [|right; now left].
      destruct (find _ _) as [vocab_word|] eqn:Hfind; [|right; now left].
      apply find_some in Hfind as [Hin _]. tauto.
Qed.

End Correction.

(** ** The slots of the index *)

Section Slots.
Context `{Externals}.
Import EmbeddingService.

Lemma bind_keeps_service {A B : Type} (c : M A) (k : A -> M B) :
  keeps_service c -> (forall a, keeps_service (k a)) -> keeps_service (bind c k).
Proof.
  intros Hc Hk w. unfold bind. specialize (Hc w).
  destruct (c w) as [w' [a|e]]; cbn [fst] in *; [|exact Hc].
  now rewrite Hk.
Qed.

Lemma bind_keeps_slots {A B : Type} (c : M A) (k : A -> M B) :
  keeps_slots c -> (forall a, keeps_slots (k a)) -> keeps_slots (bind c k).
Proof.
  intros Hc Hk w Hw. unfold bind. specialize (Hc w Hw).
  destruct (c w) as [w' [a|e]]; cbn [fst] in *; [|exact Hc].
  now apply Hk.
Qed.

Lemma keeps_service_slots {A : Type} (c : M A) : keeps_service c -> keeps_slots c.
Proof. intros Hc w Hw. now rewrite Hc. Qed.

Lemma create_embedding_keeps_service text : keeps_service (create_embedding text).
Proof. intros w. unfold create_embedding. now destruct (encode text). Qed.

Lemma upsert_keeps_service item_type item_id text_value v expense_id :
  keeps_service (_upsert_embedding_record item_type item_id text_value v expense_id).
Proof. intros w. reflexivity. Qed.

Lemma get_db_keeps_service : keeps_service get_db.
Proof. intros w. reflexivity. Qed.

Lemma ret_keeps_service {A : Type} (a : A) : keeps_service (ret a).
Proof. intros w. reflexivity. Qed.

Lemma backfill_expenses_keeps_service l existing_map :
  keeps_service (backfill_expenses l existing_map).
Proof.
  revert existing_map. induction l as [|e l IH]; intros existing_map.
  - apply ret_keeps_service.
  - cbn [backfill_expenses]. destruct (decide _); [apply IH|].
    apply bind_keeps_service; [apply create_embedding_keeps_service|]. intros v.
    apply bind_keeps_service; [apply upsert_keeps_service|]. intros _. apply IH.
Qed.

Lemma backfill_claims_keeps_service l existing_map :
  keeps_service (backfill_claims l existing_map).
Proof.
  revert existing_map. induction l as [|c l IH]; intros existing_map.
  - apply ret_keeps_service.
  - cbn [backfill_claims]. destruct (decide _); [apply IH|].
    apply bind_keeps_service; [apply get_db_keeps_service|]. intros d.
    apply bind_keeps_service; [apply create_embedding_keeps_service|]. intros v.
    apply bind_keeps_service; [apply upsert_keeps_service|]. intros _. apply IH.
Qed.

(** The backfill writes embedding rows and nothing else: whatever its
    outcome, the index and [id_map] are the ones it found. *)
Lemma backfill_keeps_service : keeps_service _backfill_missing_embeddings.
Proof.
  unfold _backfill_missing_embeddings.
  apply bind_keeps_service; [apply get_db_keeps_service|]. intros d.
  apply bind_keeps_service; [apply backfill_expenses_keeps_service|]. intros m.
  apply bind_keeps_service; [apply get_db_keeps_service|]. intros d'.
  apply bind_keeps_service; [apply backfill_claims_keeps_service|]. intros m'.
  apply ret_keeps_service.
Qed.

Lemma slots_mapped_init : slots_mapped init.
Proof.
  intros j. unfold init, ntotal. cbn. rewrite lookup_empty. split.
  - intros [x Hx]. discriminate.
  - lia.
Qed.

Lemma ensure_schema_keeps_slots : keeps_slots _ensure_schema.
Proof.
  intros w Hw. destruct (ensure_schema_step w) as (s1 & -> & Hi & Hm).
  cbn [fst service]. intros j. unfold ntotal. rewrite Hi, Hm. apply Hw.
Qed.

Lemma add_vector_keeps_slots item_type item_id v :
  keeps_slots (_add_vector_to_index item_type item_id v).
Proof.
  intros w Hw. rewrite add_vector_step. cbn [fst service]. intros j.
  unfold ntotal. cbn [index id_map]. rewrite length_app. cbn [length].
  rewrite lookup_insert_is_Some. specialize (Hw j). unfold ntotal in *.
  split.
  - intros [<-|[Hne Hj]]; [lia|]. apply Hw in Hj. lia.
  - intros Hj. destruct (decide (length (index (service w)) = j)) as [Heq|Hne];
      [now left|right]. split; [exact Hne|]. apply Hw. lia.
Qed.

Lemma for_each_keeps_slots {A : Type} (l : list A) (body : A -> M unit) :
  (forall x, keeps_slots (body x)) -> keeps_slots (for_each l body).
Proof.
  intros Hbody. induction l as [|x l IH]; cbn [for_each].
  - apply keeps_service_slots, ret_keeps_service.
  - apply bind_keeps_slots; [apply Hbody|]. intros _. exact IH.
Qed.

Lemma add_expense_keeps_slots expense : keeps_slots (add_expense expense).
Proof.
  unfold add_expense.
  apply bind_keeps_slots; [apply ensure_schema_keeps_slots|]. intros _.
  apply bind_keeps_slots;
    [apply keeps_service_slots, create_embedding_keeps_service|]. intros v.
  apply bind_keeps_slots; [apply add_vector_keeps_slots|]. intros _.
  apply keeps_service_slots, upsert_keeps_service.
Qed.

Lemma add_gst_claim_keeps_slots claim : keeps_slots (add_gst_claim claim).
Proof.
  unfold add_gst_claim.
  apply bind_keeps_slots; [apply ensure_schema_keeps_slots|]. intros _.
  apply bind_keeps_slots; [apply keeps_service_slots, get_db_keeps_service|]. intros d.
  apply bind_keeps_slots;
    [apply keeps_service_slots, create_embedding_keeps_service|]. intros v.
  apply bind_keeps_slots; [apply add_vector_keeps_slots|]. intros _.
  apply keeps_service_slots, upsert_keeps_service.
Qed.

Lemma load_from_db_keeps_slots : keeps_slots load_from_db.
Proof.
  unfold load_from_db.
  apply bind_keeps_slots; [apply ensure_schema_keeps_slots|]. intros _.
  apply bind_keeps_slots; [apply keeps_service_slots, backfill_keeps_service|]. intros _.
  apply bind_keeps_slots; [apply keeps_service_slots, get_db_keeps_service|]. intros d.
  apply for_each_keeps_slots. intros emb. apply add_vector_keeps_slots.
Qed.

Lemma create_expense_keeps_slots expense_data user_id :
  keeps_slots (ExpenseService.create_expense expense_data user_id (Some add_expense)).
Proof.
  unfold ExpenseService.create_expense.
  apply bind_keeps_slots; [apply keeps_service_slots, get_db_keeps_service|]. intros d.
  apply bind_keeps_slots; [apply keeps_service_slots; intros w; reflexivity|]. intros _.
  apply bind_keeps_slots; [apply add_expense_keeps_slots|]. intros _.
  apply keeps_service_slots, ret_keeps_service.
Qed.

Lemma create_embedding_for_claim_keeps_slots claim :
  keeps_slots (GSTService._create_embedding_for_claim claim).
Proof.
  intros w Hw. unfold GSTService._create_embedding_for_claim.
  destruct (find _ _) as [c|]; [|exact Hw].
  pose proof (add_gst_claim_keeps_slots c w Hw) as Hc.
  now destruct (add_gst_claim c w) as [w' [[]|e]].
Qed.

(** X16: the index and [id_map] stay aligned.  On a service where
    [id_map] has an entry for every slot of the index and for no other
    number, as on a fresh one, that is still so after each operation that
    writes to the index, whether it returns or raises. *)
Theorem every_slot_stays_mapped w :
  slots_mapped (service w) ->
  (forall expense, slots_mapped (service (fst (add_expense expense w))))
  /\ (forall claim, slots_mapped (service (fst (add_gst_claim claim w))))
  /\ slots_mapped (service (fst (load_from_db w)))
  /\ (forall expense_data user_id,
        slots_mapped
          (service (fst (ExpenseService.create_expense expense_data user_id
                           (Some add_expense) w))))
  /\ (forall claim,
        slots_mapped (service (fst (GSTService._create_embedding_for_claim claim w)))).
Proof.
  intros Hw. split; [|split; [|split; [|split]]].
  - intros expense. now apply add_expense_keeps_slots.
  - intros claim. now apply add_gst_claim_keeps_slots.
  - now apply load_from_db_keeps_slots.
  - intros expense_data user_id. now apply create_expense_keeps_slots.
  - intros claim. now apply create_embedding_for_claim_keeps_slots.
Qed.

Lemma add_gst_claim_fails claim w :
  encode (generate_gst_text (db w) claim) = None ->
  exists s1,
    add_gst_claim claim w
    = ({| service := s1; db := db w |}, Raises "embedding model failure")
    /\ index s1 = index (service w) /\ id_map s1 = id_map (service w).
Proof.
  intros Henc. unfold add_gst_claim. unfold bind at 1.
  destruct (ensure_schema_step w) as (s1 & -> & Hi & Hm).
  unfold bind at 1, get_db at 1. cbn [db].
  unfold bind at 1, create_embedding. rewrite Henc.
  exists s1. now repeat split.
Qed.

(** X17: the indexing of a GST claim never raises.  When the claim row is
    gone nothing changes; when the encoder fails on the text of the claim,
    the index, [id_map] and the tables are the ones found before. *)
Theorem claim_indexing_failure_is_contained (claim : GSTClaim.t) w :
  let w' := fst (GSTService._create_embedding_for_claim claim w) in
  snd (GSTService._create_embedding_for_claim claim w) = Returns tt
  /\ (find (fun c => (GSTClaim.id c =? GSTClaim.id claim)%Z) (gst_claims (db w)) = None ->
      w' = w)
  /\ (forall claim_with_user,
        find (fun c => (GSTClaim.id c =? GSTClaim.id claim)%Z) (gst_claims (db w))
        = Some claim_with_user ->
        encode (generate_gst_text (db w) claim_with_user) = None ->
        index (service w') = index (service w)
        /\ id_map (service w') = id_map (service w)
        /\ db w' = db w).
Proof.
  cbv zeta. unfold GSTService._create_embedding_for_claim.
  destruct (find _ _) as [c|] eqn:Hfind.
  - split; [now destruct (add_gst_claim c w) as [w' [[]|e]]|].
    split; [discriminate|]. intros c' [= <-] Henc.
    destruct (add_gst_claim_fails c w Henc) as (s1 & -> & Hi & Hm). cbn. auto.
  - split; [reflexivity|]. split; [reflexivity|]. discriminate.
Qed.

End Slots.

(** ** The rebuild of the index, in every outcome *)

Section Replay.
Context `{Externals}.
Import EmbeddingService.



End Replay.


(** ** The rows of the embeddings table *)

Lemma filter_bool {A : Type} (f : A -> bool) (l : list A) :
  filter f l = List.filter f l.
Proof.
  induction l as [|x l IH]; [reflexivity|].
  rewrite filter_cons. cbn [List.filter]. rewrite IH.
  destruct (decide (f x)) as [Hx|Hx]; destruct (f x); try reflexivity; now destruct Hx.
Qed.

Section Rows.
Context `{Externals}.
Import EmbeddingService.

Lemma same_item_new item_type item_id expense_id text_value v :
  same_item item_type item_id
    {| Embedding.expense_id := expense_id; Embedding.item_type := item_type;
       Embedding.item_id := item_id; Embedding.text := text_value;
       Embedding.embedding_vector := v |} = true.
Proof. unfold same_item. cbn. now rewrite String.eqb_refl, Z.eqb_refl. Qed.

Lemma same_item_updated item_type item_id r expense_id text_value v :
  same_item item_type item_id
    {| Embedding.expense_id := expense_id;
       Embedding.item_type := Embedding.item_type r;
       Embedding.item_id := Embedding.item_id r;
       Embedding.text := text_value; Embedding.embedding_vector := v |}
  = same_item item_type item_id r.
Proof. reflexivity. Qed.

Lemma update_first_find item_type item_id text_value v expense_id rows :
  existsb (same_item item_type item_id) rows = true ->
  exists r,
    find (same_item item_type item_id)
         (update_first item_type item_id text_value v expense_id rows) = Some r
    /\ Embedding.text r = text_value /\ Embedding.embedding_vector r = v
    /\ (expense_id <> None -> Embedding.expense_id r = expense_id).
Proof.
  induction rows as [|r rows IH]; cbn [existsb update_first]; [discriminate|].
  destruct (same_item item_type item_id r) eqn:Hr; cbn [orb].
  - intros _. eexists. cbn [find]. rewrite same_item_updated, Hr.
    split; [reflexivity|]. cbn. repeat split. now destruct expense_id.
  - intros Hex. destruct (IH Hex) as (r' & Hfind & Hrest).
    exists r'. cbn [find]. now rewrite Hr.
Qed.

Lemma update_first_others item_type item_id text_value v expense_id rows :
  List.filter (fun r => negb (same_item item_type item_id r))
              (update_first item_type item_id text_value v expense_id rows)
  = List.filter (fun r => negb (same_item item_type item_id r)) rows.
Proof.
  induction rows as [|r rows IH]; cbn [update_first]; [reflexivity|].
  destruct (same_item item_type item_id r) eqn:Hr.
  - cbn [List.filter]. rewrite Hr.
    now rewrite same_item_updated, Hr.
  - cbn [List.filter]. now rewrite Hr, IH.
Qed.

Lemma update_first_count item_type item_id text_value v expense_id rows :
  length (List.filter (same_item item_type item_id)
            (update_first item_type item_id text_value v expense_id rows))
  = length (List.filter (same_item item_type item_id) rows).
Proof.
  induction rows as [|r rows IH]; cbn [update_first]; [reflexivity|].
  destruct (same_item item_type item_id r) eqn:Hr.
  - cbn [List.filter]. rewrite Hr.
    now rewrite same_item_updated, Hr.
  - cbn [List.filter]. now rewrite Hr, IH.
Qed.

Lemma existsb_filter_length {A : Type} (f : A -> bool) (l : list A) :
  existsb f l = negb (length (List.filter f l) =? 0)%nat.
Proof.
  induction l as [|x l IH]; [reflexivity|]. cbn. now destruct (f x).
Qed.

Lemma find_app_new {A : Type} (f : A -> bool) (l : list A) (x : A) :
  existsb f l = false -> f x = true -> find f (l ++ [x]) = Some x.
Proof.
  induction l as [|y l IH]; cbn; intros Hl Hx; [now rewrite Hx|].
  apply orb_false_iff in Hl as [-> Hl]. now apply IH.
Qed.

Lemma upsert_rows item_type item_id text_value v expense_id w :
  _upsert_embedding_record item_type item_id text_value v expense_id w
  = ({| service := service w;
        db := {| users := users (db w); expenses := expenses (db w);
                 gst_claims := gst_claims (db w);
                 embeddings :=
                   if existsb (same_item item_type item_id) (embeddings (db w))
                   then update_first item_type item_id text_value v expense_id
                                     (embeddings (db w))
                   else embeddings (db w) ++
                        [{| Embedding.expense_id := expense_id;
                            Embedding.item_type := item_type;
                            Embedding.item_id := item_id;
                            Embedding.text := text_value;
                            Embedding.embedding_vector := v |}] |} |},
     Returns tt).
Proof. reflexivity. Qed.

(** X18: after an upsert the table has a row of the key with the new text
    and vector, and with the expense id when one is given; the rows of the
    other keys are the ones found before, in the same order; and the key
    has as many rows as before, or one when it had none. *)
Theorem upsert_writes_one_row item_type item_id text_value v expense_id w :
  let rows := embeddings (db w) in
  let rows' :=
    embeddings (db (fst (_upsert_embedding_record item_type item_id text_value v
                           expense_id w))) in
  (exists r,
     find (same_item item_type item_id) rows' = Some r
     /\ Embedding.text r = text_value /\ Embedding.embedding_vector r = v
     /\ (expense_id <> None -> Embedding.expense_id r = expense_id))
  /\ filter (fun r => negb (same_item item_type item_id r)) rows'
     = filter (fun r => negb (same_item item_type item_id r)) rows
  /\ length (rows_of item_type item_id rows')
     = Nat.max 1 (length (rows_of item_type item_id rows)).
Proof.
  cbv zeta. rewrite upsert_rows. cbn [fst db embeddings].
  unfold rows_of. rewrite !filter_bool.
  pose proof (existsb_filter_length (same_item item_type item_id) (embeddings (db w)))
    as Hcount.
  destruct (existsb (same_item item_type item_id) (embeddings (db w))) eqn:Hex.
  - split; [now apply update_first_find|].
    split; [apply update_first_others|].
    rewrite update_first_count.
    symmetry in Hcount. apply negb_true_iff, Nat.eqb_neq in Hcount. lia.
  - split.
    + eexists. split; [apply find_app_new; [exact Hex|apply same_item_new]|].
      now repeat split.
    + rewrite !List.filter_app. cbn [List.filter]. rewrite same_item_new. cbn [negb].
      rewrite app_nil_r. split; [reflexivity|].
      rewrite length_app. cbn [length].
      symmetry in Hcount. apply negb_false_iff, Nat.eqb_eq in Hcount. lia.
Qed.

Lemma update_first_again item_type item_id text_value v expense_id rows :
  update_first item_type item_id text_value v expense_id
    (update_first item_type item_id text_value v expense_id rows)
  = update_first item_type item_id text_value v expense_id rows.
Proof.
  induction rows as [|r rows IH]; cbn [update_first]; [reflexivity|].
  destruct (same_item item_type item_id r) eqn:Hr.
  - cbn [update_first].
    rewrite same_item_updated, Hr. cbn. now destruct expense_id.
  - cbn [update_first]. now rewrite Hr, IH.
Qed.

Lemma existsb_update_first item_type item_id text_value v expense_id rows :
  existsb (same_item item_type item_id)
          (update_first item_type item_id text_value v expense_id rows)
  = existsb (same_item item_type item_id) rows.
Proof.
  rewrite !existsb_filter_length. now rewrite update_first_count.
Qed.

Lemma update_first_new item_type item_id text_value v expense_id rows :
  existsb (same_item item_type item_id) rows = false ->
  update_first item_type item_id text_value v expense_id
    (rows ++ [{| Embedding.expense_id := expense_id;
                 Embedding.item_type := item_type;
                 Embedding.item_id := item_id;
                 Embedding.text := text_value;
                 Embedding.embedding_vector := v |}])
  = rows ++ [{| Embedding.expense_id := expense_id;
                Embedding.item_type := item_type;
                Embedding.item_id := item_id;
                Embedding.text := text_value;
                Embedding.embedding_vector := v |}].
Proof.
  induction rows as [|r rows IH]; cbn [existsb app update_first].
  - intros _. rewrite same_item_new. cbn. now destruct expense_id.
  - intros Hex. apply orb_false_iff in Hex as [-> Hex]. now rewrite IH.
Qed.

(** X19: an upsert repeated with the same arguments changes nothing
    more. *)
Theorem upsert_twice_is_upsert_once item_type item_id text_value v expense_id w :
  let w' := fst (_upsert_embedding_record item_type item_id text_value v expense_id w) in
  _upsert_embedding_record item_type item_id text_value v expense_id w'
  = (w', Returns tt).
Proof.
  cbv zeta. rewrite (upsert_rows _ _ _ _ _ w). cbn [fst].
  rewrite upsert_rows. cbn [service db users expenses gst_claims embeddings].
  destruct (existsb (same_item item_type item_id) (embeddings (db w))) eqn:Hex.
  - rewrite existsb_update_first, Hex, update_first_again. reflexivity.
  - rewrite existsb_app. cbn [existsb]. rewrite same_item_new, orb_true_r.
    now rewrite update_first_new.
Qed.

End Rows.

(** ** The backfill *)

Section Backfill.
Context `{Externals}.
Import EmbeddingService.

Hypothesis encoder_answers : forall text, is_Some (encode text).

Lemma existing_key_new_format r :
  new_format r -> existing_key r = (Embedding.item_type r, Some (Embedding.item_id r)).
Proof.
  intros [Ht Hi]. unfold existing_key. rewrite Ht.
  apply Z.eqb_neq in Hi. now rewrite Hi.
Qed.

Lemma row_key_new_format r : new_format r -> row_key r = existing_key r.
Proof.
  intros Hr. rewrite (existing_key_new_format r Hr).
  destruct Hr as [Ht _]. unfold row_key. now rewrite Ht.
Qed.

Lemma covers_start rows : covers (list_to_set (covered rows)) rows.
Proof. intros key. rewrite elem_of_list_to_set. apply list_elem_of_In. Qed.

Lemma covers_no_row m rows item_type item_id :
  covers m rows -> truthy_str item_type = true -> item_id <> 0%Z ->
  (item_type, Some item_id) ∉ m ->
  existsb (same_item item_type item_id) rows = false.
Proof.
  intros Hm Ht Hi Hkey. destruct (existsb _ rows) eqn:Hex; [|reflexivity].
  exfalso. apply Hkey, Hm.
  apply existsb_exists in Hex as (r & Hin & Hr).
  unfold same_item in Hr. apply andb_true_iff in Hr as [Hrt Hri].
  apply String.eqb_eq in Hrt. apply Z.eqb_eq in Hri.
  unfold covered. apply in_map_iff. exists r. split; [|exact Hin].
  rewrite existing_key_new_format; [now rewrite Hrt, Hri|].
  split; [now rewrite Hrt|now rewrite Hri].
Qed.

Lemma covers_append m rows row :
  covers m rows -> new_format row ->
  covers ({[ (Embedding.item_type row, Some (Embedding.item_id row)) ]} ∪ m)
         (rows ++ [row]).
Proof.
  intros Hm Hrow key. unfold covered. rewrite map_app, in_app_iff. cbn [map In].
  rewrite (existing_key_new_format row Hrow).
  rewrite elem_of_union, elem_of_singleton, (Hm key). unfold covered. intuition.
Qed.

Lemma backfill_expenses_spec l m w :
  (forall e, In e l -> Expense.id e <> 0%Z) ->
  covers m (embeddings (db w)) ->
  exists d' m' added,
    backfill_expenses l m w = ({| service := service w; db := d' |}, Returns m')
    /\ users d' = users (db w) /\ expenses d' = expenses (db w)
    /\ gst_claims d' = gst_claims (db w)
    /\ embeddings d' = embeddings (db w) ++ added
    /\ Forall new_format added
    /\ covers m' (embeddings d')
    /\ (forall key, key ∈ m -> key ∈ m')
    /\ (forall e, In e l -> ("expense", Some (Expense.id e)) ∈ m').
Proof.
  revert m w. induction l as [|e l IH]; intros m w Hids Hm.
  - exists (db w), m, []. cbn [backfill_expenses]. unfold ret.
    rewrite app_nil_r. destruct w. repeat split; try easy.
    + apply Hm.
    + apply Hm.
  - cbn [backfill_expenses].
    destruct (decide (("expense", Some (Expense.id e)) ∈ m)) as [Hin|Hout].
    + destruct (IH m w) as (d' & m' & added & Hrun & Hrest);
        [intros x Hx; apply Hids; now right|exact Hm|].
      exists d', m', added. split; [exact Hrun|].
      destruct Hrest as (Hu & He & Hg & Hrows & Hnew & Hcov & Hmono & Hall).
      repeat split; try assumption; try apply Hcov.
      intros x [<-|Hx]; [now apply Hmono|now apply Hall].
    + unfold bind at 1, create_embedding.
      destruct (encoder_answers (generate_text e)) as [v ->]. unfold ret at 1.
      unfold bind at 1. rewrite upsert_rows.
      assert (Hid : Expense.id e <> 0%Z) by (apply Hids; now left).
      rewrite (covers_no_row m (embeddings (db w)) "expense" (Expense.id e) Hm
                 eq_refl Hid Hout).
      cbn [service db].
      set (row := {| Embedding.expense_id := Some (Expense.id e);
                     Embedding.item_type := "expense";
                     Embedding.item_id := Expense.id e;
                     Embedding.text := generate_text e;
                     Embedding.embedding_vector := v |}).
      assert (Hrow : new_format row) by (split; [reflexivity|exact Hid]).
      match goal with
      | |- context [backfill_expenses l ?m1 ?w1] =>
          destruct (IH m1 w1) as (d' & m' & added & Hrun & Hrest)
      end.
      { intros x Hx. apply Hids. now right. }
      { cbn [db embeddings]. exact (covers_append m (embeddings (db w)) row Hm Hrow). }
      cbn [service db users expenses gst_claims embeddings] in *.
      destruct Hrest as (Hu & He & Hg & Hrows & Hnew & Hcov & Hmono & Hall).
      exists d', m', (row :: added). split; [exact Hrun|].
      repeat split; try assumption; try apply Hcov.
      * rewrite Hrows, <- app_assoc. reflexivity.
      * now constructor.
      * intros key Hkey. apply Hmono. set_solver.
      * intros x [<-|Hx]; [apply Hmono; set_solver|now apply Hall].
Qed.

Lemma backfill_claims_spec l m w :
  (forall c, In c l -> GSTClaim.id c <> 0%Z) ->
  covers m (embeddings (db w)) ->
  exists d' m' added,
    backfill_claims l m w = ({| service := service w; db := d' |}, Returns m')
    /\ users d' = users (db w) /\ expenses d' = expenses (db w)
    /\ gst_claims d' = gst_claims (db w)
    /\ embeddings d' = embeddings (db w) ++ added
    /\ Forall new_format added
    /\ covers m' (embeddings d')
    /\ (forall key, key ∈ m -> key ∈ m')
    /\ (forall c, In c l -> ("gst_claim", Some (GSTClaim.id c)) ∈ m').
Proof.
  revert m w. induction l as [|c l IH]; intros m w Hids Hm.
  - exists (db w), m, []. cbn [backfill_claims]. unfold ret.
    rewrite app_nil_r. destruct w. repeat split; try easy.
    + apply Hm.
    + apply Hm.
  - cbn [backfill_claims].
    destruct (decide (("gst_claim", Some (GSTClaim.id c)) ∈ m)) as [Hin|Hout].
    + destruct (IH m w) as (d' & m' & added & Hrun & Hrest);
        [intros x Hx; apply Hids; now right|exact Hm|].
      exists d', m', added. split; [exact Hrun|].
      destruct Hrest as (Hu & He & Hg & Hrows & Hnew & Hcov & Hmono & Hall).
      repeat split; try assumption; try apply Hcov.
      intros x [<-|Hx]; [now apply Hmono|now apply Hall].
    + unfold bind at 1, get_db at 1. unfold bind at 1, create_embedding.
      destruct (encoder_answers (generate_gst_text (db w) c)) as [v ->]. unfold ret at 1.
      unfold bind at 1. rewrite upsert_rows.
      assert (Hid : GSTClaim.id c <> 0%Z) by (apply Hids; now left).
      rewrite (covers_no_row m (embeddings (db w)) "gst_claim" (GSTClaim.id c) Hm
                 eq_refl Hid Hout).
      cbn [service db].
      set (row := {| Embedding.expense_id := None;
                     Embedding.item_type := "gst_claim";
                     Embedding.item_id := GSTClaim.id c;
                     Embedding.text := generate_gst_text (db w) c;
                     Embedding.embedding_vector := v |}).
      assert (Hrow : new_format row) by (split; [reflexivity|exact Hid]).
      match goal with
      | |- context [backfill_claims l ?m1 ?w1] =>
          destruct (IH m1 w1) as (d' & m' & added & Hrun & Hrest)
      end.
      { intros x Hx. apply Hids. now right. }
      { cbn [db embeddings]. exact (covers_append m (embeddings (db w)) row Hm Hrow). }
      cbn [service db users expenses gst_claims embeddings] in *.
      destruct Hrest as (Hu & He & Hg & Hrows & Hnew & Hcov & Hmono & Hall).
      exists d', m', (row :: added). split; [exact Hrun|].
      repeat split; try assumption; try apply Hcov.
      * rewrite Hrows, <- app_assoc. reflexivity.
      * now constructor.
      * intros key Hkey. apply Hmono. set_solver.
      * intros x [<-|Hx]; [apply Hmono; set_solver|now apply Hall].
Qed.

Lemma backfill_spec w :
  (forall e, In e (expenses (db w)) -> Expense.id e <> 0%Z) ->
  (forall c, In c (gst_claims (db w)) -> GSTClaim.id c <> 0%Z) ->
  exists d' added,
    _backfill_missing_embeddings w = ({| service := service w; db := d' |}, Returns tt)
    /\ users d' = users (db w) /\ expenses d' = expenses (db w)
    /\ gst_claims d' = gst_claims (db w)
    /\ embeddings d' = embeddings (db w) ++ added
    /\ Forall new_format added
    /\ (forall e, In e (expenses d') ->
          In ("expense", Some (Expense.id e)) (covered (embeddings d')))
    /\ (forall c, In c (gst_claims d') ->
          In ("gst_claim", Some (GSTClaim.id c)) (covered (embeddings d'))).
Proof.
  intros He Hc. unfold _backfill_missing_embeddings.
  unfold bind at 1, get_db at 1. unfold bind at 1.
  destruct (backfill_expenses_spec (expenses (db w))
              (list_to_set (map existing_key (embeddings (db w)))) w He
              (covers_start (embeddings (db w))))
    as (d1 & m1 & added1 & -> & Hu1 & He1 & Hg1 & Hrows1 & Hnew1 & Hcov1 & Hmono1 & Hall1).
  unfold bind at 1, get_db at 1. cbn [db]. unfold bind at 1.
  destruct (backfill_claims_spec (gst_claims d1) m1 {| service := service w; db := d1 |})
    as (d2 & m2 & added2 & -> & Hu2 & He2 & Hg2 & Hrows2 & Hnew2 & Hcov2 & Hmono2 & Hall2).
  { cbn [db]. rewrite Hg1. exact Hc. }
  { exact Hcov1. }
  cbn [service db] in *. unfold ret.
  exists d2, (added1 ++ added2). split; [reflexivity|].
  split; [congruence|]. split; [congruence|]. split; [congruence|].
  split; [rewrite Hrows2, Hrows1, <- app_assoc; reflexivity|].
  split; [now apply Forall_app|].
  split.
  - intros e Hin. apply Hcov2, Hmono2, Hall1. now rewrite <- He1, <- He2.
  - intros c Hin. apply Hcov2, Hall2. now rewrite <- Hg2.
Qed.

Lemma backfill_expenses_noop l m w :
  (forall e, In e l -> ("expense", Some (Expense.id e)) ∈ m) ->
  backfill_expenses l m w = (w, Returns m).
Proof.
  induction l as [|e l IH]; intros Hall; [reflexivity|].
  cbn [backfill_expenses].
  destruct (decide _) as [_|Hout]; [|exfalso; apply Hout, Hall; now left].
  apply IH. intros x Hx. apply Hall. now right.
Qed.

Lemma backfill_claims_noop l m w :
  (forall c, In c l -> ("gst_claim", Some (GSTClaim.id c)) ∈ m) ->
  backfill_claims l m w = (w, Returns m).
Proof.
  induction l as [|c l IH]; intros Hall; [reflexivity|].
  cbn [backfill_claims].
  destruct (decide _) as [_|Hout]; [|exfalso; apply Hout, Hall; now left].
  apply IH. intros x Hx. apply Hall. now right.
Qed.

Lemma backfill_noop w :
  (forall e, In e (expenses (db w)) ->
     In ("expense", Some (Expense.id e)) (covered (embeddings (db w)))) ->
  (forall c, In c (gst_claims (db w)) ->
     In ("gst_claim", Some (GSTClaim.id c)) (covered (embeddings (db w)))) ->
  _backfill_missing_embeddings w = (w, Returns tt).
Proof.
  intros He Hc. unfold _backfill_missing_embeddings.
  unfold bind at 1, get_db at 1. unfold bind at 1.
  rewrite backfill_expenses_noop
    by (intros e Hin; apply covers_start; now apply He).
  unfold bind at 1, get_db at 1. unfold bind at 1.
  rewrite backfill_claims_noop
    by (intros c Hin; apply covers_start; now apply Hc).
  reflexivity.
Qed.

End Backfill.

Section BackfillProperties.
Context `{Externals}.
Import EmbeddingService.

(** X20: when the encoder answers and no primary key is zero, the
    backfill returns, appends rows to the embeddings table and changes
    nothing else, and after it the table covers every expense and every
    GST claim. *)
Theorem backfill_covers_every_record w :
  (forall text, is_Some (encode text)) ->
  (forall e, In e (expenses (db w)) -> Expense.id e <> 0%Z) ->
  (forall c, In c (gst_claims (db w)) -> GSTClaim.id c <> 0%Z) ->
  exists d' added,
    _backfill_missing_embeddings w = ({| service := service w; db := d' |}, Returns tt)
    /\ users d' = users (db w) /\ expenses d' = expenses (db w)
    /\ gst_claims d' = gst_claims (db w)
    /\ embeddings d' = embeddings (db w) ++ added
    /\ (forall e, In e (expenses d') ->
          In ("expense", Some (Expense.id e)) (covered (embeddings d')))
    /\ (forall c, In c (gst_claims d') ->
          In ("gst_claim", Some (GSTClaim.id c)) (covered (embeddings d'))).
Proof.
  intros Henc He Hc.
  destruct (backfill_spec Henc w He Hc)
    as (d' & added & Hrun & Hu & He' & Hg & Hrows & _ & Hce & Hcc).
  exists d', added. repeat split; assumption.
Qed.

(** X21: a second backfill finds nothing to do: run on the state the
    first one left, it returns and changes nothing. *)
Theorem backfill_twice_is_backfill_once w :
  (forall text, is_Some (encode text)) ->
  (forall e, In e (expenses (db w)) -> Expense.id e <> 0%Z) ->
  (forall c, In c (gst_claims (db w)) -> GSTClaim.id c <> 0%Z) ->
  let w' := fst (_backfill_missing_embeddings w) in
  _backfill_missing_embeddings w' = (w', Returns tt).
Proof.
  intros Henc He Hc. cbv zeta.
  destruct (backfill_spec Henc w He Hc)
    as (d' & added & -> & Hu & He' & Hg & Hrows & _ & Hce & Hcc).
  cbn [fst]. now apply backfill_noop.
Qed.

End BackfillProperties.

(** ** The start of a process *)

Section Startup.
Context `{Externals}.
Import EmbeddingService.

(** X22: the start of a process makes every record searchable.  When the
    encoder answers, no primary key is zero and the rows of the embeddings
    table are in the new format, then after [load_from_db] every expense
    and every GST claim of the tables is among the candidates of a search
    that asks for at least as many neighbours as the index holds. *)
Theorem startup_makes_records_searchable w query k :
  (forall text, is_Some (encode text)) ->
  (forall e, In e (expenses (db w)) -> Expense.id e <> 0%Z) ->
  (forall c, In c (gst_claims (db w)) -> GSTClaim.id c <> 0%Z) ->
  (forall r, In r (embeddings (db w)) -> new_format r) ->
  let w' := fst (load_from_db w) in
  (ntotal (service w') <= Pos.to_nat k)%nat ->
  exists l,
    snd (search query k w') = Returns l
    /\ (forall e, In e (expenses (db w)) ->
          In ("expense", Some (Expense.id e)) (map fst l))
    /\ (forall c, In c (gst_claims (db w)) ->
          In ("gst_claim", Some (GSTClaim.id c)) (map fst l)).
Proof.
  intros Henc He Hc Hrows. cbv zeta.
  assert (Hrun : exists s' d' ,
             load_from_db w = ({| service := s'; db := d' |}, Returns tt)
             /\ expenses d' = expenses (db w) /\ gst_claims d' = gst_claims (db w)
             /\ (forall key, In key (covered (embeddings d')) ->
                   exists j, (j < ntotal s')%nat /\ id_map s' !! j = Some key)
             /\ (forall e, In e (expenses d') ->
                   In ("expense", Some (Expense.id e)) (covered (embeddings d')))
             /\ (forall c, In c (gst_claims d') ->
                   In ("gst_claim", Some (GSTClaim.id c)) (covered (embeddings d')))).
  { unfold load_from_db. unfold bind at 1.
    destruct (ensure_schema_step w) as (s1 & -> & Hi1 & Hm1).
    unfold bind at 1.
    destruct (backfill_spec Henc {| service := s1; db := db w |} He Hc)
      as (d2 & added & -> & _ & He2 & Hg2 & Hrows2 & Hnew & Hce & Hcc).
    cbn [service db] in *. unfold bind at 1, get_db at 1. cbn [db].
    destruct (replay_appends (embeddings d2) {| service := s1; db := d2 |})
      as (s3 & -> & Hindex & _ & Hslots & _).
    cbn [service db] in *.
    exists s3, d2. split; [reflexivity|]. split; [exact He2|]. split; [exact Hg2|].
    split; [|split; assumption].
    intros key Hkey. unfold covered in Hkey.
    apply in_map_iff in Hkey as (row & <- & Hrow).
    assert (Hformat : new_format row).
    { rewrite Hrows2 in Hrow. apply in_app_or in Hrow as [Hrow|Hrow];
        [now apply Hrows|]. rewrite List.Forall_forall in Hnew. now apply Hnew. }
    apply list_elem_of_In, list_elem_of_lookup in Hrow as [i Hi].
    exists (ntotal s1 + i)%nat. split.
    - unfold ntotal. rewrite Hindex, length_app, length_map.
      apply lookup_lt_Some in Hi. unfold ntotal. lia.
    - rewrite (Hslots i row Hi), <- surjective_pairing.
      now rewrite row_key_new_format. }
  destruct Hrun as (s' & d' & -> & He' & Hg' & Hslots & Hce & Hcc).
  cbn [fst service]. intros Hk.
  destruct (Henc query) as [x Hx].
  rewrite (search_returns _ _ _ _ Hx). cbn [snd service].
  eexists. split; [reflexivity|].
  assert (Hfound : forall key, In key (covered (embeddings d')) ->
            In key (map fst
              (flat_map
                 (fun r : nat * Q =>
                    match id_map s' !! fst r with
                    | Some (item_type, item_id) =>
                        [(item_type, item_id, (1 / (1 + snd r))%Q)]
                    | None => []
                    end)
                 (faiss_search (index s') x (Pos.to_nat k))))).
  { intros key Hkey. destruct (Hslots key Hkey) as (j & Hj & Hmap).
    apply in_map_iff. exists (key, (1 / (1 + l2_distance x (nth j (index s') [])))%Q).
    split; [reflexivity|].
    apply in_flat_map. eexists. split.
    - apply (faiss_search_reaches (index s') x (Pos.to_nat k) j Hk Hj).
    - cbn [fst snd]. rewrite Hmap. destruct key. now left. }
  split.
  - intros e Hin. apply Hfound, Hce. now rewrite He'.
  - intros c Hin. apply Hfound, Hcc. now rewrite Hg'.
Qed.

End Startup.

(** ** The expense service *)

Section Expenses.
Context `{Externals}.
Import EmbeddingService ExpenseService.

Lemma set_status_find expense_id status rows expense :
  find (fun e => (Expense.id e =? expense_id)%Z) rows = Some expense ->
  find (fun e => (Expense.id e =? expense_id)%Z) (set_status expense_id status rows)
  = Some (with_status expense status).
Proof.
  induction rows as [|e rows IH]; cbn [find set_status]; [discriminate|].
  destruct (Expense.id e =? expense_id)%Z eqn:He.
  - intros [= <-]. cbn [find with_status Expense.id]. now rewrite He.
  - intros Hfind. cbn [find]. rewrite He. now apply IH.
Qed.

Lemma set_status_find_other expense_id status rows other :
  other <> expense_id ->
  find (fun e => (Expense.id e =? other)%Z) (set_status expense_id status rows)
  = find (fun e => (Expense.id e =? other)%Z) rows.
Proof.
  intros Hother. induction rows as [|e rows IH]; cbn [find set_status]; [reflexivity|].
  destruct (Expense.id e =? expense_id)%Z eqn:He.
  - cbn [find with_status Expense.id].
    apply Z.eqb_eq in He. rewrite He.
    now destruct (Z.eqb_spec expense_id other) as [Heq|_]; [symmetry in Heq|].
  - cbn [find]. now rewrite IH.
Qed.

Lemma set_status_ids expense_id status rows :
  map Expense.id (set_status expense_id status rows) = map Expense.id rows.
Proof.
  induction rows as [|e rows IH]; cbn [set_status map]; [reflexivity|].
  destruct (Expense.id e =? expense_id)%Z; cbn [map]; [reflexivity|now rewrite IH].
Qed.

(** X23: a status update is read back.  When an expense has the id, the
    call returns it with the new status, the table then gives that row for
    the id and the rows it gave before for every other id, and neither the
    index nor the embeddings table changes; when no expense has the id, the
    call returns nothing and changes nothing. *)
Theorem update_status_round_trip expense_id status w :
  let w' := fst (update_status expense_id status w) in
  (find_expense (db w) expense_id = None ->
   update_status expense_id status w = (w, Returns None))
  /\ (forall expense,
        find_expense (db w) expense_id = Some expense ->
        snd (update_status expense_id status w)
        = Returns (Some (with_status expense status))
        /\ find_expense (db w') expense_id = Some (with_status expense status)
        /\ (forall other, other <> expense_id ->
              find_expense (db w') other = find_expense (db w) other)
        /\ map Expense.id (expenses (db w')) = map Expense.id (expenses (db w))
        /\ service w' = service w
        /\ embeddings (db w') = embeddings (db w)).
Proof.
  cbv zeta. unfold update_status, bind, get_db, set_db, ret. split.
  - intros ->. reflexivity.
  - intros expense Hfind. rewrite Hfind. cbn [fst snd db service expenses embeddings].
    split; [reflexivity|]. unfold find_expense in *. cbn [expenses].
    split; [now apply set_status_find|].
    split; [intros other Hother; now apply set_status_find_other|].
    split; [apply set_status_ids|]. now split.
Qed.

Lemma find_filter_out expense_id (rows : list Expense.t) :
  find (fun e => (Expense.id e =? expense_id)%Z)
       (List.filter (fun e => negb (Expense.id e =? expense_id)%Z) rows) = None.
Proof.
  induction rows as [|e rows IH]; cbn [List.filter find]; [reflexivity|].
  destruct (Expense.id e =? expense_id)%Z eqn:He; cbn [negb find]; [exact IH|].
  now rewrite He.
Qed.

Lemma delete_expense_effect expense_id w :
  service (fst (delete_expense expense_id w)) = service w
  /\ find_expense (db (fst (delete_expense expense_id w))) expense_id = None.
Proof.
  unfold delete_expense, bind, get_db, set_db, ret.
  destruct (find_expense (db w) expense_id) eqn:Hfind; cbn [fst db service].
  - split; [reflexivity|]. unfold find_expense. cbn [expenses].
    rewrite filter_bool. apply find_filter_out.
  - now split.
Qed.

(** X24: a deleted expense is not returned any more, although the index
    is not told: [delete_expense] leaves the index and [id_map] as they are,
    no expense of the table has the id afterwards, and no later answer of
    the search holds an expense of that id. *)
Theorem deleted_expense_is_not_returned expense_id w :
  let w' := fst (delete_expense expense_id w) in
  service w' = service w
  /\ find_expense (db w') expense_id = None
  /\ forall query limit mn mx uid resp r,
       snd (SearchService.semantic_search query limit mn mx uid w') = Returns resp ->
       In r (SearchService.final_results resp) ->
       SearchService.type r = "expense" ->
       SearchService.id r <> expense_id.
Proof.
  cbv zeta. destruct (delete_expense_effect expense_id w) as [Hservice Hgone].
  split; [exact Hservice|]. split; [exact Hgone|].
  intros query limit mn mx uid resp r Hret Hr Htype Hid.
  pose proof (semantic_search_provenance _ _ _ _ _ _ _ Hret) as Hall.
  rewrite List.Forall_forall in Hall. specialize (Hall r Hr).
  destruct Hall as [(_ & e & Hfind & _)|(Ht & _)]; [|rewrite Htype in Ht; discriminate].
  apply find_some in Hfind as [Hin He]. apply bool_decide_eq_true in He.
  injection He as He.
  pose proof (find_none _ _ Hgone e Hin) as Hne. cbn in Hne.
  apply Z.eqb_neq in Hne. congruence.
Qed.

End Expenses.

(** ** The expense routes *)

Section Routes.
Context `{Externals}.
Import EmbeddingService ExpenseService.

Lemma set_status_keeps expense_id status rows found e :
  find (fun x => (Expense.id x =? expense_id)%Z) rows = Some found ->
  In e rows -> e <> found ->
  In e (set_status expense_id status rows).
Proof.
  induction rows as [|r rows IH]; cbn [find set_status]; [discriminate|].
  destruct (Expense.id r =? expense_id)%Z.
  - intros [= <-] [->|Hin] Hne; [now destruct Hne|now right].
  - intros Hfind [->|Hin] Hne; [now left|right; now apply IH].
Qed.

Lemma primary_key_identifies (rows : list Expense.t) (a b : Expense.t) :
  NoDup (map Expense.id rows) -> In a rows -> In b rows ->
  Expense.id a = Expense.id b -> a = b.
Proof.
  induction rows as [|r rows IH]; cbn [map]; [intros _ []|].
  intros Hnodup Ha Hb Hid. apply NoDup_cons in Hnodup as [Hr Hnodup].
  assert (Hfresh : forall x, In x rows -> Expense.id x <> Expense.id r).
  { intros x Hx Heq. apply Hr. rewrite <- Heq.
    apply list_elem_of_In, in_map, Hx. }
  destruct Ha as [->|Ha], Hb as [->|Hb]; try reflexivity.
  - exfalso. now apply (Hfresh b Hb).
  - exfalso. now apply (Hfresh a Ha).
  - now apply IH.
Qed.

(** X27: an employee cannot alter the expense of another user through the
    routes.  Whatever expense id and status an employee sends, every
    expense owned by somebody else is in the table as it was after the
    status update and after the deletion. *)
Theorem employee_cannot_alter_foreign_expenses
        (current_user : ExpenseRoutes.TokenData) (expense_id : Z) (status : string)
        (w : world) (e : Expense.t) :
  ExpenseRoutes.role current_user = "Employee" ->
  NoDup (map Expense.id (expenses (db w))) ->
  In e (expenses (db w)) ->
  Expense.user_id e <> ExpenseRoutes.user_id current_user ->
  In e (expenses (db (fst (fst (ExpenseRoutes.update_expense_status
                                  expense_id status current_user w)))))
  /\ In e (expenses (db (fst (fst (ExpenseRoutes.delete_expense
                                     expense_id current_user w))))).
Proof.
  intros Hrole Hkey Hin Howner.
  unfold ExpenseRoutes.update_expense_status, ExpenseRoutes.delete_expense.
  destruct (find_expense (db w) expense_id) as [found|] eqn:Hfind; [|now split].
  rewrite Hrole. cbn [String.eqb Ascii.eqb Bool.eqb]. rewrite andb_true_r.
  destruct (Z.eqb_spec (Expense.user_id found) (ExpenseRoutes.user_id current_user))
    as [Hmine|Hforeign]; cbn [negb]; [|now split].
  assert (Hne : e <> found) by congruence.
  split.
  - unfold update_status, bind, get_db, set_db, ret. rewrite Hfind.
    cbn [fst snd db expenses].
    match goal with
    | |- context [find_expense ?d' expense_id] => destruct (find_expense d' expense_id)
    end; cbn [fst db expenses]; now apply (set_status_keeps _ _ _ found).
  - unfold delete_expense, bind, get_db, set_db, ret. rewrite Hfind.
    cbn [fst snd db expenses]. rewrite filter_bool. apply filter_In.
    split; [exact Hin|]. apply negb_true_iff, Z.eqb_neq. intros Hid.
    apply Hne. apply (primary_key_identifies (expenses (db w))); try assumption.
    + unfold find_expense in Hfind. now apply find_some in Hfind as [Hf _].
    + unfold find_expense in Hfind. apply find_some in Hfind as [_ Hf].
      apply Z.eqb_eq in Hf. congruence.
Qed.

(** X28: an employee can set the status of an own expense to any value,
    [approved] included, and no audit call records it: the route answers
    with the expense in its new status, the table holds it, and
    [AuditService.log_action] is not called. *)
Theorem employee_sets_own_status_unaudited
        (current_user : ExpenseRoutes.TokenData) (expense_id : Z) (status : string)
        (w : world) (found : Expense.t) :
  ExpenseRoutes.role current_user = "Employee" ->
  find_expense (db w) expense_id = Some found ->
  Expense.user_id found = ExpenseRoutes.user_id current_user ->
  exists w',
    ExpenseRoutes.update_expense_status expense_id status current_user w
    = (w', ExpenseRoutes._serialize_expense (db w') (with_status found status), [])
    /\ find_expense (db w') expense_id = Some (with_status found status).
Proof.
  intros Hrole Hfind Hmine.
  unfold ExpenseRoutes.update_expense_status. rewrite Hfind, Hmine, Z.eqb_refl.
  cbn [negb andb].
  unfold update_status, bind, get_db, set_db, ret. rewrite Hfind.
  cbn [fst snd db expenses].
  assert (Hread : find_expense
                    {| users := users (db w);
                       expenses := set_status expense_id status (expenses (db w));
                       gst_claims := gst_claims (db w);
                       embeddings := embeddings (db w) |} expense_id
                  = Some (with_status found status)).
  { unfold find_expense in *. cbn [expenses]. now apply set_status_find. }
  rewrite Hread. rewrite Hrole.
  assert (Hrole' : Text.mem "Employee" ["Admin"; "Super Admin"] = false) by reflexivity.
  rewrite Hrole', andb_false_r.
  exists {| service := service w;
            db := {| users := users (db w);
                     expenses := set_status expense_id status (expenses (db w));
                     gst_claims := gst_claims (db w);
                     embeddings := embeddings (db w) |} |}.
  split; [reflexivity|exact Hread].
Qed.

End Routes.

(** ** The further properties on the concrete stores *)

Lemma largest_in (cur : Q * string) (l : list (Q * string)) :
  In (Difflib.largest cur l) (cur :: l).
Proof.
  revert cur. induction l as [|x l IH]; intros cur; cbn [Difflib.largest]; [now left|].
  destruct (IH (if Difflib.pair_lt cur x then x else cur)) as [Heq|Hin].
  - rewrite <- Heq. destruct (Difflib.pair_lt cur x); [right; now left|now left].
  - right. now right.
Qed.

(** The close matches of the difflib model are taken from the
    possibilities. *)
Lemma get_close_matches_subset (word : string) (possibilities : list string)
      (cutoff : Q) (x : string) :
  In x (Difflib.get_close_matches word possibilities cutoff) -> In x possibilities.
Proof.
  unfold Difflib.get_close_matches. cbv zeta.
  destruct (flat_map _ possibilities) as [|p rest] eqn:Hscored; [intros []|].
  intros [<-|[]].
  pose proof (largest_in p rest) as Hin. rewrite <- Hscored in Hin.
  apply in_flat_map in Hin as (y & Hy & Hin).
  destruct (Qle_bool cutoff (Difflib.ratio y word)); [|destruct Hin].
  destruct Hin as [<-|[]]. exact Hy.
Qed.

Section FurtherRuns.
Import SearchService Examples.
#[local] Existing Instance collaborators.

Ltac run := vm_compute; reflexivity.
Ltac first_of_list := vm_compute; left; reflexivity.

Lemma answer_keys_are_distinct_witness :
  exists resp,
    snd (semantic_search "petrol in november" 5 None None None (started petrol_store))
    = Returns resp
    /\ NoDup (map result_key (final_results resp)).
Proof.
  exists (answer "petrol in november" 5 (started petrol_store)).
  assert (Hret : snd (semantic_search "petrol in november" 5 None None None
                        (started petrol_store))
                 = Returns (answer "petrol in november" 5 (started petrol_store))) by run.
  split; [exact Hret|].
  exact (answer_keys_are_distinct "petrol in november" 5 None None None
           (started petrol_store) _ Hret).
Defined.

Lemma results_denote_stored_records_witness :
  exists resp r,
    snd (semantic_search "petrol in november" 5 None None None (started petrol_store))
    = Returns resp
    /\ In r (final_results resp)
    /\ ((type r = "expense"
         /\ exists e, In e (expenses (EmbeddingService.db (started petrol_store)))
                      /\ Expense.id e = id r
                      /\ label r = Expense.label e /\ item r = Expense.item e
                      /\ amount r = Expense.amount e)
        \/ (type r = "gst_claim"
            /\ exists c, In c (gst_claims (EmbeddingService.db (started petrol_store)))
                         /\ GSTClaim.id c = id r /\ amount r = GSTClaim.amount c)).
Proof.
  set (w := started petrol_store).
  set (resp := answer "petrol in november" 5 w).
  set (r := first_result resp).
  exists resp, r.
  assert (Hret : snd (semantic_search "petrol in november" 5 None None None w)
                 = Returns resp) by run.
  assert (Hin : In r (final_results resp)) by first_of_list.
  split; [exact Hret|]. split; [exact Hin|].
  exact (results_denote_stored_records "petrol in november" 5 None None None w resp r
           Hret Hin).
Defined.

Lemma route_answers_with_own_records_witness :
  exists resp r,
    1%Z <> 0%Z
    /\ snd (SearchRoute.semantic_search (request "nov" 5) 1 (started person_store))
       = Returns resp
    /\ In r (final_results resp)
    /\ ((type r = "expense"
         /\ exists e, expense_by_id (EmbeddingService.db (started person_store)) (id r)
                      = Some e
                      /\ Expense.user_id e = 1%Z)
        \/ (type r = "gst_claim"
            /\ exists c, claim_by_id (EmbeddingService.db (started person_store)) (id r)
                         = Some c
                         /\ GSTClaim.user_id c = 1%Z)).
Proof.
  set (w := started person_store).
  set (resp := answer_with "nov" 5 None None (Some 1%Z) w).
  set (r := first_result resp).
  exists resp, r.
  assert (Huser : 1%Z <> 0%Z) by discriminate.
  assert (Hret : snd (SearchRoute.semantic_search (request "nov" 5) 1 w) = Returns resp)
    by run.
  assert (Hin : In r (final_results resp)) by first_of_list.
  split; [exact Huser|]. split; [exact Hret|]. split; [exact Hin|].
  exact (route_answers_with_own_records (request "nov" 5) 1%Z w resp r Huser Hret Hin).
Defined.


Lemma strict_item_filter_witness :
  exists resp r,
    has_specific_item_keyword
      (context_of (EmbeddingService.db (started cake_store)) "cake in november") = true
    /\ snd (semantic_search "cake in november" 5 None None None (started cake_store))
       = Returns resp
    /\ In r (final_results resp)
    /\ type r = "expense"
    /\ exists k,
         In k (specific_item_keywords
                 (context_of (EmbeddingService.db (started cake_store))
                             "cake in november"))
         /\ (Text.contains k (Text.lower (label r)) = true
             \/ Text.contains k (Text.lower (item r)) = true).
Proof.
  set (w := started cake_store).
  set (resp := answer "cake in november" 5 w).
  set (r := first_result resp).
  exists resp, r.
  assert (Hflag : has_specific_item_keyword
                    (context_of (EmbeddingService.db w) "cake in november") = true) by run.
  assert (Hret : snd (semantic_search "cake in november" 5 None None None w)
                 = Returns resp) by run.
  assert (Hin : In r (final_results resp)) by first_of_list.
  assert (Htype : type r = "expense") by run.
  split; [exact Hflag|]. split; [exact Hret|]. split; [exact Hin|]. split; [exact Htype|].
  exact (strict_item_filter "cake in november" 5 None None None w resp r
           Hflag Hret Hin Htype).
Defined.

Lemma scores_not_below_floor_witness :
  exists resp r,
    snd (semantic_search "nov" 5 None None None (started limit_store)) = Returns resp
    /\ In r (final_results resp)
    /\ (has_specific_item_keyword
          (context_of (EmbeddingService.db (started limit_store)) "nov") = false
        \/ type r = "gst_claim")
    /\ (3 # 10 <= similarity_score r)%Q.
Proof.
  set (w := started limit_store).
  set (resp := answer "nov" 5 w).
  set (r := first_result resp).
  exists resp, r.
  assert (Hret : snd (semantic_search "nov" 5 None None None w) = Returns resp) by run.
  assert (Hin : In r (final_results resp)) by first_of_list.
  assert (Hcase : has_specific_item_keyword (context_of (EmbeddingService.db w) "nov")
                  = false
                  \/ type r = "gst_claim") by first_of_list.
  split; [exact Hret|]. split; [exact Hin|]. split; [exact Hcase|].
  exact (scores_not_below_floor "nov" 5 None None None w resp r Hret Hin Hcase).
Defined.

Lemma answer_size_bounded_by_pool_witness :
  exists resp,
    snd (semantic_search "nov" 5 None None None (started limit_store)) = Returns resp
    /\ (length (final_results resp)
        <= Nat.min
             (Pos.to_nat
                (search_k (context_of (EmbeddingService.db (started limit_store)) "nov") 5))
             (EmbeddingService.ntotal (EmbeddingService.service (started limit_store))))%nat.
Proof.
  set (w := started limit_store).
  set (resp := answer "nov" 5 w).
  exists resp.
  assert (Hret : snd (semantic_search "nov" 5 None None None w) = Returns resp) by run.
  split; [exact Hret|].
  exact (answer_size_bounded_by_pool "nov" 5 None None None w resp Hret).
Defined.

Lemma wrong_month_claim_needs_high_score_witness :
  exists resp r,
    snd (semantic_search "office dec" 5 None None None (started office_store))
    = Returns resp
    /\ In r (final_results resp)
    /\ type r = "gst_claim"
    /\ claim_by_id (EmbeddingService.db (started office_store)) (id r) = Some office_claim
    /\ GSTClaim.created_at office_claim = Some (on 2025 11 5)
    /\ _extract_month_from_query "office dec" = Some 12%Z
    /\ (month (on 2025 11 5) <> 12%Z
        \/ year (on 2025 11 5) <> _extract_year_from_query "office dec")
    /\ (7 # 10 <= similarity_score r)%Q.
Proof.
  set (w := started office_store).
  set (resp := answer "office dec" 5 w).
  set (r := first_result resp).
  exists resp, r.
  assert (Hret : snd (semantic_search "office dec" 5 None None None w) = Returns resp)
    by run.
  assert (Hin : In r (final_results resp)) by first_of_list.
  assert (Htype : type r = "gst_claim") by run.
  assert (Hclaim : claim_by_id (EmbeddingService.db w) (id r) = Some office_claim) by run.
  assert (Hcreated : GSTClaim.created_at office_claim = Some (on 2025 11 5)) by reflexivity.
  assert (Hmonth : _extract_month_from_query "office dec" = Some 12%Z) by run.
  assert (Hother : month (on 2025 11 5) <> 12%Z
                   \/ year (on 2025 11 5) <> _extract_year_from_query "office dec")
    by (left; discriminate).
  repeat (split; [assumption|]).
  exact (wrong_month_claim_needs_high_score "office dec" 5 None None None w resp r
           office_claim (on 2025 11 5) 12%Z Hret Hin Htype Hclaim Hcreated Hmonth Hother).
Defined.

Lemma search_answer_size_witness :
  exists l,
    slots_mapped (EmbeddingService.service (started person_store))
    /\ snd (EmbeddingService.search "nov" 5 (started person_store)) = Returns l
    /\ length l
       = Nat.min (Pos.to_nat 5)
                 (EmbeddingService.ntotal (EmbeddingService.service (started person_store))).
Proof.
  set (w := started person_store).
  exists (hits "nov" 5 w).
  assert (Hslots : slots_mapped (EmbeddingService.service w)).
  { exact (load_from_db_keeps_slots
             {| EmbeddingService.service := EmbeddingService.init;
                EmbeddingService.db := person_store |} slots_mapped_init). }
  assert (Hret : snd (EmbeddingService.search "nov" 5 w) = Returns (hits "nov" 5 w)) by run.
  split; [exact Hslots|]. split; [exact Hret|].
  exact (search_answer_size "nov" 5 w (hits "nov" 5 w) Hslots Hret).
Defined.

Lemma search_answer_order_witness :
  exists l,
    snd (EmbeddingService.search "nov" 5 (started person_store)) = Returns l
    /\ StronglySorted more_similar l
    /\ Forall (fun c => (0 < snd c <= 1)%Q) l.
Proof.
  set (w := started person_store).
  exists (hits "nov" 5 w).
  assert (Hret : snd (EmbeddingService.search "nov" 5 w) = Returns (hits "nov" 5 w)) by run.
  split; [exact Hret|].
  exact (search_answer_order "nov" 5 w (hits "nov" 5 w) Hret).
Defined.

Lemma added_expense_is_found_witness :
  encode (EmbeddingService.generate_text taxed_expense) = Some [0%Q]
  /\ encode "petrol" = Some [0%Q]
  /\ (EmbeddingService.ntotal (EmbeddingService.service (started petrol_store))
      < Pos.to_nat 5)%nat
  /\ exists l,
       snd (EmbeddingService.search "petrol" 5
              (fst (EmbeddingService.add_expense taxed_expense (started petrol_store))))
       = Returns l
       /\ In ("expense", Some (Expense.id taxed_expense),
              (1 / (1 + EmbeddingService.l2_distance [0%Q] [0%Q]))%Q) l.
Proof.
  assert (Hv : encode (EmbeddingService.generate_text taxed_expense) = Some [0%Q])
    by reflexivity.
  assert (Hx : encode "petrol" = Some [0%Q]) by reflexivity.
  assert (Hk : (EmbeddingService.ntotal (EmbeddingService.service (started petrol_store))
                < Pos.to_nat 5)%nat) by (vm_compute; lia).
  split; [exact Hv|]. split; [exact Hx|]. split; [exact Hk|].
  exact (added_expense_is_found taxed_expense (started petrol_store) "petrol" 5
           [0%Q] [0%Q] Hv Hx Hk).
Defined.

Lemma every_slot_stays_mapped_witness :
  slots_mapped (EmbeddingService.service (started office_store))
  /\ EmbeddingService.ntotal (EmbeddingService.service (started office_store)) = 3%nat
  /\ slots_mapped
       (EmbeddingService.service
          (fst (EmbeddingService.add_expense taxed_expense (started office_store))))
  /\ EmbeddingService.ntotal
       (EmbeddingService.service
          (fst (EmbeddingService.add_expense taxed_expense (started office_store))))
     = 4%nat
  /\ slots_mapped
       (EmbeddingService.service
          (fst (EmbeddingService.add_gst_claim office_claim (started office_store))))
  /\ slots_mapped
       (EmbeddingService.service
          (fst (EmbeddingService.load_from_db (started office_store))))
  /\ EmbeddingService.ntotal
       (EmbeddingService.service
          (fst (EmbeddingService.load_from_db (started office_store))))
     = 6%nat
  /\ slots_mapped
       (EmbeddingService.service
          (fst (ExpenseService.create_expense new_expense 1
                  (Some EmbeddingService.add_expense) (started office_store))))
  /\ slots_mapped
       (EmbeddingService.service
          (fst (GSTService._create_embedding_for_claim office_claim
                  (started office_store)))).
Proof.
  assert (Hslots : slots_mapped (EmbeddingService.service (started office_store)))
    by exact (load_from_db_keeps_slots office_world slots_mapped_init).
  destruct (every_slot_stays_mapped (started office_store) Hslots)
    as (Hexpense & Hclaim & Hload & Hcreate & Hindexing).
  split; [exact Hslots|]. split; [run|].
  split; [exact (Hexpense taxed_expense)|]. split; [run|].
  split; [exact (Hclaim office_claim)|].
  split; [exact Hload|]. split; [run|].
  split; [exact (Hcreate new_expense 1%Z)|]. exact (Hindexing office_claim).
Defined.

Lemma office_encoder_answers : forall text, is_Some (encode text).
Proof. intros text. now exists [0%Q]. Qed.

Lemma office_expense_ids :
  forall e, In e (expenses (EmbeddingService.db office_world)) -> Expense.id e <> 0%Z.
Proof. intros e [<-|[<-|[]]]; discriminate. Qed.

Lemma office_claim_ids :
  forall c, In c (gst_claims (EmbeddingService.db office_world)) -> GSTClaim.id c <> 0%Z.
Proof. intros c [<-|[]]; discriminate. Qed.

Lemma office_rows :
  forall r, In r (embeddings (EmbeddingService.db office_world)) -> new_format r.
Proof. intros r [<-|[]]. split; [reflexivity|discriminate]. Qed.

Lemma backfill_covers_every_record_witness :
  (forall text, is_Some (encode text))
  /\ (forall e, In e (expenses (EmbeddingService.db office_world)) -> Expense.id e <> 0%Z)
  /\ (forall c, In c (gst_claims (EmbeddingService.db office_world)) ->
        GSTClaim.id c <> 0%Z)
  /\ exists d',
       snd (EmbeddingService._backfill_missing_embeddings office_world) = Returns tt
       /\ EmbeddingService.db (fst (EmbeddingService._backfill_missing_embeddings office_world))
          = d'
       /\ (forall e, In e (expenses d') ->
             In ("expense", Some (Expense.id e)) (covered (embeddings d'))).
Proof.
  split; [exact office_encoder_answers|].
  split; [exact office_expense_ids|]. split; [exact office_claim_ids|].
  destruct (backfill_covers_every_record office_world office_encoder_answers
              office_expense_ids office_claim_ids)
    as (d' & added & Hrun & _ & _ & _ & _ & Hexpenses & _).
  exists d'. rewrite Hrun. now repeat split.
Defined.

Lemma backfill_twice_is_backfill_once_witness :
  (forall text, is_Some (encode text))
  /\ (forall e, In e (expenses (EmbeddingService.db office_world)) -> Expense.id e <> 0%Z)
  /\ (forall c, In c (gst_claims (EmbeddingService.db office_world)) ->
        GSTClaim.id c <> 0%Z)
  /\ EmbeddingService._backfill_missing_embeddings
       (fst (EmbeddingService._backfill_missing_embeddings office_world))
     = (fst (EmbeddingService._backfill_missing_embeddings office_world), Returns tt).
Proof.
  split; [exact office_encoder_answers|].
  split; [exact office_expense_ids|]. split; [exact office_claim_ids|].
  exact (backfill_twice_is_backfill_once office_world office_encoder_answers
           office_expense_ids office_claim_ids).
Defined.

Lemma startup_makes_records_searchable_witness :
  (forall text, is_Some (encode text))
  /\ (forall e, In e (expenses (EmbeddingService.db office_world)) -> Expense.id e <> 0%Z)
  /\ (forall c, In c (gst_claims (EmbeddingService.db office_world)) ->
        GSTClaim.id c <> 0%Z)
  /\ (forall r, In r (embeddings (EmbeddingService.db office_world)) -> new_format r)
  /\ (EmbeddingService.ntotal
        (EmbeddingService.service (fst (EmbeddingService.load_from_db office_world)))
      <= Pos.to_nat 5)%nat
  /\ exists l,
       snd (EmbeddingService.search "nov" 5
              (fst (EmbeddingService.load_from_db office_world))) = Returns l
       /\ (forall e, In e (expenses (EmbeddingService.db office_world)) ->
             In ("expense", Some (Expense.id e)) (map fst l))
       /\ (forall c, In c (gst_claims (EmbeddingService.db office_world)) ->
             In ("gst_claim", Some (GSTClaim.id c)) (map fst l)).
Proof.
  assert (Hk : (EmbeddingService.ntotal
                  (EmbeddingService.service
                     (fst (EmbeddingService.load_from_db office_world)))
                <= Pos.to_nat 5)%nat) by (vm_compute; lia).
  split; [exact office_encoder_answers|].
  split; [exact office_expense_ids|]. split; [exact office_claim_ids|].
  split; [exact office_rows|]. split; [exact Hk|].
  exact (startup_makes_records_searchable office_world "nov" 5 office_encoder_answers
           office_expense_ids office_claim_ids office_rows Hk).
Defined.

Lemma extracted_month_is_a_month_witness :
  _extract_month_from_query "expense in nov" = Some 11%Z /\ (1 <= 11 <= 12)%Z.
Proof.
  assert (Hmonth : _extract_month_from_query "expense in nov" = Some 11%Z) by run.
  split; [exact Hmonth|].
  exact (extracted_month_is_a_month "expense in nov" 11%Z Hmonth).
Defined.

Lemma corrected_word_is_known_witness :
  (forall w possibilities cutoff x,
     In x (close_matches w possibilities cutoff) -> In x possibilities)
  /\ (_correct_spelling "resturant" None = "resturant"
      \/ _correct_spelling "resturant" None = Text.lower "resturant"
      \/ _correct_spelling "resturant" None = "petrol"
      \/ In (_correct_spelling "resturant" None) (default EXPENSE_VOCABULARY None)).
Proof.
  split; [exact get_close_matches_subset|].
  exact (corrected_word_is_known "resturant" None get_close_matches_subset).
Defined.

Lemma person_store_keys :
  NoDup (map Expense.id (expenses (EmbeddingService.db person_world))).
Proof. apply NoDup_ListNoDup. repeat constructor; cbn; intuition discriminate. Qed.

Lemma employee_cannot_alter_foreign_expenses_witness :
  ExpenseRoutes.role employee = "Employee"
  /\ NoDup (map Expense.id (expenses (EmbeddingService.db person_world)))
  /\ In (expense 2 2 (on 2025 11 20) "Petrol" "Fuel" "Travel" 1200 false 0)
        (expenses (EmbeddingService.db person_world))
  /\ Expense.user_id (expense 2 2 (on 2025 11 20) "Petrol" "Fuel" "Travel" 1200 false 0)
     <> ExpenseRoutes.user_id employee
  /\ In (expense 2 2 (on 2025 11 20) "Petrol" "Fuel" "Travel" 1200 false 0)
        (expenses (EmbeddingService.db
                     (fst (fst (ExpenseRoutes.update_expense_status 1 "approved" employee
                                  person_world)))))
  /\ In (expense 2 2 (on 2025 11 20) "Petrol" "Fuel" "Travel" 1200 false 0)
        (expenses (EmbeddingService.db
                     (fst (fst (ExpenseRoutes.delete_expense 1 employee person_world))))).
Proof.
  assert (Hrole : ExpenseRoutes.role employee = "Employee") by reflexivity.
  assert (Hin : In (expense 2 2 (on 2025 11 20) "Petrol" "Fuel" "Travel" 1200 false 0)
                   (expenses (EmbeddingService.db person_world)))
    by (right; left; reflexivity).
  assert (Howner : Expense.user_id
                     (expense 2 2 (on 2025 11 20) "Petrol" "Fuel" "Travel" 1200 false 0)
                   <> ExpenseRoutes.user_id employee) by discriminate.
  split; [exact Hrole|]. split; [exact person_store_keys|].
  split; [exact Hin|]. split; [exact Howner|].
  exact (employee_cannot_alter_foreign_expenses employee 1 "approved" person_world _
           Hrole person_store_keys Hin Howner).
Defined.

Lemma employee_sets_own_status_unaudited_witness :
  ExpenseRoutes.role employee = "Employee"
  /\ ExpenseService.find_expense (EmbeddingService.db person_world) 1
     = Some (expense 1 1 (on 2025 11 21) "Chocolate Cake" "Cake" "Food" 500 false 0)
  /\ Expense.user_id (expense 1 1 (on 2025 11 21) "Chocolate Cake" "Cake" "Food" 500 false 0)
     = ExpenseRoutes.user_id employee
  /\ exists w',
       ExpenseRoutes.update_expense_status 1 "approved" employee person_world
       = (w', ExpenseRoutes._serialize_expense (EmbeddingService.db w')
                (ExpenseService.with_status
                   (expense 1 1 (on 2025 11 21) "Chocolate Cake" "Cake" "Food" 500 false 0)
                   "approved"), [])
       /\ ExpenseService.find_expense (EmbeddingService.db w') 1
          = Some (ExpenseService.with_status
                    (expense 1 1 (on 2025 11 21) "Chocolate Cake" "Cake" "Food" 500 false 0)
                    "approved").
Proof.
  assert (Hrole : ExpenseRoutes.role employee = "Employee") by reflexivity.
  assert (Hfind : ExpenseService.find_expense (EmbeddingService.db person_world) 1
                  = Some (expense 1 1 (on 2025 11 21) "Chocolate Cake" "Cake" "Food"
                            500 false 0)) by reflexivity.
  assert (Hmine : Expense.user_id
                    (expense 1 1 (on 2025 11 21) "Chocolate Cake" "Cake" "Food" 500 false 0)
                  = ExpenseRoutes.user_id employee) by reflexivity.
  split; [exact Hrole|]. split; [exact Hfind|]. split; [exact Hmine|].
  exact (employee_sets_own_status_unaudited employee 1 "approved" person_world _
           Hrole Hfind Hmine).
Defined.

End FurtherRuns.
